(** * The LinkedIn connections tagger: a shallow embedding and its properties

    The development follows the two Python modules of the repository:

    - [serpapi_method.py]: the interest taxonomy [INTERESTS], the label
      classifier [get_interests_from_profile], the profile resolver
      [get_linkedin_profile_data] and the per-row pipeline
      [process_profiles];
    - [linkedin_tagger.py]: [validate_csv_structure], [read_linkedin_csv]
      and [main].

    Conventions of the embedding.

    - A Python [str] is a [string]; one character of the model stands for
      one code point below 256, so texts are Latin-1.
    - Values decoded from JSON and values handed around dynamically are
      [pyval]s; the operations [in], [x[k]], [x[:10]], iteration and
      [str.join] raise on the operand types on which Python raises.
    - Effects are explicit: a computation of type [M A] maps the history of
      observable events (log records, sleeps, outbound requests, file
      writes) to an outcome and the extended history.  An outcome is a
      returned value, a raised exception, or [OutOfFuel] for a component
      that does not come back.  No function of the two modules produces
      [OutOfFuel]: the one recursion of the program, the resolver's retry,
      ends with a [RecursionError] at the interpreter's depth limit.
    - The external services are parameters: the search endpoint
      ([requests.get]), the completion endpoint
      ([client.chat.completions.create]), the JSON decoder ([json.loads]),
      the process environment and the file reader ([pd.read_csv]).
    - Logging, sleeping and [df.to_csv] are taken to succeed; each leaves
      one event in the history.  The table a path holds is the one of the
      last [ToCsv] event for it. *)

From Stdlib Require Import String Ascii ZArith List Bool Lia DecimalString.
From stdpp Require Import base list strings.

#[local] Set Warnings "-register-all".

Local Open Scope string_scope.
Local Open Scope list_scope.

(** ** Strings *)

Module Str.

(** [str.lower] on Latin-1: [A-Z] and the accented capitals
    U+00C0..U+00DE (the multiplication sign U+00D7 apart) move up by 32. *)
Definition lower_char (c : ascii) : ascii :=
  let n := nat_of_ascii c in
  if (((65 <=? n) && (n <=? 90))
      || ((192 <=? n) && (n <=? 222) && negb (n =? 215)))%nat
  then ascii_of_nat (n + 32) else c.

Fixpoint lower (s : string) : string :=
  match s with
  | EmptyString => EmptyString
  | String c s' => String (lower_char c) (lower s')
  end.

(** [needle in hay] for two strings. *)
Fixpoint contains (needle hay : string) : bool :=
  String.prefix needle hay
  || match hay with
     | EmptyString => false
     | String _ hay' => contains needle hay'
     end.

(** [s.split(sep)] for a non-empty separator: [cur] is the part being
    read, [skip] the number of characters of a matched separator still to
    pass over. *)
Fixpoint split_go (sep : string) (skip : nat) (cur s : string) : list string :=
  match s with
  | EmptyString => [cur]
  | String c s' =>
      match skip with
      | S n => split_go sep n cur s'
      | O =>
          if String.prefix sep s
          then cur :: split_go sep (String.length sep - 1) EmptyString s'
          else split_go sep 0 (cur +:+ String c EmptyString) s'
      end
  end.

Definition split (sep s : string) : list string :=
  split_go sep 0 EmptyString s.

(** The characters [str.strip()] removes, below 256. *)
Definition is_space (c : ascii) : bool :=
  let n := nat_of_ascii c in
  (((9 <=? n) && (n <=? 13)) || ((28 <=? n) && (n <=? 32))
   || (n =? 133) || (n =? 160))%nat.

Fixpoint lstrip_by (drop : ascii -> bool) (s : string) : string :=
  match s with
  | EmptyString => EmptyString
  | String c s' => if drop c then lstrip_by drop s' else s
  end.

Definition reverse (s : string) : string :=
  string_of_list_ascii (rev (list_ascii_of_string s)).

Definition strip_by (drop : ascii -> bool) (s : string) : string :=
  reverse (lstrip_by drop (reverse (lstrip_by drop s))).

(** [s.strip()] *)
Definition strip (s : string) : string := strip_by is_space s.

(** [s.strip(chars)] *)
Definition strip_chars (chars : list ascii) (s : string) : string :=
  strip_by (fun c => existsb (Ascii.eqb c) chars) s.

(** [s[:n]] *)
Definition take (n : nat) (s : string) : string := substring 0 n s.

(** The one-character strings of [s], as iteration over a [str] yields. *)
Fixpoint chars (s : string) : list string :=
  match s with
  | EmptyString => []
  | String c s' => String c EmptyString :: chars s'
  end.

Definition dquote : string := String "034"%char EmptyString.
Definition newline : string := String "010"%char EmptyString.

End Str.

(** ** Python values and exceptions *)

Inductive pyval : Type :=
| PyNone
| PyBool (b : bool)
| PyInt (n : Z)
| PyFloat (literal : string)
| PyStr (s : string)
| PyList (xs : list pyval)
| PyDict (items : list (string * pyval)).

(** The exception classes the two modules can meet.  All of them derive
    from [Exception]; only [JSONDecodeError] is caught by class. *)
Inductive exn : Type :=
| JSONDecodeError
| TypeError
| KeyError (key : string)
| IndexError
| AttributeError
| ValueError (msg : string)
| FileNotFoundError (path : string)
| HTTPError (status : Z)
| RecursionError
| ServiceError (msg : string).

Definition is_JSONDecodeError (e : exn) : bool :=
  match e with JSONDecodeError => true | _ => false end.

Inductive outcome (A : Type) : Type :=
| Return (a : A)
| Raise (e : exn)
| OutOfFuel.

Arguments Return {A} a.
Arguments Raise {A} e.
Arguments OutOfFuel {A}.

Module Py.

Definition lookup (key : string) (items : list (string * pyval)) : option pyval :=
  match List.find (fun kv => String.eqb key (fst kv)) items with
  | Some kv => Some (snd kv)
  | None => None
  end.

(** [d[key] = v] on the items of a dict: an existing key keeps its place. *)
Fixpoint set_item (key : string) (v : pyval) (items : list (string * pyval))
  : list (string * pyval) :=
  match items with
  | [] => [(key, v)]
  | (k, w) :: rest =>
      if String.eqb key k then (k, v) :: rest else (k, w) :: set_item key v rest
  end.

Definition is_dict (v : pyval) : bool :=
  match v with PyDict _ => true | _ => false end.

(** [key in v] for a string [key]. *)
Definition contains (key : string) (v : pyval) : outcome bool :=
  match v with
  | PyDict items => Return (existsb (fun kv => String.eqb key (fst kv)) items)
  | PyList xs =>
      Return (existsb (fun x => match x with
                                | PyStr s => String.eqb key s
                                | _ => false
                                end) xs)
  | PyStr s => Return (Str.contains key s)
  | _ => Raise TypeError
  end.

(** [v[key]] for a string [key]. *)
Definition getitem (v : pyval) (key : string) : outcome pyval :=
  match v with
  | PyDict items =>
      match lookup key items with
      | Some x => Return x
      | None => Raise (KeyError key)
      end
  | _ => Raise TypeError
  end.

(** [v.get(key, default)] *)
Definition get (v : pyval) (key : string) (default : pyval) : outcome pyval :=
  match v with
  | PyDict items =>
      Return (match lookup key items with Some x => x | None => default end)
  | _ => Raise AttributeError
  end.

(** The elements [for x in v] runs over. *)
Definition iter (v : pyval) : outcome (list pyval) :=
  match v with
  | PyList xs => Return xs
  | PyDict items => Return (map (fun kv => PyStr (fst kv)) items)
  | PyStr s => Return (map PyStr (Str.chars s))
  | _ => Raise TypeError
  end.

(** [v[:n]]: lists and strings are sliced, nothing else can be.  (On a
    dict Python raises [TypeError] or, from 3.12 on, [KeyError]; both are
    [Exception]s and are handled alike by the callers.) *)
Definition slice_to (n : nat) (v : pyval) : outcome pyval :=
  match v with
  | PyList xs => Return (PyList (firstn n xs))
  | PyStr s => Return (PyStr (Str.take n s))
  | _ => Raise TypeError
  end.

(** The strings of a list of values, when all of them are strings. *)
Fixpoint strings_of (xs : list pyval) : option (list string) :=
  match xs with
  | [] => Some []
  | PyStr s :: rest =>
      match strings_of rest with
      | Some ss => Some (s :: ss)
      | None => None
      end
  | _ :: _ => None
  end.

(** [sep.join(xs)] for a list already in hand. *)
Definition join_list (sep : string) (xs : list pyval) : outcome string :=
  match strings_of xs with
  | Some ss => Return (String.concat sep ss)
  | None => Raise TypeError
  end.

(** [sep.join(v)] for any iterable [v]. *)
Definition join (sep : string) (v : pyval) : outcome string :=
  match iter v with
  | Return xs => join_list sep xs
  | Raise e => Raise e
  | OutOfFuel => OutOfFuel
  end.

(** [len(v)] of a sized value, [0] for the others. *)
Definition len (v : pyval) : nat :=
  match v with
  | PyList xs => length xs
  | PyStr s => String.length s
  | PyDict items => length items
  | _ => 0
  end.

End Py.

(** ** Tables

    A [DataFrame] is kept by columns, as pandas keeps it: every column has
    a label and one cell per row.  A cell read from a CSV file is a text or
    missing ([NaN]).  Rows are identified by their position, which is the
    label [pd.read_csv] gives them and [head] preserves. *)

Inductive cell : Type :=
| Text (s : string)
| NaN.

(** How an f-string renders a cell. *)
Definition cell_str (c : cell) : string :=
  match c with
  | Text s => s
  | NaN => "nan"
  end.

Record DataFrame : Type := mkDataFrame {
  nrows : nat;
  columns : list (string * list cell)
}.

(** A row as [iterrows] yields it: the labels with the row's cells. *)
Definition Series : Type := list (string * cell).

Module DF.

Definition column_names (df : DataFrame) : list string :=
  map fst (columns df).

(** [c in df.columns] *)
Definition has_column (c : string) (df : DataFrame) : bool :=
  existsb (String.eqb c) (column_names df).

Definition column (c : string) (df : DataFrame) : option (list cell) :=
  match List.find (fun kv => String.eqb c (fst kv)) (columns df) with
  | Some kv => Some (snd kv)
  | None => None
  end.

Definition cell_at (i : nat) (vs : list cell) : cell :=
  match vs !! i with
  | Some x => x
  | None => NaN
  end.

(** [df[c] = fill] for a label that is not a column yet. *)
Definition add_column (c : string) (fill : cell) (df : DataFrame) : DataFrame :=
  {| nrows := nrows df;
     columns := columns df ++ [(c, repeat fill (nrows df))] |}.

Fixpoint update_column (c : string) (f : list cell -> list cell)
  (cols : list (string * list cell)) : list (string * list cell) :=
  match cols with
  | [] => []
  | (k, vs) :: rest =>
      if String.eqb c k then (k, f vs) :: rest
      else (k, vs) :: update_column c f rest
  end.

(** [df.at[i, c] = v]; a label that is not a column yet becomes one, with
    missing cells in the other rows. *)
Definition set_at (i : nat) (c : string) (v : cell) (df : DataFrame) : DataFrame :=
  if has_column c df
  then {| nrows := nrows df;
          columns := update_column c (fun vs => <[i := v]> vs) (columns df) |}
  else {| nrows := nrows df;
          columns := columns df ++ [(c, <[i := v]> (repeat NaN (nrows df)))] |}.

(** [df.head(n)] *)
Definition head (n : nat) (df : DataFrame) : DataFrame :=
  {| nrows := Nat.min n (nrows df);
     columns := map (fun kv => (fst kv, firstn n (snd kv))) (columns df) |}.

Definition row (df : DataFrame) (i : nat) : Series :=
  map (fun kv => (fst kv, cell_at i (snd kv))) (columns df).

(** [df.iterrows()]: the rows are read off the table as it is when the
    loop starts. *)
Definition iterrows (df : DataFrame) : list (nat * Series) :=
  map (fun i => (i, row df i)) (seq 0 (nrows df)).

(** [row[c]] *)
Definition get (r : Series) (c : string) : outcome cell :=
  match List.find (fun kv => String.eqb c (fst kv)) r with
  | Some kv => Return (snd kv)
  | None => Raise (KeyError c)
  end.

(** [df.iloc[i]] *)
Definition iloc (df : DataFrame) (i : nat) : outcome Series :=
  if (i <? nrows df)%nat then Return (row df i) else Raise IndexError.

(** The cells of a column that hold a non-empty text. *)
Definition filled (c : cell) : bool :=
  match c with
  | Text s => negb (String.eqb s EmptyString)
  | NaN => false
  end.

Definition count_filled (c : string) (df : DataFrame) : nat :=
  match column c df with
  | Some vs => length (List.filter filled vs)
  | None => 0
  end.

End DF.

(** ** Requests to the external services *)

(** The query parameters of the search request. *)
Record search_params : Type := mkParams {
  engine : string;
  api_key : option string;
  q : string;
  hl : string;
  gl : string;
  num : Z;
  filter : Z
}.

(** What [requests.get] gives back: a status code and, when the body is
    JSON, its decoded value. *)
Record response : Type := mkResponse {
  status_code : Z;
  body : option pyval
}.

Inductive http_result : Type :=
| HttpFails (e : exn)
| HttpResponds (r : response).

(** The arguments of [client.chat.completions.create].  The temperature
    0.3 is kept in tenths. *)
Record chat_request : Type := mkChat {
  model : string;
  system_content : string;
  user_content : string;
  temperature_tenths : Z;
  completion_max_tokens : Z;
  response_format : string
}.

(** A completion: the [message.content] of each choice, which may be
    [None]. *)
Inductive chat_result : Type :=
| ChatFails (e : exn)
| ChatResponds (choices : list (option string)).

(** The [person_info] dict the pipeline builds for the classifier. *)
Record person_info : Type := mkPerson {
  first_name : cell;
  last_name : cell;
  company : cell;
  position : cell
}.

(** ** Observable events and the effect monad *)

Inductive level : Type :=
| INFO
| WARNING
| ERROR.

Inductive event : Type :=
| Log (lvl : level) (msg : string) (cause : option exn)
| Sleep (seconds : Z)
| HttpGet (url : string) (params : search_params)
| ChatCompletion (req : chat_request)
| ToCsv (path : string) (df : DataFrame)
| CallResolver (url : cell)
| CallClassifier (profile_text : string) (info : person_info).

Definition history : Type := list event.

Definition M (A : Type) : Type := history -> outcome A * history.

Definition ret {A} (a : A) : M A := fun h => (Return a, h).

Definition raise {A} (e : exn) : M A := fun h => (Raise e, h).

Definition bind {A B} (m : M A) (k : A -> M B) : M B :=
  fun h =>
    match m h with
    | (Return a, h') => k a h'
    | (Raise e, h') => (Raise e, h')
    | (OutOfFuel, h') => (OutOfFuel, h')
    end.

Notation "x <- m ;; k" := (bind m (fun x => k))
  (at level 100, m at next level, right associativity).
Notation "m ;;; k" := (bind m (fun _ => k))
  (at level 100, right associativity).

(** A pure operation that may raise. *)
Definition lift {A} (o : outcome A) : M A := fun h => (o, h).

Definition emit (e : event) : M unit := fun h => (Return tt, h ++ [e]).

Definition logging_info (msg : string) : M unit := emit (Log INFO msg None).
Definition logging_warning (msg : string) : M unit := emit (Log WARNING msg None).
(** [logging.error(f"{msg}: {str(e)}")]: the record keeps the text before
    the colon and the exception itself. *)
Definition logging_error (msg : string) (e : exn) : M unit :=
  emit (Log ERROR msg (Some e)).

Definition time_sleep (seconds : Z) : M unit := emit (Sleep seconds).

(** [try: body except Exception as e: handler e].  Every exception class
    of the model derives from [Exception], [RecursionError] included. *)
Definition try_except {A} (body : M A) (handler : exn -> M A) : M A :=
  fun h =>
    match body h with
    | (Raise e, h') => handler e h'
    | r => r
    end.

(** [try: body except C: handler] for the exceptions selected by [catches]. *)
Definition try_except_on {A} (catches : exn -> bool) (body : M A) (handler : M A)
  : M A :=
  fun h =>
    match body h with
    | (Raise e, h') => if catches e then handler h' else (Raise e, h')
    | r => r
    end.

(** The number of requests of each kind already in the history: the index
    of the next one. *)
Definition is_HttpGet (e : event) : bool :=
  match e with HttpGet _ _ => true | _ => false end.

Definition is_ChatCompletion (e : event) : bool :=
  match e with ChatCompletion _ => true | _ => false end.


Definition is_CallClassifier (e : event) : bool :=
  match e with CallClassifier _ _ => true | _ => false end.

Definition is_CallResolver (e : event) : bool :=
  match e with CallResolver _ => true | _ => false end.

Definition count (p : event -> bool) (h : history) : nat :=
  length (List.filter p h).

(** The table a path holds after the events of [h]: the one of the last
    write to it. *)
Fixpoint persisted (path : string) (h : history) : option DataFrame :=
  match h with
  | [] => None
  | e :: h' =>
      match persisted path h' with
      | Some df => Some df
      | None =>
          match e with
          | ToCsv p df => if String.eqb p path then Some df else None
          | _ => None
          end
      end
  end.

(** ** The taxonomy *)

Definition INTERESTS : list string :=
  [ "Strategy"; "Operations"; "Entrepreneurship"; "Leadership"; "Management";
    "Marketing"; "Sales"; "Investing"; "Personal Finance"; "Corporate Finance";
    "Financial Planning"; "Venture Capital"; "Economics"; "Artificial Intelligence";
    "Blockchain"; "Cybersecurity"; "Software Development"; "Data Science";
    "Cloud Computing"; "Remote Work"; "Career Development"; "Workplace Culture";
    "Job Hunting"; "Networking"; "Freelancing"; "Mental Health"; "Physical Fitness";
    "Nutrition"; "Mindfulness"; "Work-Life Balance"; "Sleep"; "Productivity";
    "Time Management"; "Goal Setting"; "Habits"; "Self-Discipline"; "Motivation";
    "Lifelong Learning"; "Online Courses"; "Reading"; "Writing"; "Public Speaking";
    "Critical Thinking"; "Design"; "Storytelling"; "Content Creation"; "Innovation";
    "Art"; "Media"; "Diversity & Inclusion"; "Social Impact"; "Ethics";
    "Global Trends"; "Politics"; "Sustainability"; "Space Exploration";
    "Climate Change"; "Biotech"; "Futurism"; "Quantum Computing";
    "Emerging Technologies" ].

(** The value written when the tags could not be determined. *)
Definition SENTINEL : string := "Profile inaccessible".

Definition sentinel_tags : pyval := PyList [PyStr SENTINEL].

(** ** The label classifier ([serpapi_method.get_interests_from_profile]) *)

Section Classifier.

(** [json.loads]: [None] stands for [JSONDecodeError]. *)
Variable json_loads : string -> option pyval.

(** [client.chat.completions.create]: the answer to the [n]-th request
    (counted from 0) with the given arguments. *)
Variable chat_create : nat -> chat_request -> chat_result.

Definition system_message : string :=
  "You are a professional career analyst. Your task is to analyze LinkedIn profiles and identify relevant professional interests and expertise areas. Always return a valid JSON array of strings.".

Definition example_format : string :=
  "[" +:+ String.concat ", "
            (map (fun s => Str.dquote +:+ s +:+ Str.dquote)
               ["Leadership"; "Management"; "Strategy"; "Innovation";
                "Career Development"])
  +:+ "]".

Definition build_prompt (truncated_text : string) (info : person_info) : string :=
  let nl := Str.newline in
  let ind := "        " in
  nl
  +:+ ind +:+ "Based on the following LinkedIn profile information, select at least 5 most relevant interests from the provided list." +:+ nl
  +:+ ind +:+ "Only select from these interests: " +:+ String.concat ", " INTERESTS +:+ nl
  +:+ ind +:+ nl
  +:+ ind +:+ "Person's information:" +:+ nl
  +:+ ind +:+ "Name: " +:+ cell_str (first_name info) +:+ " "
              +:+ cell_str (last_name info) +:+ nl
  +:+ ind +:+ "Company: " +:+ cell_str (company info) +:+ nl
  +:+ ind +:+ "Position: " +:+ cell_str (position info) +:+ nl
  +:+ ind +:+ nl
  +:+ ind +:+ "Profile content:" +:+ nl
  +:+ ind +:+ truncated_text +:+ nl
  +:+ ind +:+ nl
  +:+ ind +:+ "Return the interests as a JSON array of strings, selecting the most relevant interests based on the profile information." +:+ nl
  +:+ ind +:+ "Example response format: " +:+ example_format +:+ nl
  +:+ ind.

Definition classifier_request (profile_text : string) (info : person_info)
  : chat_request :=
  let max_tokens := 2000%nat in
  let truncated_text := Str.take max_tokens profile_text in
  let prompt := build_prompt truncated_text info in
  {| model := "gpt-4-turbo-preview";
     system_content := system_message;
     user_content := prompt;
     temperature_tenths := 3;
     completion_max_tokens := 500;
     response_format := "json_object" |}.

(** One call of the completion endpoint: the request is recorded, then
    the service answers or fails. *)
Definition completions_create (req : chat_request) : M (list (option string)) :=
  fun h =>
    match chat_create (count is_ChatCompletion h) req with
    | ChatFails e => (Raise e, h ++ [ChatCompletion req])
    | ChatResponds choices => (Return choices, h ++ [ChatCompletion req])
    end.

(** [json.loads(text)]; a [None] text is a [TypeError]. *)
Definition loads (text : option string) : M pyval :=
  match text with
  | None => raise TypeError
  | Some s =>
      match json_loads s with
      | Some v => ret v
      | None => raise JSONDecodeError
      end
  end.

(** The labels whose lower-cased text occurs in the lower-cased response,
    in the order of the taxonomy. *)
Definition scan_interests (interests_text : string) : list string :=
  List.filter
    (fun interest => Str.contains (Str.lower interest) (Str.lower interests_text))
    INTERESTS.

(** The inner [try] of the classifier (lines 69-84): the value of
    [interests] before it is cut to ten. *)
Definition parse_interests (interests_text : option string) : M pyval :=
  try_except_on is_JSONDecodeError
    (interests_data <- loads interests_text ;;
     has <- (if Py.is_dict interests_data
             then lift (Py.contains "interests" interests_data)
             else ret false) ;;
     if has : bool
     then lift (Py.getitem interests_data "interests")
     else loads interests_text)
    (match interests_text with
     | Some text =>
         let interests := scan_interests text in
         match interests with
         | [] => ret sentinel_tags
         | _ :: _ => ret (PyList (map PyStr interests))
         end
     | None => raise AttributeError
     end).

(** The body of the outer [try] (lines 36-86). *)
Definition classifier_body (profile_text : string) (info : person_info) : M pyval :=
  choices <- completions_create (classifier_request profile_text info) ;;
  interests_text <- match choices with
                    | [] => raise IndexError
                    | content :: _ => ret content
                    end ;;
  interests <- parse_interests interests_text ;;
  lift (Py.slice_to 10 interests).

(** The text of the error record of line 89, up to the colon. *)
Definition classifier_error_message (info : person_info) : string :=
  "Error getting interests for " +:+ cell_str (first_name info)
  +:+ " " +:+ cell_str (last_name info).

Definition get_interests_from_profile (profile_text : string) (info : person_info)
  : M pyval :=
  try_except
    (classifier_body profile_text info)
    (fun e =>
       logging_error (classifier_error_message info) e ;;;
       ret sentinel_tags).

End Classifier.

(** ** The profile resolver ([serpapi_method.get_linkedin_profile_data]) *)

Section Resolver.

(** [os.getenv] *)
Variable getenv : string -> option string.

(** [requests.get]: the answer to the [n]-th request (counted from 0) to
    the given address with the given parameters. *)
Variable requests_get : nat -> string -> search_params -> http_result.

(** [url.split('/in/')[-1].split('/')[0]]; a missing URL is a float and
    has no [split]. *)
Definition profile_id_of (url : cell) : outcome string :=
  match url with
  | Text u =>
      Return (hd EmptyString
                (Str.split "/" (List.last (Str.split "/in/" u) EmptyString)))
  | NaN => Raise AttributeError
  end.

Definition api_url : string := "https://serpapi.com/search".

Definition search_request (profile_id : string) : search_params :=
  {| engine := "google";
     api_key := getenv "SERPAPI_API_KEY";
     q := "site:linkedin.com/in/" +:+ profile_id;
     hl := "en";
     gl := "us";
     num := 10;
     filter := 0 |}.

(** One call of the search endpoint: the request is recorded, then the
    service answers or fails. *)
Definition http_get (url : string) (params : search_params) : M response :=
  fun h =>
    match requests_get (count is_HttpGet h) url params with
    | HttpFails e => (Raise e, h ++ [HttpGet url params])
    | HttpResponds r => (Return r, h ++ [HttpGet url params])
    end.

(** [response.raise_for_status()] *)
Definition raise_for_status (r : response) : outcome unit :=
  if ((400 <=? status_code r) && (status_code r <? 600))%Z
  then Raise (HTTPError (status_code r))
  else Return tt.

(** [response.json()] *)
Definition response_json (r : response) : outcome pyval :=
  match body r with
  | Some v => Return v
  | None => Raise JSONDecodeError
  end.

(** The body of the loop over the organic results (lines 130-137). *)
Definition collect_result (profile_id : string) (profile_info : list pyval)
  (result : pyval) : M (list pyval) :=
  has_title <- lift (Py.contains "title" result) ;;
  profile_info <- (if has_title : bool
                   then title <- lift (Py.getitem result "title") ;;
                        ret (profile_info ++ [title])
                   else ret profile_info) ;;
  has_snippet <- lift (Py.contains "snippet" result) ;;
  profile_info <- (if has_snippet : bool
                   then snippet <- lift (Py.getitem result "snippet") ;;
                        ret (profile_info ++ [snippet])
                   else ret profile_info) ;;
  has_link <- lift (Py.contains "link" result) ;;
  is_main <- (if has_link : bool
              then link <- lift (Py.getitem result "link") ;;
                   lift (Py.contains profile_id link)
              else ret false) ;;
  if is_main : bool
  then has_about <- lift (Py.contains "about_this_result" result) ;;
       if has_about : bool
       then about <- lift (Py.getitem result "about_this_result") ;;
            description <- lift (Py.get about "description" (PyStr EmptyString)) ;;
            ret (profile_info ++ [description])
       else ret profile_info
  else ret profile_info.

Fixpoint collect_results (profile_id : string) (profile_info : list pyval)
  (results : list pyval) : M (list pyval) :=
  match results with
  | [] => ret profile_info
  | result :: rest =>
      profile_info <- collect_result profile_id profile_info result ;;
      collect_results profile_id profile_info rest
  end.

(** Lines 123-144: from the decoded body to the snippet. *)
Definition extract_snippet (profile_id : string) (data : pyval) : M string :=
  has_results <- lift (Py.contains "organic_results" data) ;;
  profile_info <- (if has_results : bool
                   then organic <- lift (Py.getitem data "organic_results") ;;
                        results <- lift (Py.iter organic) ;;
                        collect_results profile_id [] results
                   else ret []) ;;
  match profile_info with
  | _ :: _ =>
      joined <- lift (Py.join_list " " profile_info) ;;
      ret (Str.strip joined)
  | [] =>
      logging_warning "No profile information found in search results" ;;;
      ret EmptyString
  end.

(** The resolver.  The source puts no bound of its own on the recursion
    of line 119; the interpreter does.  [depth] is the number of nested
    calls of the resolver the interpreter still allows below the current
    one.  The call that would exceed it raises [RecursionError]; line 119
    is inside the [try] of the frame that makes the call, so this frame's
    own [except Exception] logs the error and returns the empty snippet,
    which the frames above hand back unchanged.  (Which call of the
    deepest frames it is that meets the limit depends on the interpreter;
    the model lets it be the recursive call, and leaves [depth] free.) *)
Fixpoint get_linkedin_profile_data (depth : nat) (url : cell) : M string :=
  try_except
    (profile_id <- lift (profile_id_of url) ;;
     response <- http_get api_url (search_request profile_id) ;;
     if (status_code response =? 429)%Z
     then logging_warning "Rate limit reached. Waiting before retry..." ;;;
          time_sleep 60 ;;;
          match depth with
          | O => raise RecursionError
          | S depth' => get_linkedin_profile_data depth' url
          end
     else lift (raise_for_status response) ;;;
          data <- lift (response_json response) ;;
          extract_snippet profile_id data)
    (fun e =>
       logging_error "Error getting profile data from SerpAPI" e ;;;
       ret EmptyString).

End Resolver.

(** ** The enrichment pipeline ([serpapi_method.process_profiles]) *)

Definition nat_str (n : nat) : string :=
  DecimalString.NilZero.string_of_uint (Nat.to_uint n).

Fixpoint foldM {A B} (f : A -> B -> M A) (xs : list B) (a : A) : M A :=
  match xs with
  | [] => ret a
  | x :: rest => a' <- f a x ;; foldM f rest a'
  end.

Section Pipeline.

(** The two components the loop calls by name.  The pipeline records
    each call ([CallResolver], [CallClassifier]) before making it. *)
Variable resolver : cell -> M string.
Variable classifier : string -> person_info -> M pyval.

(** The body of the loop (lines 163-190) on the table as it stands. *)
Definition process_row (output_file : string) (df : DataFrame)
  (indexed : nat * Series) : M DataFrame :=
  let (index, row) := indexed in
  first <- lift (DF.get row "First Name") ;;
  last <- lift (DF.get row "Last Name") ;;
  let name := cell_str first +:+ " " +:+ cell_str last in
  logging_info ("Processing profile for " +:+ name) ;;;
  url <- lift (DF.get row "URL") ;;
  emit (CallResolver url) ;;;
  profile_text <- resolver url ;;
  if negb (String.eqb profile_text EmptyString)
  then
    first_name <- lift (DF.get row "First Name") ;;
    last_name <- lift (DF.get row "Last Name") ;;
    company <- lift (DF.get row "Company") ;;
    position <- lift (DF.get row "Position") ;;
    let info := mkPerson first_name last_name company position in
    emit (CallClassifier profile_text info) ;;;
    interests <- classifier profile_text info ;;
    joined <- lift (Py.join ", " interests) ;;
    let df := DF.set_at index "Interests" (Text joined) df in
    emit (ToCsv output_file df) ;;;
    time_sleep 2 ;;;
    ret df
  else
    logging_warning ("Could not fetch profile content for " +:+ name) ;;;
    ret (DF.set_at index "Interests" (Text SENTINEL) df).

(** Lines 155-157. *)
Definition ensure_interests (df : DataFrame) : DataFrame :=
  if DF.has_column "Interests" df then df
  else DF.add_column "Interests" (Text EmptyString) df.

(** [process_profiles] changes the table in place; the model returns the
    table as the caller finds it afterwards. *)
Definition process_profiles_with (df : DataFrame) (output_file : string)
  : M DataFrame :=
  try_except
    (let df := ensure_interests df in
     logging_info ("Processing " +:+ nat_str (nrows df) +:+ " profiles") ;;;
     df <- foldM (process_row output_file) (DF.iterrows df) df ;;
     logging_info "SerpAPI processing completed successfully" ;;;
     ret df)
    (fun e =>
       logging_error "Error processing profiles with SerpAPI" e ;;;
       raise e).

End Pipeline.

(** ** The program ([linkedin_tagger.py]) *)

(** [validate_csv_structure] *)
Definition required_columns : list string :=
  ["First Name"; "Last Name"; "Company"; "Position"].

Definition missing_columns (df : DataFrame) : list string :=
  List.filter (fun col => negb (DF.has_column col df)) required_columns.

Definition validate_csv_structure (df : DataFrame) : M bool :=
  match missing_columns df with
  | _ :: _ =>
      emit (Log ERROR ("CSV is missing required columns: "
                       +:+ String.concat ", " (missing_columns df)) None) ;;;
      ret false
  | [] => ret true
  end.

Section Program.

Variable getenv : string -> option string.
(** The line [input] reads, [os.path.exists], and [pd.read_csv] with its
    [skiprows] argument. *)
Variable stdin_line : string.
Variable path_exists : string -> bool.
Variable read_csv : string -> nat -> outcome DataFrame.

Variable json_loads : string -> option pyval.
Variable chat_create : nat -> chat_request -> chat_result.
Variable requests_get : nat -> string -> search_params -> http_result.

(** The depth the interpreter allows to the resolver's recursion. *)
Variable fuel : nat.

(** The pipeline with the two components of [serpapi_method]. *)
Definition process_profiles (df : DataFrame) (output_file : string) : M DataFrame :=
  process_profiles_with
    (get_linkedin_profile_data getenv requests_get fuel)
    (get_interests_from_profile json_loads chat_create)
    df output_file.

(** The test of lines 110 and 116: the row has fewer than four cells or
    one of them mentions a note. *)
Definition looks_like_notes (r : Series) : bool :=
  (length r <? 4)%nat
  || existsb (fun kv => Str.contains "note" (Str.lower (cell_str (snd kv)))) r.

Definition read_linkedin_csv (file_path : string) : M DataFrame :=
  try_except
    (df <- lift (read_csv file_path 0) ;;
     first_row <- lift (DF.iloc df 0) ;;
     if looks_like_notes first_row
     then df <- lift (read_csv file_path 1) ;;
          second_row <- lift (DF.iloc df 0) ;;
          if looks_like_notes second_row
          then lift (read_csv file_path 2)
          else ret df
     else ret df)
    (fun e => logging_error "Error reading CSV file" e ;;; raise e).

(** [if not os.getenv(name)]: the variable is unset or empty. *)
Definition env_missing (name : string) : bool :=
  match getenv name with
  | Some v => String.eqb v EmptyString
  | None => true
  end.

Definition quote_chars : list ascii := ["'"%char; "034"%char].

Definition output_file : string := "linkedin_connections_with_interests.csv".

Definition main : M unit :=
  if env_missing "OPENAI_API_KEY"
  then raise (ValueError "OpenAI API key not found. Please set it in your .env file.")
  else
  if env_missing "SERPAPI_API_KEY"
  then raise (ValueError "SerpAPI key not found. Please set it in your .env file.")
  else
  let input_file := Str.strip_chars quote_chars (Str.strip stdin_line) in
  if negb (path_exists input_file)
  then raise (FileNotFoundError ("File not found: " +:+ input_file))
  else
  df <- read_linkedin_csv input_file ;;
  valid <- validate_csv_structure df ;;
  if negb valid
  then raise (ValueError "Invalid CSV structure. Please ensure your CSV contains the required columns: First Name, Last Name, Company, Position")
  else
  let df := DF.head 5 df in
  logging_info "Processing first 5 profiles using SerpAPI method" ;;;
  process_profiles df output_file ;;;
  logging_info ("Process completed. Results saved to " +:+ output_file).

End Program.

(** ** A reference JSON decoder

    The theorems below hold for every decoder given as [json_loads].  To
    run the model on concrete texts, [Json.loads] decodes JSON the way
    [json.loads] does: any value at the top level, blanks around tokens,
    the last value of a repeated key, [NaN] and the infinities, numbers
    with a fraction or an exponent kept as [PyFloat] with their spelling.
    A [\u] escape above U+00FF has no character in the model and is
    refused. *)

Module Json.

Definition is_ws (c : ascii) : bool :=
  let n := nat_of_ascii c in
  ((n =? 32) || (n =? 9) || (n =? 10) || (n =? 13))%nat.

Definition skip_ws (s : string) : string := Str.lstrip_by is_ws s.

Definition is_digit (c : ascii) : bool :=
  let n := nat_of_ascii c in ((48 <=? n) && (n <=? 57))%nat.

(** The longest prefix of characters satisfying [p], and the rest. *)
Fixpoint span (p : ascii -> bool) (s : string) : string * string :=
  match s with
  | EmptyString => (EmptyString, EmptyString)
  | String c s' =>
      if p c then let (a, b) := span p s' in (String c a, b)
      else (EmptyString, s)
  end.

Definition digit_value (c : ascii) : Z := Z.of_nat (nat_of_ascii c) - 48.

Fixpoint decimal (acc : Z) (s : string) : Z :=
  match s with
  | EmptyString => acc
  | String c s' => decimal (10 * acc + digit_value c) s'
  end.

Definition hex_value (c : ascii) : option N :=
  let n := N_of_ascii c in
  if ((48 <=? n) && (n <=? 57))%N then Some (n - 48)%N
  else if ((65 <=? n) && (n <=? 70))%N then Some (n - 55)%N
  else if ((97 <=? n) && (n <=? 102))%N then Some (n - 87)%N
  else None.

Definition simple_escape (c : ascii) : option ascii :=
  let n := nat_of_ascii c in
  if (n =? 34)%nat then Some "034"%char
  else if (n =? 92)%nat then Some "092"%char
  else if (n =? 47)%nat then Some "/"%char
  else if (n =? 98)%nat then Some "008"%char
  else if (n =? 102)%nat then Some "012"%char
  else if (n =? 110)%nat then Some "010"%char
  else if (n =? 114)%nat then Some "013"%char
  else if (n =? 116)%nat then Some "009"%char
  else None.

Inductive string_mode : Type :=
| Plain
| Escaped
| Unicode (digits_left : nat) (acc : N).

(** The characters of a string literal after its opening quote; gives
    the decoded string and the text after the closing quote. *)
Fixpoint string_body (m : string_mode) (out s : string) : option (string * string) :=
  match s with
  | EmptyString => None
  | String c s' =>
      match m with
      | Plain =>
          if (nat_of_ascii c =? 34)%nat then Some (out, s')
          else if (nat_of_ascii c =? 92)%nat then string_body Escaped out s'
          else if (nat_of_ascii c <? 32)%nat then None
          else string_body Plain (out +:+ String c EmptyString) s'
      | Escaped =>
          match simple_escape c with
          | Some d => string_body Plain (out +:+ String d EmptyString) s'
          | None =>
              if (nat_of_ascii c =? 117)%nat then string_body (Unicode 4 0) out s'
              else None
          end
      | Unicode O _ => None
      | Unicode (S k) acc =>
          match hex_value c with
          | None => None
          | Some d =>
              let acc' := (16 * acc + d)%N in
              match k with
              | S _ => string_body (Unicode k acc') out s'
              | O =>
                  if (acc' <? 256)%N
                  then string_body Plain
                         (out +:+ String (ascii_of_N acc') EmptyString) s'
                  else None
              end
          end
      end
  end.

(** A number: an optional minus sign; a zero, or a non-zero digit and
    more digits; then, each optional, a point with digits and an exponent
    with digits.  With a fraction or an exponent it is a float. *)
Definition number (s : string) : option (pyval * string) :=
  let (sign, s1) :=
    match s with
    | String "-"%char r => ("-", r)
    | _ => (EmptyString, s)
    end in
  let int_part :=
    match s1 with
    | String "0"%char r => Some ("0", r)
    | String c _ =>
        if is_digit c then Some (span is_digit s1) else None
    | EmptyString => None
    end in
  match int_part with
  | None => None
  | Some (ds, s2) =>
      let (frac, s3) :=
        match s2 with
        | String "."%char r =>
            let (fs, r') := span is_digit r in
            match fs with
            | EmptyString => (EmptyString, s2)
            | _ => ("." +:+ fs, r')
            end
        | _ => (EmptyString, s2)
        end in
      let (exp, s4) :=
        match s3 with
        | String e r =>
            if (Ascii.eqb e "e" || Ascii.eqb e "E")%bool
            then
              let (sg, r1) :=
                match r with
                | String "+"%char r1 => ("+", r1)
                | String "-"%char r1 => ("-", r1)
                | _ => (EmptyString, r)
                end in
              let (es, r2) := span is_digit r1 in
              match es with
              | EmptyString => (EmptyString, s3)
              | _ => (String e EmptyString +:+ sg +:+ es, r2)
              end
            else (EmptyString, s3)
        | EmptyString => (EmptyString, s3)
        end in
      match frac, exp with
      | EmptyString, EmptyString =>
          let n := decimal 0 ds in
          Some (PyInt (match sign with EmptyString => n | _ => - n end)%Z, s4)
      | _, _ => Some (PyFloat (sign +:+ ds +:+ frac +:+ exp), s4)
      end
  end.

Definition after (word s : string) : option string :=
  if String.prefix word s
  then Some (substring (String.length word) (String.length s - String.length word) s)
  else None.

Definition literal (s : string) : option (pyval * string) :=
  match after "null" s with Some r => Some (PyNone, r) | None =>
  match after "true" s with Some r => Some (PyBool true, r) | None =>
  match after "false" s with Some r => Some (PyBool false, r) | None =>
  match after "NaN" s with Some r => Some (PyFloat "NaN", r) | None =>
  match after "Infinity" s with Some r => Some (PyFloat "Infinity", r) | None =>
  match after "-Infinity" s with Some r => Some (PyFloat "-Infinity", r) | None =>
  number s
  end end end end end end.

(** [value] reads one value at the start of [s]; [elements] and
    [members] read the rest of an array or object whose first item starts
    at [s].  Every call uses up one unit of fuel. *)
Fixpoint value (fuel : nat) (s : string) : option (pyval * string) :=
  match fuel with
  | O => None
  | S f =>
      match s with
      | EmptyString => None
      | String c s' =>
          if (nat_of_ascii c =? 34)%nat then
            match string_body Plain EmptyString s' with
            | Some (str, r) => Some (PyStr str, r)
            | None => None
            end
          else if (nat_of_ascii c =? 91)%nat then
            match skip_ws s' with
            | String "]"%char r => Some (PyList [], r)
            | s1 => elements f [] s1
            end
          else if (nat_of_ascii c =? 123)%nat then
            match skip_ws s' with
            | String "}"%char r => Some (PyDict [], r)
            | s1 => members f [] s1
            end
          else literal s
      end
  end
with elements (fuel : nat) (acc : list pyval) (s : string) : option (pyval * string) :=
  match fuel with
  | O => None
  | S f =>
      match value f s with
      | None => None
      | Some (v, r) =>
          match skip_ws r with
          | String "]"%char r' => Some (PyList (acc ++ [v]), r')
          | String ","%char r' => elements f (acc ++ [v]) (skip_ws r')
          | _ => None
          end
      end
  end
with members (fuel : nat) (acc : list (string * pyval)) (s : string)
  : option (pyval * string) :=
  match fuel with
  | O => None
  | S f =>
      match s with
      | String c s' =>
          if (nat_of_ascii c =? 34)%nat then
            match string_body Plain EmptyString s' with
            | None => None
            | Some (key, r) =>
                match skip_ws r with
                | String ":"%char r1 =>
                    match value f (skip_ws r1) with
                    | None => None
                    | Some (v, r2) =>
                        match skip_ws r2 with
                        | String "}"%char r3 => Some (PyDict (Py.set_item key v acc), r3)
                        | String ","%char r3 =>
                            members f (Py.set_item key v acc) (skip_ws r3)
                        | _ => None
                        end
                    end
                | _ => None
                end
            end
          else None
      | EmptyString => None
      end
  end.

(** [json.loads]: one value, blanks around it, nothing after it. *)
Definition loads (s : string) : option pyval :=
  match value (2 * String.length s + 2) (skip_ws s) with
  | Some (v, r) =>
      match skip_ws r with
      | EmptyString => Some v
      | _ => None
      end
  | None => None
  end.

End Json.


(** ** Closed forms and the notions the statements use *)

Section ClosedForms.

Variable json_loads : string -> option pyval.

(** Lines 72-76: what the classifier takes as [interests] from a decoded
    response. *)
Definition selected_interests (decoded : pyval) : pyval :=
  match decoded with
  | PyDict items =>
      match Py.lookup "interests" items with
      | Some v => v
      | None => decoded
      end
  | _ => decoded
  end.

(** [interests] as the inner [try] leaves it, for a response text. *)
Definition parsed_interests (text : string) : pyval :=
  match json_loads text with
  | Some decoded => selected_interests decoded
  | None =>
      match scan_interests text with
      | [] => sentinel_tags
      | _ :: _ => PyList (map PyStr (scan_interests text))
      end
  end.

(** What the body of the outer [try] comes to for an answer of the
    completion endpoint. *)
Definition body_outcome (answer : chat_result) : outcome pyval :=
  match answer with
  | ChatFails e => Raise e
  | ChatResponds [] => Raise IndexError
  | ChatResponds (None :: _) => Raise TypeError
  | ChatResponds (Some text :: _) => Py.slice_to 10 (parsed_interests text)
  end.

End ClosedForms.

(** A tag set as the specification describes it: the sentinel alone, or
    one to ten labels of the taxonomy. *)
Definition is_label (v : pyval) : bool :=
  match v with
  | PyStr s => existsb (String.eqb s) INTERESTS
  | _ => false
  end.

Definition tagset_valid (v : pyval) : bool :=
  match v with
  | PyList [PyStr s] => String.eqb s SENTINEL || is_label (PyStr s)
  | PyList xs =>
      (1 <=? length xs)%nat && (length xs <=? 10)%nat && forallb is_label xs
  | _ => false
  end.

(** Stub components: a resolver and a classifier that answer by a fixed
    function of their arguments and do nothing else. *)
Definition stub_resolver (snippet_of : cell -> string) : cell -> M string :=
  fun url => ret (snippet_of url).

Definition stub_classifier (labels_of : string -> person_info -> pyval)
  : string -> person_info -> M pyval :=
  fun profile_text info => ret (labels_of profile_text info).

(** The events of one rate-limited attempt of the resolver, and of [k] of
    them in a row. *)
Definition retry_round (params : search_params) : list event :=
  [ HttpGet api_url params;
    Log WARNING "Rate limit reached. Waiting before retry..." None;
    Sleep 60 ].


(** The events of the services and of the logger: everything but the
    pipeline's own calls and writes. *)
Definition is_service (e : event) : bool :=
  match e with
  | Log _ _ _ | Sleep _ | HttpGet _ _ | ChatCompletion _ => true
  | _ => false
  end.

(** [t] has the rows of [base]: as many of them, and the same cells in
    every column but [Interests]. *)
Definition same_rows (base t : DataFrame) : Prop :=
  nrows t = nrows base
  /\ forall c, c <> "Interests" -> DF.column c t = DF.column c base.

(** The [person_info] of a row that has the four columns. *)
Definition person_of (r : Series) : option person_info :=
  match DF.get r "First Name", DF.get r "Last Name",
        DF.get r "Company", DF.get r "Position" with
  | Return f, Return l, Return c, Return p => Some (mkPerson f l c p)
  | _, _, _, _ => None
  end.

(** An event of the pipeline that concerns only rows of [base]: a call of
    the resolver with the URL of one of its rows, a call of the classifier
    for one of its rows, a write of a table that has its rows. *)
Definition about_rows_of (out : string) (base : DataFrame) (e : event) : Prop :=
  match e with
  | CallResolver url =>
      exists i, (i < nrows base)%nat /\ DF.get (DF.row base i) "URL" = Return url
  | CallClassifier _ info =>
      exists i, (i < nrows base)%nat /\ person_of (DF.row base i) = Some info
  | ToCsv p t => p = out /\ same_rows base t
  | _ => True
  end.

(** ** Concrete services and tables

    The inputs on which the theorems are exercised: the contact of the
    specification's scenarios, a contact the search knows nothing about,
    and services that answer by a fixed rule. *)

Module Scenario.

Definition quoted (s : string) : string := Str.dquote +:+ s +:+ Str.dquote.

Definition json_array (labels : list string) : string :=
  "[" +:+ String.concat ", " (map quoted labels) +:+ "]".

Definition json_interests (labels : list string) : string :=
  "{" +:+ quoted "interests" +:+ ": " +:+ json_array labels +:+ "}".

Definition getenv (name : string) : option string := Some "secret".

Definition ada_url : string := "https://linkedin.com/in/adalovelace".
Definition ghost_url : string := "https://linkedin.com/in/ghost".

Definition contacts : DataFrame :=
  {| nrows := 2;
     columns :=
       [ ("First Name", [Text "Ada"; Text "Nobody"]);
         ("Last Name", [Text "Lovelace"; Text "Ghost"]);
         ("Company", [Text "Analytical Engines"; NaN]);
         ("Position", [Text "Mathematician"; NaN]);
         ("URL", [Text ada_url; Text ghost_url]) ] |}.

Definition only_ada : DataFrame := DF.head 1 contacts.

Definition only_ghost : DataFrame :=
  {| nrows := 1;
     columns :=
       [ ("First Name", [Text "Nobody"]);
         ("Last Name", [Text "Ghost"]);
         ("Company", [NaN]);
         ("Position", [NaN]);
         ("URL", [Text ghost_url]) ] |}.

(** A table whose header lacks the URL column. *)
Definition contacts_without_url : DataFrame :=
  {| nrows := 1;
     columns :=
       [ ("First Name", [Text "Ada"]);
         ("Last Name", [Text "Lovelace"]);
         ("Company", [Text "Analytical Engines"]);
         ("Position", [Text "Mathematician"]) ] |}.

Definition ada : person_info :=
  mkPerson (Text "Ada") (Text "Lovelace")
    (Text "Analytical Engines") (Text "Mathematician").

Definition ada_snippet : string :=
  "Ada Lovelace mathematician pioneering computing".

Definition ada_labels : list string :=
  [ "Software Development"; "Innovation"; "Writing"; "Critical Thinking";
    "Lifelong Learning" ].

(** The stub resolver and classifier of the scenarios. *)
Definition snippet_of (url : cell) : string :=
  match url with
  | Text u => if String.eqb u ada_url then ada_snippet else EmptyString
  | NaN => EmptyString
  end.

Definition labels_of (profile_text : string) (info : person_info) : pyval :=
  PyList (map PyStr ada_labels).

(** A search service that knows one profile. *)
Definition ada_results : pyval :=
  PyDict
    [ ("organic_results",
       PyList
         [ PyDict [ ("title", PyStr "Ada Lovelace");
                    ("snippet", PyStr "mathematician pioneering computing");
                    ("link", PyStr ada_url) ] ]) ].

Definition search (n : nat) (url : string) (params : search_params) : http_result :=
  if String.eqb (q params) "site:linkedin.com/in/adalovelace"
  then HttpResponds (mkResponse 200 (Some ada_results))
  else HttpResponds (mkResponse 200 (Some (PyDict []))).



(** Completion services: one that always answers with the same text, one
    that always fails. *)
Definition chat_answering (text : string) (n : nat) (req : chat_request)
  : chat_result :=
  ChatResponds [Some text].

Definition chat_failing (e : exn) (n : nat) (req : chat_request) : chat_result :=
  ChatFails e.

(** A file reader that finds the same table whatever rows are skipped. *)
Definition reading (df : DataFrame) (path : string) (skiprows : nat)
  : outcome DataFrame :=
  Return df.

Definition anything_exists (path : string) : bool := true.

End Scenario.

(** A computation whose outcome and added events are the same whatever
    history it starts from. *)
Definition history_independent {A} (m : M A) : Prop :=
  exists o evs, forall h, m h = (o, h ++ evs).

Definition is_Log (e : event) : bool :=
  match e with Log _ _ _ => true | _ => false end.

(** A computation that comes back (with a value or an exception) and adds
    nothing but log records. *)
Definition logs_only {A} (m : M A) : Prop :=
  forall h, exists o evs,
    m h = (o, h ++ evs) /\ o <> OutOfFuel /\ Forall (fun e => is_Log e = true) evs.

(** A computation that adds nothing but events of the services and of the
    logger. *)
Definition service_only {A} (m : M A) : Prop :=
  forall h, exists o evs,
    m h = (o, h ++ evs) /\ Forall (fun e => is_service e = true) evs.

(** An event that concerns only the first five rows of [df]: a call of
    the resolver with the URL of one of them, a call of the classifier for
    one of them, or a write to the output file of a table that has at most
    five rows, whose columns other than [Interests] are the first five
    cells of the columns of [df]. *)
Definition concerns_first_five (df : DataFrame) (e : event) : Prop :=
  match e with
  | CallResolver url =>
      exists i, (i < 5)%nat /\ (i < nrows df)%nat
                /\ DF.get (DF.row df i) "URL" = Return url
  | CallClassifier _ info =>
      exists i, (i < 5)%nat /\ (i < nrows df)%nat
                /\ person_of (DF.row df i) = Some info
  | ToCsv p t =>
      p = output_file
      /\ nrows t = Nat.min 5 (nrows df)
      /\ forall c, c <> "Interests" ->
                   DF.column c t = option_map (firstn 5) (DF.column c df)
  | _ => True
  end.

(** ** The classifier of [linkedin_tagger.py]

    The module of the entry point keeps a classifier of its own (lines
    44-85), which [main] does not call: the same request without the
    example line and without a response format, the response decoded as it
    is, and the empty list on any failure. *)

Module Tagger.

(** Lines 27-42. *)
Definition INTERESTS : list string :=
  [ "Strategy"; "Operations"; "Entrepreneurship"; "Leadership"; "Management";
    "Marketing"; "Sales"; "Investing"; "Personal Finance"; "Corporate Finance";
    "Financial Planning"; "Venture Capital"; "Economics"; "Artificial Intelligence";
    "Blockchain"; "Cybersecurity"; "Software Development"; "Data Science";
    "Cloud Computing"; "Remote Work"; "Career Development"; "Workplace Culture";
    "Job Hunting"; "Networking"; "Freelancing"; "Mental Health"; "Physical Fitness";
    "Nutrition"; "Mindfulness"; "Work-Life Balance"; "Sleep"; "Productivity";
    "Time Management"; "Goal Setting"; "Habits"; "Self-Discipline"; "Motivation";
    "Lifelong Learning"; "Online Courses"; "Reading"; "Writing"; "Public Speaking";
    "Critical Thinking"; "Design"; "Storytelling"; "Content Creation"; "Innovation";
    "Art"; "Media"; "Diversity & Inclusion"; "Social Impact"; "Ethics";
    "Global Trends"; "Politics"; "Sustainability"; "Space Exploration";
    "Climate Change"; "Biotech"; "Futurism"; "Quantum Computing";
    "Emerging Technologies" ].

Section Classifier.

Variable json_loads : string -> option pyval.
Variable chat_create : nat -> chat_request -> chat_result.

Definition system_message : string :=
  "You are a professional career analyst. Your task is to analyze LinkedIn profiles and identify relevant professional interests and expertise areas.".

Definition build_prompt (truncated_text : string) (info : person_info) : string :=
  let nl := Str.newline in
  let ind := "        " in
  nl
  +:+ ind +:+ "Based on the following LinkedIn profile information, select at least 5 most relevant interests from the provided list." +:+ nl
  +:+ ind +:+ "Only select from these interests: " +:+ String.concat ", " INTERESTS +:+ nl
  +:+ ind +:+ nl
  +:+ ind +:+ "Person's information:" +:+ nl
  +:+ ind +:+ "Name: " +:+ cell_str (first_name info) +:+ " "
              +:+ cell_str (last_name info) +:+ nl
  +:+ ind +:+ "Company: " +:+ cell_str (company info) +:+ nl
  +:+ ind +:+ "Position: " +:+ cell_str (position info) +:+ nl
  +:+ ind +:+ nl
  +:+ ind +:+ "Profile content:" +:+ nl
  +:+ ind +:+ truncated_text +:+ nl
  +:+ ind +:+ nl
  +:+ ind +:+ "Return the interests as a JSON array of strings, selecting the most relevant interests based on the profile information." +:+ nl
  +:+ ind.

(** No [response_format] is passed; the field is left empty. *)
Definition classifier_request (profile_text : string) (info : person_info)
  : chat_request :=
  let max_tokens := 2000%nat in
  let truncated_text := Str.take max_tokens profile_text in
  let prompt := build_prompt truncated_text info in
  {| model := "gpt-4-turbo-preview";
     system_content := system_message;
     user_content := prompt;
     temperature_tenths := 3;
     completion_max_tokens := 500;
     response_format := EmptyString |}.

(** The body of the [try] (lines 49-81). *)
Definition classifier_body (profile_text : string) (info : person_info) : M pyval :=
  choices <- completions_create chat_create (classifier_request profile_text info) ;;
  interests_text <- match choices with
                    | [] => raise IndexError
                    | content :: _ => ret content
                    end ;;
  interests <- loads json_loads interests_text ;;
  lift (Py.slice_to 10 interests).

Definition get_interests_from_profile (profile_text : string) (info : person_info)
  : M pyval :=
  try_except
    (classifier_body profile_text info)
    (fun e =>
       logging_error (classifier_error_message info) e ;;;
       ret (PyList [])).

End Classifier.

End Tagger.

(** ** Further notions for the statements *)

(** A table as pandas builds it: every column has one cell per row. *)
Definition table_well_formed (df : DataFrame) : Prop :=
  Forall (fun kv : string * list cell => length (snd kv) = nrows df) (columns df).

Definition is_text (c : cell) : bool :=
  match c with
  | Text _ => true
  | NaN => false
  end.

(** The URLs the pipeline handed to the resolver, in the order of the
    calls. *)
Definition resolver_calls (evs : list event) : list cell :=
  flat_map (fun e => match e with CallResolver url => [url] | _ => [] end) evs.

(** The cells of the URL column, from the first row to the last. *)
Definition url_cells (df : DataFrame) : list cell :=
  match DF.column "URL" df with
  | Some vs => map (fun i => DF.cell_at i vs) (seq 0 (nrows df))
  | None => []
  end.


(** The three ways [read_linkedin_csv] comes to the table it returns:
    read as it is, read without its first line, read without its first
    two lines. *)
Definition read_as_is (read_csv : string -> nat -> outcome DataFrame)
  (file_path : string) (df : DataFrame) : Prop :=
  read_csv file_path 0 = Return df
  /\ (0 < nrows df)%nat
  /\ looks_like_notes (DF.row df 0) = false.

Definition read_after_one_note (read_csv : string -> nat -> outcome DataFrame)
  (file_path : string) (df : DataFrame) : Prop :=
  exists df0,
    read_csv file_path 0 = Return df0
    /\ (0 < nrows df0)%nat
    /\ looks_like_notes (DF.row df0 0) = true
    /\ read_csv file_path 1 = Return df
    /\ (0 < nrows df)%nat
    /\ looks_like_notes (DF.row df 0) = false.

Definition read_after_two_notes (read_csv : string -> nat -> outcome DataFrame)
  (file_path : string) (df : DataFrame) : Prop :=
  exists df0 df1,
    read_csv file_path 0 = Return df0
    /\ (0 < nrows df0)%nat
    /\ looks_like_notes (DF.row df0 0) = true
    /\ read_csv file_path 1 = Return df1
    /\ (0 < nrows df1)%nat
    /\ looks_like_notes (DF.row df1 0) = true
    /\ read_csv file_path 2 = Return df.

(** ** More concrete inputs *)

Module Cases.

(** A table whose header lacks the column Company. *)
Definition contacts_without_company : DataFrame :=
  {| nrows := 1;
     columns := [ ("First Name", [Text "Ada"]);
                  ("Last Name", [Text "Lovelace"]);
                  ("Position", [Text "Mathematician"]);
                  ("URL", [Text Scenario.ada_url]) ] |}.

(** A file with two lines of notes before the header: the table changes
    with the number of lines skipped. *)
Definition notes_table : DataFrame :=
  {| nrows := 1;
     columns := [ ("Notes:", [Text "Exported from LinkedIn"]) ] |}.

Definition reading_with_notes (path : string) (skiprows : nat) : outcome DataFrame :=
  match skiprows with
  | 0 | 1 => Return notes_table
  | _ => Return Scenario.contacts
  end.

(** A file with a header and no row. *)
Definition header_only : DataFrame :=
  {| nrows := 0;
     columns := [ ("First Name", []); ("Last Name", []); ("Company", []);
                  ("Position", []); ("URL", []) ] |}.

(** A search service that answers every request with the same response. *)
Definition answering (r : response) (n : nat) (url : string) (params : search_params)
  : http_result :=
  HttpResponds r.

Definition unreachable (n : nat) (url : string) (params : search_params)
  : http_result :=
  HttpFails (ServiceError "connection refused").

(** Two response texts that are JSON and of neither shape the classifier
    is meant for: an object whose [interests] field is a text, and an
    object without that field. *)
Definition interests_as_text : string :=
  "{" +:+ Str.dquote +:+ "interests" +:+ Str.dquote +:+ ": "
  +:+ Str.dquote +:+ "Leadership, Sales" +:+ Str.dquote +:+ "}".

Definition tags_object : string :=
  "{" +:+ Str.dquote +:+ "tags" +:+ Str.dquote +:+ ": ["
  +:+ Str.dquote +:+ "Sales" +:+ Str.dquote +:+ "]}".

(** Two texts that agree on their first 2000 characters only. *)
Definition long_text (ending : string) : string :=
  String.concat EmptyString (repeat "ab" 1000) +:+ ending.

End Cases.

(** What the loop keeps true of the table while it runs over the rows
    from [a] on: the table is well formed, has the rows of the table the
    loop started with, and the rows before [a] have a text as tag. *)
Definition tagged_up_to (base : DataFrame) (a : nat) (df : DataFrame) : Prop :=
  table_well_formed df
  /\ same_rows base df
  /\ exists tags,
      DF.column "Interests" df = Some tags
      /\ forall i, (i < a)%nat -> is_text (DF.cell_at i tags) = true.

(** [df'] is [df] after [df.at[i, c] = v]: the same rows, the other
    columns untouched, and a column [c] whose cell in row [i] is [v] and
    whose other cells are what they were (missing, when [c] was not a
    column). *)
Definition cell_written (df : DataFrame) (i : nat) (c : string) (v : cell)
  (df' : DataFrame) : Prop :=
  nrows df' = nrows df
  /\ (forall c', c' <> c -> DF.column c' df' = DF.column c' df)
  /\ exists cells,
      DF.column c df' = Some cells
      /\ cells !! i = Some v
      /\ DF.get (DF.row df' i) c = Return v
      /\ forall j, j <> i ->
           DF.cell_at j cells
           = match DF.column c df with
             | Some old => DF.cell_at j old
             | None => NaN
             end.

(** Two texts that differ at most in the case of their letters A to Z. *)
Definition is_capital (c : ascii) : bool :=
  let n := nat_of_ascii c in ((65 <=? n) && (n <=? 90))%nat.

Definition same_letter (a b : ascii) : bool :=
  Ascii.eqb a b
  || (is_capital a && Ascii.eqb b (ascii_of_nat (nat_of_ascii a + 32)))
  || (is_capital b && Ascii.eqb a (ascii_of_nat (nat_of_ascii b + 32))).

Fixpoint same_letters (s t : string) : bool :=
  match s, t with
  | EmptyString, EmptyString => true
  | String a s', String b t' => same_letter a b && same_letters s' t'
  | _, _ => false
  end.

(** The tag set the specification derives from a response text, in its
    four steps: the [interests] field of a JSON object when it holds a
    sequence of strings; the text itself when it is a JSON sequence of
    strings; the labels the scan finds when the text is not JSON; the
    sentinel when the scan finds none.  The cut to ten entries is granted
    to each step. *)
Definition stated_tag_set (json_loads : string -> option pyval) (text : string)
  (tags : pyval) : Prop :=
  (exists items labels,
      json_loads text = Some (PyDict items)
      /\ Py.lookup "interests" items = Some (PyList (map PyStr labels))
      /\ tags = PyList (map PyStr (firstn 10 labels)))
  \/ (exists labels,
         json_loads text = Some (PyList (map PyStr labels))
         /\ tags = PyList (map PyStr (firstn 10 labels)))
  \/ (json_loads text = None
      /\ scan_interests text <> []
      /\ tags = PyList (map PyStr (firstn 10 (scan_interests text))))
  \/ (json_loads text = None
      /\ scan_interests text = []
      /\ tags = sentinel_tags).

(** * Properties *)

#[local] Arguments String.eqb : simpl never.
#[local] Arguments String.prefix : simpl never.
#[local] Arguments Str.contains : simpl never.
#[local] Arguments Str.lower : simpl never.
#[local] Arguments String.append : simpl never.
#[local] Arguments String.concat : simpl never.

(** ** The classifier in closed form *)

Section ClassifierFacts.

Variable json_loads : string -> option pyval.
Variable chat_create : nat -> chat_request -> chat_result.

Lemma contains_lookup key items :
  existsb (fun kv : string * pyval => String.eqb key (fst kv)) items = true ->
  exists v, Py.lookup key items = Some v.
Proof.
  unfold Py.lookup. induction items as [|[k w] items IH]; simpl; [discriminate|].
  destruct (String.eqb key k); simpl; eauto.
Qed.

Lemma contains_lookup_none key items :
  existsb (fun kv : string * pyval => String.eqb key (fst kv)) items = false ->
  Py.lookup key items = None.
Proof.
  unfold Py.lookup. induction items as [|[k w] items IH]; simpl; [reflexivity|].
  destruct (String.eqb key k); simpl; [discriminate|auto].
Qed.

Lemma parse_interests_run text h :
  parse_interests json_loads (Some text) h
  = (Return (parsed_interests json_loads text), h).
Proof.
  unfold parse_interests, parsed_interests, try_except_on, bind, loads, lift, ret, raise.
  destruct (json_loads text) as [v|] eqn:Hv; simpl.
  - destruct v; simpl; rewrite ?Hv; try reflexivity.
    destruct (existsb _ items) eqn:Hex.
    + destruct (contains_lookup _ _ Hex) as [v Hl].
      unfold Py.getitem. rewrite Hl. reflexivity.
    + rewrite (contains_lookup_none _ _ Hex). reflexivity.
  - destruct (scan_interests text); reflexivity.
Qed.

Lemma classifier_body_run profile_text info h :
  let req := classifier_request profile_text info in
  classifier_body json_loads chat_create profile_text info h
  = (body_outcome json_loads (chat_create (count is_ChatCompletion h) req),
     h ++ [ChatCompletion req]).
Proof.
  intros req. unfold classifier_body, bind, completions_create. fold req.
  destruct (chat_create _ req) as [e|choices]; simpl; [reflexivity|].
  destruct choices as [|[text|] rest]; simpl; try reflexivity.
  rewrite parse_interests_run. reflexivity.
Qed.

Lemma slice_to_fuel n v : Py.slice_to n v <> OutOfFuel.
Proof. destruct v; discriminate. Qed.

Lemma body_outcome_fuel answer : body_outcome json_loads answer <> OutOfFuel.
Proof.
  destruct answer as [e|[|[text|] rest]]; simpl; try discriminate.
  apply slice_to_fuel.
Qed.

(** The classifier's result and the events it adds. *)
Lemma get_interests_from_profile_run profile_text info h :
  let req := classifier_request profile_text info in
  get_interests_from_profile json_loads chat_create profile_text info h
  = match body_outcome json_loads (chat_create (count is_ChatCompletion h) req) with
    | Return v => (Return v, h ++ [ChatCompletion req])
    | Raise e =>
        (Return sentinel_tags,
         h ++ [ChatCompletion req;
               Log ERROR (classifier_error_message info) (Some e)])
    | OutOfFuel => (OutOfFuel, h ++ [ChatCompletion req])
    end.
Proof.
  intros req. unfold get_interests_from_profile, try_except.
  rewrite classifier_body_run. fold req.
  destruct (body_outcome _ _); try reflexivity.
  unfold bind, logging_error, emit, ret. simpl.
  rewrite <- app_assoc. reflexivity.
Qed.

Lemma take_length n s : (String.length (Str.take n s) <= n)%nat.
Proof.
  unfold Str.take. revert s. induction n as [|n IH]; intros [|c s]; simpl; try lia.
  specialize (IH s). lia.
Qed.

Lemma slice_to_len n v w : Py.slice_to n v = Return w -> (Py.len w <= n)%nat.
Proof.
  destruct v; simpl; try discriminate; intros [= <-]; simpl.
  - apply take_length.
  - rewrite length_firstn. lia.
Qed.

Lemma body_outcome_len answer v :
  body_outcome json_loads answer = Return v -> (Py.len v <= 10)%nat.
Proof.
  destruct answer as [e|[|[text|] rest]]; simpl; try discriminate.
  apply slice_to_len.
Qed.

Lemma filter_sublist {A} (f : A -> bool) (l : list A) : sublist (List.filter f l) l.
Proof.
  induction l as [|x l IH]; simpl; [constructor|].
  destruct (f x); [apply sublist_skip | apply sublist_cons]; exact IH.
Qed.

End ClassifierFacts.

(** C8.  Whatever the completion endpoint answers, and whichever way the
    answer is parsed, the classifier returns, and what it returns has at
    most ten entries.  A parsed sequence of any length is cut to its first
    ten entries. *)
Theorem C8_tag_set_at_most_ten
  (json_loads : string -> option pyval)
  (chat_create : nat -> chat_request -> chat_result)
  (profile_text : string) (info : person_info) (h : history) :
  (exists v h',
      get_interests_from_profile json_loads chat_create profile_text info h
      = (Return v, h')
      /\ (Py.len v <= 10)%nat)
  /\ (forall text rest xs h1 h2,
         chat_create (count is_ChatCompletion h) (classifier_request profile_text info)
         = ChatResponds (Some text :: rest) ->
         parse_interests json_loads (Some text) h1 = (Return (PyList xs), h2) ->
         fst (get_interests_from_profile json_loads chat_create profile_text info h)
         = Return (PyList (firstn 10 xs))).
Proof.
  split.
  - rewrite get_interests_from_profile_run.
    destruct (body_outcome _ _) as [v|e|] eqn:Hb.
    + eexists _, _. split; [reflexivity|]. eapply body_outcome_len; eassumption.
    + eexists _, _. split; [reflexivity|]. simpl. lia.
    + exfalso. eapply body_outcome_fuel; eassumption.
  - intros text rest xs h1 h2 Hc Hp.
    rewrite parse_interests_run in Hp. injection Hp as Hp _.
    rewrite get_interests_from_profile_run, Hc. simpl. rewrite Hp. reflexivity.
Qed.

(** C9.  A failure of the completion endpoint, or of the handling of its
    answer, never leaves the classifier: the classifier always returns;
    whenever the body of its [try] raises, it logs an error that names the
    subject by first and last name and returns the sentinel tag set; and a
    failing request is such a raise. *)
Theorem C9_completion_failure_is_caught
  (json_loads : string -> option pyval)
  (chat_create : nat -> chat_request -> chat_result)
  (profile_text : string) (info : person_info) (h : history) :
  (exists v h',
      get_interests_from_profile json_loads chat_create profile_text info h
      = (Return v, h'))
  /\ (forall e h',
         classifier_body json_loads chat_create profile_text info h = (Raise e, h') ->
         get_interests_from_profile json_loads chat_create profile_text info h
         = (Return (PyList [PyStr "Profile inaccessible"]),
            h' ++ [Log ERROR
                     ("Error getting interests for " +:+ cell_str (first_name info)
                      +:+ " " +:+ cell_str (last_name info))
                     (Some e)]))
  /\ (forall e,
         chat_create (count is_ChatCompletion h) (classifier_request profile_text info)
         = ChatFails e ->
         classifier_body json_loads chat_create profile_text info h
         = (Raise e, h ++ [ChatCompletion (classifier_request profile_text info)])).
Proof.
  split; [|split].
  - rewrite get_interests_from_profile_run.
    destruct (body_outcome _ _) as [v|e|] eqn:Hb; eauto.
    exfalso. eapply body_outcome_fuel; eassumption.
  - intros e h' Hbody.
    unfold get_interests_from_profile, try_except. rewrite Hbody.
    reflexivity.
  - intros e Hfail. rewrite classifier_body_run, Hfail. reflexivity.
Qed.

Lemma same_letter_lower a b :
  same_letter a b = true -> Str.lower_char a = Str.lower_char b.
Proof.
  unfold same_letter. intros H.
  apply orb_true_iff in H as [H|H]; [apply orb_true_iff in H as [H|H]|].
  - apply Ascii.eqb_eq in H. subst b. reflexivity.
  - apply andb_true_iff in H as [Ha Hb]. apply Ascii.eqb_eq in Hb. subst b.
    revert Ha.
    destruct a as [[] [] [] [] [] [] [] []]; vm_compute; intros H;
      first [reflexivity | discriminate H].
  - apply andb_true_iff in H as [Hb Ha]. apply Ascii.eqb_eq in Ha. subst a.
    revert Hb.
    destruct b as [[] [] [] [] [] [] [] []]; vm_compute; intros H;
      first [reflexivity | discriminate H].
Qed.

Lemma same_letters_lower s : forall t, same_letters s t = true -> Str.lower s = Str.lower t.
Proof.
  induction s as [|a s IH]; intros [|b t] H; try discriminate H; [reflexivity|].
  cbn [same_letters] in H. apply andb_true_iff in H as [Hab Hst].
  change (String (Str.lower_char a) (Str.lower s) = String (Str.lower_char b) (Str.lower t)).
  rewrite (same_letter_lower a b Hab), (IH t Hst). reflexivity.
Qed.

Lemma selected_of_object items chosen :
  Py.lookup "interests" items = Some chosen ->
  selected_interests (PyDict items) = chosen.
Proof. intros H. cbn [selected_interests]. rewrite H. reflexivity. Qed.

Lemma selected_of_other decoded :
  (forall items, decoded = PyDict items -> Py.lookup "interests" items = None) ->
  selected_interests decoded = decoded.
Proof.
  intros H. destruct decoded; try reflexivity.
  cbn [selected_interests]. rewrite (H items eq_refl). reflexivity.
Qed.

(** C6, as amended.  When the completion endpoint answers with a text,
    the tag set is derived from it in this order.  When the text is JSON,
    the classifier takes the [interests] field of a decoded object that
    has one, whatever that field holds, and else the decoded value itself,
    whatever it is; a sequence is cut to its first ten entries, a text to
    its first ten characters, and anything else cannot be cut: the outer
    handler logs the error and the sentinel is returned.  For a sequence
    of strings, in the field or as the whole text, this is the sequence
    of its first ten entries.  When the text is not JSON, the tag set is
    the first ten of the taxonomy labels that occur in it, in the order of
    the taxonomy; the scan does not see the case of the letters, so that
    two texts that differ in case only give the same labels; and when no
    label occurs the tag set is the sentinel. *)
Theorem C6_parsing_order
  (json_loads : string -> option pyval)
  (chat_create : nat -> chat_request -> chat_result)
  (profile_text : string) (info : person_info) (h : history)
  (text : string) (rest : list (option string)) :
  chat_create (count is_ChatCompletion h) (classifier_request profile_text info)
  = ChatResponds (Some text :: rest) ->
  let run := get_interests_from_profile json_loads chat_create profile_text info h in
  let answered := h ++ [ChatCompletion (classifier_request profile_text info)] in
  (forall decoded chosen,
      json_loads text = Some decoded ->
      (exists items,
          decoded = PyDict items /\ Py.lookup "interests" items = Some chosen)
      \/ ((forall items, decoded = PyDict items -> Py.lookup "interests" items = None)
          /\ chosen = decoded) ->
      (forall xs, chosen = PyList xs -> run = (Return (PyList (firstn 10 xs)), answered))
      /\ (forall s, chosen = PyStr s -> run = (Return (PyStr (Str.take 10 s)), answered))
      /\ ((forall xs, chosen <> PyList xs) ->
          (forall s, chosen <> PyStr s) ->
          exists e,
            run = (Return (PyList [PyStr "Profile inaccessible"]),
                   answered
                   ++ [Log ERROR
                         ("Error getting interests for "
                          +:+ cell_str (first_name info)
                          +:+ " " +:+ cell_str (last_name info))
                         (Some e)])))
  /\ (forall items labels,
         json_loads text = Some (PyDict items) ->
         Py.lookup "interests" items = Some (PyList (map PyStr labels)) ->
         run = (Return (PyList (map PyStr (firstn 10 labels))), answered))
  /\ (forall labels,
         json_loads text = Some (PyList (map PyStr labels)) ->
         run = (Return (PyList (map PyStr (firstn 10 labels))), answered))
  /\ (json_loads text = None ->
      scan_interests text <> [] ->
      run = (Return (PyList (map PyStr (firstn 10 (scan_interests text)))), answered))
  /\ (json_loads text = None ->
      scan_interests text = [] ->
      run = (Return (PyList [PyStr "Profile inaccessible"]), answered))
  /\ (forall label,
         In label (scan_interests text) <->
         In label INTERESTS
         /\ Str.contains (Str.lower label) (Str.lower text) = true)
  /\ sublist (scan_interests text) INTERESTS
  /\ (forall other,
         same_letters other text = true -> scan_interests other = scan_interests text).
Proof.
  intros Hanswer run answered. subst run answered.
  rewrite get_interests_from_profile_run, Hanswer. cbn [body_outcome].
  unfold parsed_interests.
  split; [|split; [|split; [|split; [|split; [|split; [|split]]]]]].
  - intros decoded chosen Hd Hchosen. rewrite Hd.
    assert (Hsel : selected_interests decoded = chosen).
    { destruct Hchosen as [(items & -> & Hl) | (Hnone & ->)].
      - apply selected_of_object, Hl.
      - apply selected_of_other, Hnone. }
    rewrite Hsel. split; [|split].
    + intros xs ->. reflexivity.
    + intros s ->. reflexivity.
    + intros Hlist Hstr.
      destruct chosen as [|b|n|literal|s|xs|items]; try (exists TypeError; cbn [Py.slice_to]; rewrite <- app_assoc; reflexivity).
      * exfalso. exact (Hstr s eq_refl).
      * exfalso. exact (Hlist xs eq_refl).
  - intros items labels Hd Hl. rewrite Hd. cbn [selected_interests]. rewrite Hl.
    cbn [Py.slice_to]. rewrite firstn_map. reflexivity.
  - intros labels Hd. rewrite Hd. cbn [selected_interests Py.slice_to].
    rewrite firstn_map. reflexivity.
  - intros Hd Hscan. rewrite Hd.
    destruct (scan_interests text) as [|l ls] eqn:Hs; [congruence|].
    cbn [Py.slice_to]. rewrite firstn_map. reflexivity.
  - intros Hd Hscan. rewrite Hd, Hscan. reflexivity.
  - intros label. unfold scan_interests.
    exact (filter_In
             (fun interest => Str.contains (Str.lower interest) (Str.lower text))
             label INTERESTS).
  - apply filter_sublist.
  - intros other Hsame. unfold scan_interests.
    rewrite (same_letters_lower other text Hsame). reflexivity.
Qed.

(** ** One row of the pipeline *)

Section RowFacts.

Variable resolver : cell -> M string.
Variable classifier : string -> person_info -> M pyval.

(** A row that comes back has gone one of the two ways of the loop body. *)
Lemma process_row_inv out df index row h df' h' :
  process_row resolver classifier out df (index, row) h = (Return df', h') ->
  exists first last url snippet h1,
    DF.get row "First Name" = Return first
    /\ DF.get row "Last Name" = Return last
    /\ DF.get row "URL" = Return url
    /\ resolver url
         (h ++ [Log INFO ("Processing profile for "
                          +:+ (cell_str first +:+ " " +:+ cell_str last)) None;
                CallResolver url])
       = (Return snippet, h1)
    /\ ((snippet = EmptyString
         /\ df' = DF.set_at index "Interests" (Text SENTINEL) df
         /\ h' = h1 ++ [Log WARNING
                          ("Could not fetch profile content for "
                           +:+ (cell_str first +:+ " " +:+ cell_str last)) None])
        \/ (snippet <> EmptyString
            /\ exists company position tags h2 joined,
                DF.get row "Company" = Return company
                /\ DF.get row "Position" = Return position
                /\ classifier snippet (mkPerson first last company position)
                     (h1 ++ [CallClassifier snippet
                               (mkPerson first last company position)])
                   = (Return tags, h2)
                /\ Py.join ", " tags = Return joined
                /\ df' = DF.set_at index "Interests" (Text joined) df
                /\ h' = h2 ++ [ToCsv out df'; Sleep 2])).
Proof.
  unfold process_row, logging_info, logging_warning, time_sleep, bind, lift, emit, ret.
  intros H. cbn beta iota in H.
  destruct (DF.get row "First Name") as [first| |] eqn:Hf; try discriminate H.
  destruct (DF.get row "Last Name") as [last| |] eqn:Hl; try discriminate H.
  destruct (DF.get row "URL") as [url| |] eqn:Hu; try discriminate H.
  rewrite <- app_assoc in H. cbn [app] in H.
  destruct (resolver url _) as [[snippet| |] h1] eqn:Hr; try discriminate H.
  exists first, last, url, snippet, h1.
  do 3 (split; [reflexivity|]). split; [exact Hr|].
  destruct (String.eqb snippet EmptyString) eqn:Hs; cbn [negb] in H.
  - left. apply String.eqb_eq in Hs. injection H as <- <-. auto.
  - right. apply String.eqb_neq in Hs. split; [exact Hs|].
    destruct (DF.get row "Company") as [company| |] eqn:Hc; try discriminate H.
    destruct (DF.get row "Position") as [position| |] eqn:Hp; try discriminate H.
    destruct (classifier snippet _ _) as [[tags| |] h2] eqn:Hcl; try discriminate H.
    destruct (Py.join ", " tags) as [joined| |] eqn:Hj; try discriminate H.
    rewrite <- app_assoc in H. cbn [app] in H.
    injection H as <- <-.
    exists company, position, tags, h2, joined. auto 10.
Qed.

End RowFacts.

(** ** The tag set written to a row *)

Lemma INTERESTS_NoDup : NoDup INTERESTS.
Proof. apply (bool_decide_unpack _). vm_compute. reflexivity. Qed.

Lemma strings_of_strs labels : Py.strings_of (map PyStr labels) = Some labels.
Proof.
  induction labels as [|l ls IH]; simpl; [reflexivity|]. rewrite IH. reflexivity.
Qed.

Lemma join_strs sep labels :
  Py.join sep (PyList (map PyStr labels)) = Return (String.concat sep labels).
Proof. unfold Py.join, Py.join_list. simpl. rewrite strings_of_strs. reflexivity. Qed.

Lemma join_sentinel : Py.join ", " sentinel_tags = Return SENTINEL.
Proof. reflexivity. Qed.

Lemma scan_take_sublist text n : sublist (firstn n (scan_interests text)) INTERESTS.
Proof.
  transitivity (scan_interests text); [apply sublist_take | apply filter_sublist].
Qed.

(** The counterexample to C2 as stated: a completion that answers with a
    label outside the taxonomy, or with no label at all, has it returned by
    the classifier and written to the row. *)
Lemma C2_counterexample :
  fst (get_interests_from_profile Json.loads
         (Scenario.chat_answering (Scenario.json_interests ["Astrology"]))
         Scenario.ada_snippet Scenario.ada [])
  = Return (PyList [PyStr "Astrology"])
  /\ tagset_valid (PyList [PyStr "Astrology"]) = false
  /\ fst (process_profiles Scenario.getenv Json.loads
            (Scenario.chat_answering (Scenario.json_interests ["Astrology"]))
            Scenario.search 1 Scenario.only_ada output_file [])
     = Return (DF.set_at 0 "Interests" (Text "Astrology")
                 (ensure_interests Scenario.only_ada))
  /\ fst (get_interests_from_profile Json.loads
            (Scenario.chat_answering (Scenario.json_interests []))
            Scenario.ada_snippet Scenario.ada [])
     = Return (PyList [])
  /\ tagset_valid (PyList []) = false
  /\ fst (process_profiles Scenario.getenv Json.loads
            (Scenario.chat_answering (Scenario.json_interests []))
            Scenario.search 1 Scenario.only_ada output_file [])
     = Return (DF.set_at 0 "Interests" (Text EmptyString)
                 (ensure_interests Scenario.only_ada)).
Proof. vm_compute. repeat split. Qed.

(** ** Computations that do not read the history *)

Lemma hi_ret {A} (a : A) : history_independent (ret a).
Proof. exists (Return a), []. intros h. unfold ret. rewrite app_nil_r. reflexivity. Qed.

Lemma hi_raise {A} (e : exn) : history_independent (@raise A e).
Proof. exists (Raise e), []. intros h. unfold raise. rewrite app_nil_r. reflexivity. Qed.

Lemma hi_lift {A} (o : outcome A) : history_independent (lift o).
Proof. exists o, []. intros h. unfold lift. rewrite app_nil_r. reflexivity. Qed.

Lemma hi_emit (e : event) : history_independent (emit e).
Proof. exists (Return tt), [e]. reflexivity. Qed.

Lemma hi_bind {A B} (m : M A) (k : A -> M B) :
  history_independent m ->
  (forall a, history_independent (k a)) ->
  history_independent (bind m k).
Proof.
  intros (o & evs & Hm) Hk. destruct o as [a|e|].
  - destruct (Hk a) as (o' & evs' & Hka). exists o', (evs ++ evs').
    intros h. unfold bind. rewrite Hm, Hka, app_assoc. reflexivity.
  - exists (Raise e), evs. intros h. unfold bind. rewrite Hm. reflexivity.
  - exists OutOfFuel, evs. intros h. unfold bind. rewrite Hm. reflexivity.
Qed.

Lemma hi_try_except {A} (body : M A) (handler : exn -> M A) :
  history_independent body ->
  (forall e, history_independent (handler e)) ->
  history_independent (try_except body handler).
Proof.
  intros (o & evs & Hm) Hk. destruct o as [a|e|].
  - exists (Return a), evs. intros h. unfold try_except. rewrite Hm. reflexivity.
  - destruct (Hk e) as (o' & evs' & Hke). exists o', (evs ++ evs').
    intros h. unfold try_except. rewrite Hm, Hke, app_assoc. reflexivity.
  - exists OutOfFuel, evs. intros h. unfold try_except. rewrite Hm. reflexivity.
Qed.

Lemma hi_foldM {A B} (f : A -> B -> M A) (xs : list B) :
  (forall a x, history_independent (f a x)) ->
  forall a, history_independent (foldM f xs a).
Proof.
  intros Hf. induction xs as [|x xs IH]; intros a; simpl.
  - apply hi_ret.
  - apply hi_bind; [apply Hf | exact IH].
Qed.

Ltac hi_step :=
  first
    [ apply hi_ret | apply hi_raise | apply hi_lift | apply hi_emit
    | assumption
    | apply hi_bind; [|intros ?]
    | match goal with
      | |- history_independent (if ?b then _ else _) => destruct b
      end
    | match goal with
      | H : forall _, history_independent _ |- _ => apply H
      | H : forall _ _, history_independent _ |- _ => apply H
      end ].

Lemma hi_process_row resolver classifier out df indexed :
  (forall url, history_independent (resolver url)) ->
  (forall text info, history_independent (classifier text info)) ->
  history_independent (process_row resolver classifier out df indexed).
Proof.
  intros Hr Hc. destruct indexed as [index row].
  unfold process_row, logging_info, logging_warning, time_sleep.
  repeat hi_step.
Qed.

Lemma hi_process_profiles_with resolver classifier df out :
  (forall url, history_independent (resolver url)) ->
  (forall text info, history_independent (classifier text info)) ->
  history_independent (process_profiles_with resolver classifier df out).
Proof.
  intros Hr Hc. unfold process_profiles_with, logging_info, logging_error.
  apply hi_try_except.
  - hi_step; [hi_step|]. hi_step; [|repeat hi_step].
    apply hi_foldM. intros ? ?. apply hi_process_row; assumption.
  - intros e. repeat hi_step.
Qed.

Lemma persisted_app path h evs :
  persisted path (h ++ evs)
  = match persisted path evs with
    | Some df => Some df
    | None => persisted path h
    end.
Proof.
  induction h as [|e h IH]; simpl.
  - destruct (persisted path evs); reflexivity.
  - rewrite IH. destruct (persisted path evs); reflexivity.
Qed.

(** C10.  With a resolver stub that gives the same snippet for the same
    URL and a classifier stub that gives the same labels for the same
    snippet and subject, two runs of the pipeline on the same table, one
    after the other, end with the same table (or the same exception), add
    the same events, and leave the same table at the output location. *)
Theorem C10_two_runs_agree
  (snippet_of : cell -> string)
  (labels_of : string -> person_info -> pyval)
  (df : DataFrame) (out : string) (h0 : history) :
  let pipeline :=
    process_profiles_with (stub_resolver snippet_of) (stub_classifier labels_of)
      df out in
  let first := pipeline h0 in
  let second := pipeline (snd first) in
  fst second = fst first
  /\ persisted out (snd second) = persisted out (snd first)
  /\ exists evs, snd first = h0 ++ evs /\ snd second = snd first ++ evs.
Proof.
  intros pipeline first second.
  destruct (hi_process_profiles_with (stub_resolver snippet_of)
              (stub_classifier labels_of) df out) as (o & evs & Hrun).
  { intros url. apply hi_ret. }
  { intros text info. apply hi_ret. }
  subst first second pipeline. rewrite (Hrun h0). cbn [fst snd].
  rewrite (Hrun (h0 ++ evs)). cbn [fst snd].
  split; [reflexivity|]. split; [|eauto].
  rewrite !persisted_app. destruct (persisted out evs); reflexivity.
Qed.

(** ** The resolver *)

Lemma lo_ret {A} (a : A) : logs_only (ret a).
Proof.
  intros h. exists (Return a), []. unfold ret. rewrite app_nil_r.
  split; [reflexivity|]. split; [discriminate|constructor].
Qed.

Lemma lo_lift {A} (o : outcome A) : o <> OutOfFuel -> logs_only (lift o).
Proof.
  intros Ho h. exists o, []. unfold lift. rewrite app_nil_r.
  split; [reflexivity|]. split; [exact Ho|constructor].
Qed.

Lemma lo_log lvl msg cause : logs_only (emit (Log lvl msg cause)).
Proof.
  intros h. exists (Return tt), [Log lvl msg cause].
  split; [reflexivity|]. split; [discriminate|]. repeat constructor.
Qed.

Lemma lo_bind {A B} (m : M A) (k : A -> M B) :
  logs_only m -> (forall a, logs_only (k a)) -> logs_only (bind m k).
Proof.
  intros Hm Hk h. destruct (Hm h) as (o & evs & Hrun & Ho & Hevs).
  unfold bind. rewrite Hrun. destruct o as [a|e|]; [|eauto|congruence].
  destruct (Hk a (h ++ evs)) as (o' & evs' & Hrun' & Ho' & Hevs').
  exists o', (evs ++ evs'). rewrite Hrun', app_assoc.
  split; [reflexivity|]. split; [exact Ho'|]. apply Forall_app. auto.
Qed.

Lemma contains_fuel key v : Py.contains key v <> OutOfFuel.
Proof. destruct v; discriminate. Qed.

Lemma getitem_fuel v key : Py.getitem v key <> OutOfFuel.
Proof. destruct v; try discriminate. simpl. destruct (Py.lookup _ _); discriminate. Qed.

Lemma get_fuel v key d : Py.get v key d <> OutOfFuel.
Proof. destruct v; discriminate. Qed.

Lemma iter_fuel v : Py.iter v <> OutOfFuel.
Proof. destruct v; discriminate. Qed.

Lemma join_list_fuel sep xs : Py.join_list sep xs <> OutOfFuel.
Proof. unfold Py.join_list. destruct (Py.strings_of xs); discriminate. Qed.

Lemma raise_for_status_fuel r : raise_for_status r <> OutOfFuel.
Proof. unfold raise_for_status. destruct (_ && _); discriminate. Qed.

Lemma response_json_fuel r : response_json r <> OutOfFuel.
Proof. unfold response_json. destruct (body r); discriminate. Qed.

Ltac lo_step :=
  first
    [ apply lo_ret
    | apply lo_log
    | apply lo_lift;
      first [ apply contains_fuel | apply getitem_fuel | apply get_fuel
            | apply iter_fuel | apply join_list_fuel | apply raise_for_status_fuel
            | apply response_json_fuel ]
    | assumption
    | apply lo_bind; [|intros ?]
    | match goal with
      | |- logs_only (if ?b then _ else _) => destruct b
      | |- logs_only (match ?l with [] => _ | _ :: _ => _ end) => destruct l
      end ].

Lemma lo_collect_result profile_id profile_info result :
  logs_only (collect_result profile_id profile_info result).
Proof. unfold collect_result. repeat lo_step. Qed.

Lemma lo_collect_results profile_id results :
  forall profile_info, logs_only (collect_results profile_id profile_info results).
Proof.
  induction results as [|result rest IH]; intros profile_info; simpl.
  - apply lo_ret.
  - apply lo_bind; [apply lo_collect_result | exact IH].
Qed.

Lemma lo_extract_snippet profile_id data : logs_only (extract_snippet profile_id data).
Proof.
  unfold extract_snippet, logging_warning.
  apply lo_bind; [lo_step|intros has].
  apply lo_bind.
  - destruct has; [|apply lo_ret].
    do 2 (apply lo_bind; [lo_step|intros ?]). apply lo_collect_results.
  - intros profile_info. repeat lo_step.
Qed.

Lemma count_app p h1 h2 : count p (h1 ++ h2) = (count p h1 + count p h2)%nat.
Proof. unfold count. rewrite List.filter_app, length_app. reflexivity. Qed.

Lemma count_logs p evs :
  (forall lvl msg cause, p (Log lvl msg cause) = false) ->
  Forall (fun e => is_Log e = true) evs -> count p evs = 0%nat.
Proof.
  intros Hp Hevs. unfold count. induction Hevs as [|e evs He _ IH]; [reflexivity|].
  destruct e; try discriminate He. simpl. rewrite Hp. exact IH.
Qed.

Section ResolverFacts.

Variable getenv : string -> option string.
Variable requests_get : nat -> string -> search_params -> http_result.

(** The body of the resolver, whatever depth is left. *)
Lemma resolver_unfold depth url :
  get_linkedin_profile_data getenv requests_get depth url
  = try_except
      (profile_id <- lift (profile_id_of url) ;;
       response <- http_get requests_get api_url (search_request getenv profile_id) ;;
       if (status_code response =? 429)%Z
       then logging_warning "Rate limit reached. Waiting before retry..." ;;;
            time_sleep 60 ;;;
            match depth with
            | O => raise RecursionError
            | S depth' => get_linkedin_profile_data getenv requests_get depth' url
            end
       else lift (raise_for_status response) ;;;
            data <- lift (response_json response) ;;
            extract_snippet profile_id data)
      (fun e =>
         logging_error "Error getting profile data from SerpAPI" e ;;;
         ret EmptyString).
Proof. destruct depth; reflexivity. Qed.

(** The resolver never lets an exception out. *)
Lemma resolver_never_raises fuel url h e h' :
  get_linkedin_profile_data getenv requests_get fuel url h <> (Raise e, h').
Proof.
  rewrite resolver_unfold.
  unfold try_except. destruct (bind _ _ h) as [[s|e0|] h0]; discriminate.
Qed.

(** A request answered with 429 costs one round and one level of depth. *)
Lemma resolver_rate_limited fuel url pid h r :
  profile_id_of url = Return pid ->
  requests_get (count is_HttpGet h) api_url (search_request getenv pid)
  = HttpResponds r ->
  status_code r = 429%Z ->
  get_linkedin_profile_data getenv requests_get (S fuel) url h
  = get_linkedin_profile_data getenv requests_get fuel url
      (h ++ retry_round (search_request getenv pid)).
Proof.
  intros Hpid Hget Hcode. rewrite (resolver_unfold (S fuel)).
  unfold try_except, bind at 1. unfold lift at 1. rewrite Hpid.
  unfold bind at 1. unfold http_get. rewrite Hget, Hcode. cbn [Z.eqb Pos.eqb].
  unfold logging_warning, time_sleep, bind, emit.
  rewrite <- !app_assoc. cbn [app]. fold (retry_round (search_request getenv pid)).
  destruct (get_linkedin_profile_data _ _ fuel url _) as [[s|e|] h0] eqn:Hrec;
    try reflexivity.
  exfalso. eapply resolver_never_raises. exact Hrec.
Qed.

(** A request answered with 429 when no depth is left: the call of line
    119 raises [RecursionError] inside the [try], the handler logs it and
    the resolver returns the empty snippet. *)
Lemma resolver_depth_exhausted url pid h r :
  profile_id_of url = Return pid ->
  requests_get (count is_HttpGet h) api_url (search_request getenv pid)
  = HttpResponds r ->
  status_code r = 429%Z ->
  get_linkedin_profile_data getenv requests_get 0 url h
  = (Return EmptyString,
     h ++ retry_round (search_request getenv pid)
       ++ [Log ERROR "Error getting profile data from SerpAPI" (Some RecursionError)]).
Proof.
  intros Hpid Hget Hcode. rewrite (resolver_unfold 0).
  unfold try_except, bind at 1. unfold lift at 1. rewrite Hpid.
  unfold bind at 1. unfold http_get. rewrite Hget, Hcode. cbn [Z.eqb Pos.eqb].
  unfold logging_warning, time_sleep, logging_error, raise, ret, bind, emit.
  rewrite <- !app_assoc. reflexivity.
Qed.

(** A request answered otherwise ends the resolver, whatever depth is
    left. *)
Lemma resolver_last_attempt depth url pid h :
  profile_id_of url = Return pid ->
  match requests_get (count is_HttpGet h) api_url (search_request getenv pid) with
  | HttpResponds r => status_code r <> 429%Z
  | HttpFails _ => True
  end ->
  exists snippet evs,
    get_linkedin_profile_data getenv requests_get depth url h
    = (Return snippet, h ++ HttpGet api_url (search_request getenv pid) :: evs)
    /\ Forall (fun e => is_Log e = true) evs.
Proof.
  intros Hpid Hget. rewrite resolver_unfold.
  unfold try_except, bind at 1. unfold lift at 1. rewrite Hpid.
  unfold bind at 1. unfold http_get.
  destruct (requests_get _ _ _) as [e|r].
  - exists EmptyString, [Log ERROR "Error getting profile data from SerpAPI" (Some e)].
    unfold logging_error, bind, emit, ret. rewrite <- app_assoc.
    split; [reflexivity|]. repeat constructor.
  - apply Z.eqb_neq in Hget. rewrite Hget.
    assert (Htail : logs_only
              (lift (raise_for_status r) ;;;
               data <- lift (response_json r) ;; extract_snippet pid data)).
    { apply lo_bind; [lo_step|intros _].
      apply lo_bind; [lo_step|intros data]. apply lo_extract_snippet. }
    destruct (Htail (h ++ [HttpGet api_url (search_request getenv pid)]))
      as (o & evs & Hrun & Ho & Hevs).
    rewrite Hrun. destruct o as [s|e|]; [| |congruence].
    + exists s, evs. rewrite <- app_assoc. auto.
    + exists EmptyString,
        (evs ++ [Log ERROR "Error getting profile data from SerpAPI" (Some e)]).
      unfold logging_error, bind, emit, ret. rewrite <- !app_assoc.
      split; [reflexivity|]. apply Forall_app. split; [exact Hevs|repeat constructor].
Qed.

Lemma resolver_final_attempt fuel url pid h :
  profile_id_of url = Return pid ->
  match requests_get (count is_HttpGet h) api_url (search_request getenv pid) with
  | HttpResponds r => status_code r <> 429%Z
  | HttpFails _ => True
  end ->
  exists snippet evs,
    get_linkedin_profile_data getenv requests_get (S fuel) url h
    = (Return snippet, h ++ HttpGet api_url (search_request getenv pid) :: evs)
    /\ Forall (fun e => is_Log e = true) evs.
Proof. apply resolver_last_attempt. Qed.




End ResolverFacts.

Section ResolverRetries.

Variable getenv : string -> option string.
Variable requests_get : nat -> string -> search_params -> http_result.







End ResolverRetries.




(** ** Saving the table, and the validation of the header *)

(** C1, on the code.  A second row whose snippet is empty gets its
    sentinel in the table in memory, but the table at the output location
    still has one filled [Interests] cell, not two; and when the only row
    has an empty snippet nothing is written to the output location at
    all. *)
Theorem C1_skip_path_is_not_saved :
  (exists df saved,
      process_profiles Scenario.getenv Json.loads
        (Scenario.chat_answering (Scenario.json_interests ["Leadership"; "Innovation"]))
        Scenario.search 1 Scenario.contacts output_file []
      = (Return df,
         snd (process_profiles Scenario.getenv Json.loads
                (Scenario.chat_answering
                   (Scenario.json_interests ["Leadership"; "Innovation"]))
                Scenario.search 1 Scenario.contacts output_file []))
      /\ DF.column "Interests" df
         = Some [Text "Leadership, Innovation"; Text "Profile inaccessible"]
      /\ DF.count_filled "Interests" df = 2%nat
      /\ persisted output_file
           (snd (process_profiles Scenario.getenv Json.loads
                   (Scenario.chat_answering
                      (Scenario.json_interests ["Leadership"; "Innovation"]))
                   Scenario.search 1 Scenario.contacts output_file []))
         = Some saved
      /\ DF.column "Interests" saved
         = Some [Text "Leadership, Innovation"; Text EmptyString]
      /\ DF.count_filled "Interests" saved = 1%nat)
  /\ (exists df,
         fst (process_profiles Scenario.getenv Json.loads
                (Scenario.chat_answering
                   (Scenario.json_interests ["Leadership"; "Innovation"]))
                Scenario.search 1 Scenario.only_ghost output_file [])
         = Return df
         /\ DF.column "Interests" df = Some [Text "Profile inaccessible"]
         /\ persisted output_file
              (snd (process_profiles Scenario.getenv Json.loads
                      (Scenario.chat_answering
                         (Scenario.json_interests ["Leadership"; "Innovation"]))
                      Scenario.search 1 Scenario.only_ghost output_file []))
            = None).
Proof.
  split.
  - eexists _, _. vm_compute. repeat split.
  - eexists. vm_compute. repeat split.
Qed.

(** X2, the part of C7 the code does: a table that lacks one of the four
    columns [validate_csv_structure] lists is refused before the pipeline
    is entered. *)
Lemma main_refuses_missing_listed_column
  (getenv : string -> option string) (stdin_line : string)
  (path_exists : string -> bool) (read_csv : string -> nat -> outcome DataFrame)
  (json_loads : string -> option pyval)
  (chat_create : nat -> chat_request -> chat_result)
  (requests_get : nat -> string -> search_params -> http_result)
  (fuel : nat) (h h1 : history) (df : DataFrame) :
  env_missing getenv "OPENAI_API_KEY" = false ->
  env_missing getenv "SERPAPI_API_KEY" = false ->
  path_exists (Str.strip_chars quote_chars (Str.strip stdin_line)) = true ->
  read_linkedin_csv read_csv (Str.strip_chars quote_chars (Str.strip stdin_line)) h
  = (Return df, h1) ->
  missing_columns df <> [] ->
  exists msg,
    main getenv stdin_line path_exists read_csv json_loads chat_create requests_get
      fuel h
    = (Raise (ValueError msg),
       h1 ++ [Log ERROR ("CSV is missing required columns: "
                         +:+ String.concat ", " (missing_columns df)) None]).
Proof.
  intros Ho Hs Hp Hread Hmissing. unfold main. rewrite Ho, Hs, Hp. cbn [negb].
  unfold bind at 1. rewrite Hread.
  unfold validate_csv_structure.
  destruct (missing_columns df) as [|c cs] eqn:Hm; [congruence|].
  eexists. reflexivity.
Qed.

(** C7, on the code.  A table with the four listed columns and no URL
    column passes the validation; the pipeline is entered, announces the
    batch and the first row, and only then fails on the missing column. *)
Theorem C7_missing_url_is_not_detected_at_startup :
  validate_csv_structure Scenario.contacts_without_url []
  = (Return true, [])
  /\ main Scenario.getenv "contacts.csv" Scenario.anything_exists
       (Scenario.reading Scenario.contacts_without_url)
       Json.loads (Scenario.chat_answering "[]") Scenario.search 1 []
     = (Raise (KeyError "URL"),
        [ Log INFO "Processing first 5 profiles using SerpAPI method" None;
          Log INFO "Processing 1 profiles" None;
          Log INFO "Processing profile for Ada Lovelace" None;
          Log ERROR "Error processing profiles with SerpAPI"
            (Some (KeyError "URL")) ]).
Proof. vm_compute. split; reflexivity. Qed.

(** ** The rows the program works on *)

Lemma so_ret {A} (a : A) : service_only (ret a).
Proof. intros h. exists (Return a), []. unfold ret. rewrite app_nil_r. auto. Qed.

Lemma so_raise {A} (e : exn) : service_only (@raise A e).
Proof. intros h. exists (Raise e), []. unfold raise. rewrite app_nil_r. auto. Qed.

Lemma so_lift {A} (o : outcome A) : service_only (lift o).
Proof. intros h. exists o, []. unfold lift. rewrite app_nil_r. auto. Qed.

Lemma so_emit e : is_service e = true -> service_only (emit e).
Proof. intros He h. exists (Return tt), [e]. split; [reflexivity|]. auto. Qed.

Lemma so_bind {A B} (m : M A) (k : A -> M B) :
  service_only m -> (forall a, service_only (k a)) -> service_only (bind m k).
Proof.
  intros Hm Hk h. destruct (Hm h) as (o & evs & Hrun & Hevs).
  unfold bind. rewrite Hrun. destruct o as [a|e|]; [|eauto|eauto].
  destruct (Hk a (h ++ evs)) as (o' & evs' & Hrun' & Hevs').
  exists o', (evs ++ evs'). rewrite Hrun', app_assoc.
  split; [reflexivity|]. apply Forall_app. auto.
Qed.

Lemma so_try_except {A} (body : M A) (handler : exn -> M A) :
  service_only body -> (forall e, service_only (handler e)) ->
  service_only (try_except body handler).
Proof.
  intros Hm Hk h. destruct (Hm h) as (o & evs & Hrun & Hevs).
  unfold try_except. rewrite Hrun. destruct o as [a|e|]; [eauto| |eauto].
  destruct (Hk e (h ++ evs)) as (o' & evs' & Hrun' & Hevs').
  exists o', (evs ++ evs'). rewrite Hrun', app_assoc.
  split; [reflexivity|]. apply Forall_app. auto.
Qed.

Lemma so_logs_only {A} (m : M A) : logs_only m -> service_only m.
Proof.
  intros Hm h. destruct (Hm h) as (o & evs & Hrun & _ & Hevs).
  exists o, evs. split; [exact Hrun|].
  eapply Forall_impl; [exact Hevs|]. intros e He. destruct e; try discriminate He.
  reflexivity.
Qed.

Lemma so_http_get requests_get url params :
  service_only (http_get requests_get url params).
Proof.
  intros h. unfold http_get.
  destruct (requests_get _ _ _) as [e|r]; eexists _, _; (split; [reflexivity|]); auto.
Qed.

Lemma so_resolver getenv requests_get fuel url :
  service_only (get_linkedin_profile_data getenv requests_get fuel url).
Proof.
  induction fuel as [|fuel IH]; rewrite resolver_unfold;
    (apply so_try_except;
     [ apply so_bind; [apply so_lift|intros pid];
       apply so_bind; [apply so_http_get|intros r];
       destruct (status_code r =? 429)%Z;
       [ unfold logging_warning, time_sleep;
         apply so_bind; [apply so_emit; reflexivity|intros _];
         apply so_bind; [apply so_emit; reflexivity|intros _]
       | apply so_bind; [apply so_lift|intros _];
         apply so_bind; [apply so_lift|intros data];
         apply so_logs_only, lo_extract_snippet ]
     | intros e; unfold logging_error;
       apply so_bind; [apply so_emit; reflexivity|intros _]; apply so_ret ]).
  - apply so_raise.
  - exact IH.
Qed.

Lemma so_classifier json_loads chat_create text info :
  service_only (get_interests_from_profile json_loads chat_create text info).
Proof.
  intros h. rewrite get_interests_from_profile_run.
  destruct (body_outcome _ _); eexists _, _; (split; [reflexivity|]); auto.
Qed.

Lemma count_service p evs :
  (forall e, is_service e = true -> p e = false) ->
  Forall (fun e => is_service e = true) evs -> count p evs = 0%nat.
Proof.
  intros Hp Hevs. unfold count. induction Hevs as [|e evs He _ IH]; [reflexivity|].
  simpl. rewrite (Hp e He). exact IH.
Qed.

Lemma service_not_resolver_call e : is_service e = true -> is_CallResolver e = false.
Proof. destruct e; simpl; congruence. Qed.

Lemma service_not_classifier_call e : is_service e = true -> is_CallClassifier e = false.
Proof. destruct e; simpl; congruence. Qed.

Lemma service_about_rows out base evs :
  Forall (fun e => is_service e = true) evs -> Forall (about_rows_of out base) evs.
Proof.
  intros Hevs. eapply Forall_impl; [exact Hevs|].
  intros e He. destruct e; try discriminate He; exact I.
Qed.

(** Writing the [Interests] cell of a row keeps the rows. *)
Lemma column_update_other c c' f cols :
  c <> c' ->
  List.find (fun kv : string * list cell => String.eqb c (fst kv))
    (DF.update_column c' f cols)
  = List.find (fun kv => String.eqb c (fst kv)) cols.
Proof.
  intros Hne. induction cols as [|[k vs] cols IH]; simpl; [reflexivity|].
  destruct (String.eqb c' k) eqn:Hk; simpl.
  - apply String.eqb_eq in Hk. subst k.
    destruct (String.eqb c c') eqn:Hc; [apply String.eqb_eq in Hc; congruence|].
    reflexivity.
  - rewrite IH. reflexivity.
Qed.

Lemma find_app_other {V} c c' (v : V) (cols : list (string * V)) :
  c <> c' ->
  List.find (fun kv => String.eqb c (fst kv)) (cols ++ [(c', v)])
  = List.find (fun kv => String.eqb c (fst kv)) cols.
Proof.
  intros Hne. induction cols as [|[k vs] cols IH]; simpl.
  - destruct (String.eqb c c') eqn:Hc; [apply String.eqb_eq in Hc; congruence|].
    reflexivity.
  - destruct (String.eqb c k); [reflexivity|exact IH].
Qed.

Lemma set_at_nrows i c v df : nrows (DF.set_at i c v df) = nrows df.
Proof. unfold DF.set_at. destruct (DF.has_column c df); reflexivity. Qed.

Lemma set_at_column_other i c c' v df :
  c <> c' -> DF.column c (DF.set_at i c' v df) = DF.column c df.
Proof.
  intros Hne. unfold DF.set_at, DF.column.
  destruct (DF.has_column c' df); cbn [columns].
  - rewrite column_update_other by exact Hne. reflexivity.
  - rewrite find_app_other by exact Hne. reflexivity.
Qed.

Lemma same_rows_set_at base df i v :
  same_rows base df -> same_rows base (DF.set_at i "Interests" v df).
Proof.
  intros [Hn Hc]. split.
  - rewrite set_at_nrows. exact Hn.
  - intros c Hne. rewrite set_at_column_other by exact Hne. apply Hc, Hne.
Qed.

Ltac added_to h H :=
  match H with
  | h => constr:(@nil event)
  | ?H' ++ ?l => let t := added_to h H' in constr:(t ++ l)
  end.

(** Closes a branch of a run: names the outcome and the events added. *)
Ltac close_run :=
  match goal with
  | |- exists o evs, (?X, ?H) = (o, ?h ++ evs) /\ _ =>
      let t := added_to h H in
      exists X, t; split;
      [ rewrite ?app_nil_r, <- ?app_assoc; cbn [app]; reflexivity | ]
  end.

(** Splits what remains to be shown of a branch: the events concern rows
    of the table, the two counts, and the table that comes back. *)
Ltac split_run :=
  split; [rewrite ?Forall_app; repeat split; repeat constructor; try assumption
         | split; [cbn; lia | split; [cbn; lia |]]].

Section RowEvents.

Variable resolver : cell -> M string.
Variable classifier : string -> person_info -> M pyval.
Hypothesis resolver_service : forall url, service_only (resolver url).
Hypothesis classifier_service : forall text info, service_only (classifier text info).

Lemma process_row_events out base df i :
  (i < nrows base)%nat ->
  same_rows base df ->
  forall h, exists o evs,
    process_row resolver classifier out df (i, DF.row base i) h = (o, h ++ evs)
    /\ Forall (about_rows_of out base) evs
    /\ (count is_CallResolver evs <= 1)%nat
    /\ (count is_CallClassifier evs <= 1)%nat
    /\ (forall df', o = Return df' -> same_rows base df').
Proof.
  intros Hi Hrows h.
  unfold process_row, logging_info, logging_warning, time_sleep, bind, lift, emit, ret.
  set (row := DF.row base i).
  destruct (DF.get row "First Name") as [first|e|] eqn:Hf;
    [|close_run; split_run; discriminate ..].
  destruct (DF.get row "Last Name") as [last|e|] eqn:Hl;
    [|close_run; split_run; discriminate ..].
  destruct (DF.get row "URL") as [url|e|] eqn:Hu;
    [|close_run; split_run; discriminate ..].
  assert (Hcall : about_rows_of out base (CallResolver url)).
  { exists i. split; [exact Hi|exact Hu]. }
  match goal with
  | |- context [resolver url ?hh] =>
      destruct (resolver_service url hh) as (o_r & evs_r & Hr & Hsr); rewrite Hr
  end.
  pose proof (count_service is_CallResolver evs_r service_not_resolver_call Hsr) as Hr0.
  pose proof (count_service is_CallClassifier evs_r service_not_classifier_call Hsr)
    as Hr1.
  pose proof (service_about_rows out base evs_r Hsr) as Hra.
  destruct o_r as [snippet|e|];
    [|close_run; rewrite ?count_app, ?Hr0, ?Hr1; split_run; discriminate ..].
  destruct (negb (String.eqb snippet EmptyString)).
  2:{ close_run. rewrite ?count_app, ?Hr0, ?Hr1. split_run.
      intros df' [= <-]. apply same_rows_set_at, Hrows. }
  destruct (DF.get row "Company") as [company|e|] eqn:Hc;
    [|close_run; rewrite ?count_app, ?Hr0, ?Hr1; split_run; discriminate ..].
  destruct (DF.get row "Position") as [position|e|] eqn:Hp;
    [|close_run; rewrite ?count_app, ?Hr0, ?Hr1; split_run; discriminate ..].
  assert (Hcallc : about_rows_of out base
                     (CallClassifier snippet (mkPerson first last company position))).
  { exists i. split; [exact Hi|]. unfold person_of. fold row.
    rewrite Hf, Hl, Hc, Hp. reflexivity. }
  match goal with
  | |- context [classifier ?t ?info ?hh] =>
      destruct (classifier_service t info hh) as (o_c & evs_c & Hcl & Hsc);
      rewrite Hcl
  end.
  pose proof (count_service is_CallResolver evs_c service_not_resolver_call Hsc) as Hc0.
  pose proof (count_service is_CallClassifier evs_c service_not_classifier_call Hsc)
    as Hc1.
  pose proof (service_about_rows out base evs_c Hsc) as Hca.
  destruct o_c as [tags|e|];
    [|close_run; rewrite ?count_app, ?Hr0, ?Hr1, ?Hc0, ?Hc1; split_run;
      discriminate ..].
  destruct (Py.join ", " tags) as [joined|e|];
    [|close_run; rewrite ?count_app, ?Hr0, ?Hr1, ?Hc0, ?Hc1; split_run;
      discriminate ..].
  close_run. rewrite ?count_app, ?Hr0, ?Hr1, ?Hc0, ?Hc1. split_run.
  1, 2: apply (same_rows_set_at base df i (Text joined) Hrows).
  intros df' [= <-]. apply same_rows_set_at, Hrows.
Qed.

End RowEvents.

Section PipelineEvents.

Variable resolver : cell -> M string.
Variable classifier : string -> person_info -> M pyval.
Hypothesis resolver_service : forall url, service_only (resolver url).
Hypothesis classifier_service : forall text info, service_only (classifier text info).

Lemma loop_events out base idxs :
  Forall (fun i => (i < nrows base)%nat) idxs ->
  forall df h,
    same_rows base df ->
    exists o evs,
      foldM (process_row resolver classifier out)
        (map (fun i => (i, DF.row base i)) idxs) df h
      = (o, h ++ evs)
      /\ Forall (about_rows_of out base) evs
      /\ (count is_CallResolver evs <= length idxs)%nat
      /\ (count is_CallClassifier evs <= length idxs)%nat.
Proof.
  induction 1 as [|i idxs Hi _ IH]; intros df h Hrows; cbn [map foldM].
  - exists (Return df), []. unfold ret. rewrite app_nil_r.
    split; [reflexivity|]. split; [constructor|]. cbn. lia.
  - destruct (process_row_events resolver classifier resolver_service
                classifier_service out base df i Hi Hrows h)
      as (o & evs & Hrun & Hev & Hcr & Hcc & Hdf).
    unfold bind. rewrite Hrun.
    destruct o as [df'|e|];
      [|exists (Raise e), evs; cbn [length]; auto with lia
       |exists OutOfFuel, evs; cbn [length]; auto with lia].
    destruct (IH df' (h ++ evs) (Hdf df' eq_refl))
      as (o' & evs' & Hrun' & Hev' & Hcr' & Hcc').
    exists o', (evs ++ evs'). rewrite Hrun', app_assoc, !count_app.
    split; [reflexivity|]. split; [apply Forall_app; auto|]. cbn [length]. lia.
Qed.

Lemma ensure_interests_nrows df : nrows (ensure_interests df) = nrows df.
Proof. unfold ensure_interests. destruct (DF.has_column _ _); reflexivity. Qed.

Lemma same_rows_refl df : same_rows df df.
Proof. split; [reflexivity|]. intros c _. reflexivity. Qed.

Lemma pipeline_events df out h :
  exists o evs,
    process_profiles_with resolver classifier df out h = (o, h ++ evs)
    /\ Forall (about_rows_of out (ensure_interests df)) evs
    /\ (count is_CallResolver evs <= nrows df)%nat
    /\ (count is_CallClassifier evs <= nrows df)%nat.
Proof.
  unfold process_profiles_with, try_except, logging_info, logging_error.
  set (base := ensure_interests df).
  unfold bind at 1. unfold emit at 1. unfold bind at 1.
  unfold DF.iterrows.
  match goal with
  | |- context [foldM _ _ base ?hh] =>
      destruct (loop_events out base (seq 0 (nrows base))
                  ltac:(apply Forall_forall; intros i Hi; apply elem_of_seq in Hi; lia)
                  base hh (same_rows_refl base))
        as (o & evs & Hrun & Hev & Hcr & Hcc);
      rewrite Hrun
  end.
  rewrite length_seq in Hcr, Hcc. unfold base in Hcr, Hcc.
  rewrite ensure_interests_nrows in Hcr, Hcc.
  destruct o as [df'|e|]; unfold bind, emit, ret, raise;
    close_run; rewrite ?count_app; rewrite ?Forall_app;
    (split; [repeat split; repeat constructor; assumption|]);
    cbn; lia.
Qed.

End PipelineEvents.

(** The rows of [df.head(5)], with the [Interests] column ensured, are
    the first five rows of [df]. *)
Lemma head_nrows n df : nrows (DF.head n df) = Nat.min n (nrows df).
Proof. reflexivity. Qed.

Lemma cell_at_firstn i n vs : (i < n)%nat -> DF.cell_at i (firstn n vs) = DF.cell_at i vs.
Proof. intros Hi. unfold DF.cell_at. rewrite lookup_take_lt by exact Hi. reflexivity. Qed.

Lemma head_row n df i : (i < n)%nat -> DF.row (DF.head n df) i = DF.row df i.
Proof.
  intros Hi. unfold DF.row, DF.head. cbn [columns]. rewrite map_map.
  apply map_ext. intros [c vs]. cbn [fst snd]. rewrite cell_at_firstn by exact Hi.
  reflexivity.
Qed.

Lemma head_column n df c :
  DF.column c (DF.head n df) = option_map (firstn n) (DF.column c df).
Proof.
  unfold DF.column, DF.head. cbn [columns].
  induction (columns df) as [|[k vs] cols IH]; cbn [map List.find fst snd]; [reflexivity|].
  destruct (String.eqb c k); [reflexivity|exact IH].
Qed.

Lemma ensure_interests_column df c :
  c <> "Interests" -> DF.column c (ensure_interests df) = DF.column c df.
Proof.
  intros Hne. unfold ensure_interests.
  destruct (DF.has_column _ _); [reflexivity|].
  unfold DF.column, DF.add_column. cbn [columns].
  rewrite find_app_other by exact Hne. reflexivity.
Qed.

Lemma ensure_interests_get df i c :
  c <> "Interests" ->
  DF.get (DF.row (ensure_interests df) i) c = DF.get (DF.row df i) c.
Proof.
  intros Hne. unfold ensure_interests.
  destruct (DF.has_column _ _); [reflexivity|].
  unfold DF.get, DF.row, DF.add_column. cbn [columns].
  rewrite map_app. cbn [map fst snd].
  rewrite find_app_other by exact Hne. reflexivity.
Qed.

Lemma ensure_interests_person df i :
  person_of (DF.row (ensure_interests df) i) = person_of (DF.row df i).
Proof.
  unfold person_of. rewrite !ensure_interests_get by discriminate. reflexivity.
Qed.

Lemma about_rows_first_five df e :
  about_rows_of output_file (ensure_interests (DF.head 5 df)) e ->
  concerns_first_five df e.
Proof.
  destruct e as [| | | |p t|url|text info]; cbn [about_rows_of concerns_first_five];
    try exact (fun _ => I).
  - intros [-> [Hn Hc]]. split; [reflexivity|].
    rewrite ensure_interests_nrows, head_nrows in Hn. split; [exact Hn|].
    intros c Hne. rewrite (Hc c Hne), ensure_interests_column by exact Hne.
    apply head_column.
  - intros (i & Hi & Hget).
    rewrite ensure_interests_nrows, head_nrows in Hi.
    rewrite ensure_interests_get in Hget by discriminate.
    rewrite head_row in Hget by lia.
    exists i. repeat split; [lia|lia|exact Hget].
  - intros (i & Hi & Hp).
    rewrite ensure_interests_nrows, head_nrows in Hi.
    rewrite ensure_interests_person, head_row in Hp by lia.
    exists i. repeat split; [lia|lia|exact Hp].
Qed.

Lemma service_first_five df evs :
  Forall (fun e => is_service e = true) evs -> Forall (concerns_first_five df) evs.
Proof.
  intros Hevs. eapply Forall_impl; [exact Hevs|].
  intros e He. destruct e; try discriminate He; exact I.
Qed.

Lemma read_linkedin_csv_logs read_csv file_path h :
  exists o evs,
    read_linkedin_csv read_csv file_path h = (o, h ++ evs)
    /\ Forall (fun e => is_Log e = true) evs.
Proof.
  unfold read_linkedin_csv, try_except, logging_error, bind, lift, ret, emit, raise.
  repeat match goal with
         | |- context [read_csv ?a ?b] => destruct (read_csv a b); cbn beta iota
         | |- context [DF.iloc ?a ?b] => destruct (DF.iloc a b); cbn beta iota
         | |- context [looks_like_notes ?a] =>
             destruct (looks_like_notes a); cbn beta iota
         end;
    close_run; repeat constructor.
Qed.

Lemma logs_are_service evs :
  Forall (fun e => is_Log e = true) evs -> Forall (fun e => is_service e = true) evs.
Proof.
  intros Hevs. eapply Forall_impl; [exact Hevs|].
  intros e He. destruct e; try discriminate He; reflexivity.
Qed.

(** C4.  Whatever table is read, [main] calls the resolver at most five
    times and the classifier at most five times, and every call and every
    write of the output file concerns the first five rows of the table
    read: the URL resolved and the subject classified are those of one of
    these rows, and a table written has at most five rows, whose cells
    outside [Interests] are the first five of each column.  When no table
    is read, nothing but log records is added. *)
Theorem C4_only_first_five_rows
  (getenv : string -> option string) (stdin_line : string)
  (path_exists : string -> bool) (read_csv : string -> nat -> outcome DataFrame)
  (json_loads : string -> option pyval)
  (chat_create : nat -> chat_request -> chat_result)
  (requests_get : nat -> string -> search_params -> http_result)
  (fuel : nat) (h : history) :
  exists o evs,
    main getenv stdin_line path_exists read_csv json_loads chat_create requests_get
      fuel h
    = (o, h ++ evs)
    /\ (count is_CallResolver evs <= 5)%nat
    /\ (count is_CallClassifier evs <= 5)%nat
    /\ match read_linkedin_csv read_csv
               (Str.strip_chars quote_chars (Str.strip stdin_line)) h with
       | (Return df, _) => Forall (concerns_first_five df) evs
       | _ => Forall (fun e => is_Log e = true) evs
       end.
Proof.
  unfold main.
  destruct (env_missing getenv "OPENAI_API_KEY").
  { exists (Raise (ValueError
                     "OpenAI API key not found. Please set it in your .env file.")), [].
    unfold raise. rewrite app_nil_r. split; [reflexivity|]. cbn.
    split; [lia|]. split; [lia|].
    destruct (read_linkedin_csv _ _ _) as [[df| |] h1]; constructor. }
  destruct (env_missing getenv "SERPAPI_API_KEY").
  { exists (Raise (ValueError
                     "SerpAPI key not found. Please set it in your .env file.")), [].
    unfold raise. rewrite app_nil_r. split; [reflexivity|]. cbn.
    split; [lia|]. split; [lia|].
    destruct (read_linkedin_csv _ _ _) as [[df| |] h1]; constructor. }
  set (input_file := Str.strip_chars quote_chars (Str.strip stdin_line)).
  destruct (path_exists input_file); cbn [negb].
  2:{ eexists _, []. unfold raise. rewrite app_nil_r. split; [reflexivity|]. cbn.
      split; [lia|]. split; [lia|].
      destruct (read_linkedin_csv _ _ _) as [[df| |] h1]; constructor. }
  destruct (read_linkedin_csv_logs read_csv input_file h)
    as (o_r & evs_r & Hread & Hlogs).
  pose proof (count_logs is_CallResolver evs_r (fun _ _ _ => eq_refl) Hlogs) as Hr0.
  pose proof (count_logs is_CallClassifier evs_r (fun _ _ _ => eq_refl) Hlogs) as Hr1.
  unfold bind at 1. rewrite Hread.
  destruct o_r as [df|e|];
    [|eexists _, evs_r; (split; [reflexivity|]); rewrite Hr0, Hr1;
      (split; [lia|]); (split; [lia|]); exact Hlogs ..].
  pose proof (service_first_five df evs_r (logs_are_service evs_r Hlogs)) as Hfive.
  unfold validate_csv_structure.
  destruct (missing_columns df) as [|c cs].
  2:{ unfold bind, emit, ret, raise. cbn [negb]. close_run.
      rewrite !count_app, Hr0, Hr1. split; [cbn; lia|]. split; [cbn; lia|].
      apply Forall_app. split; [exact Hfive|]. repeat constructor. }
  unfold bind at 1. unfold ret at 1. cbn [negb].
  unfold logging_info. unfold bind at 1. unfold emit at 1.
  unfold bind at 1. unfold process_profiles.
  match goal with
  | |- context [process_profiles_with ?r ?c ?d ?out ?hh] =>
      destruct (pipeline_events r c
                  (so_resolver getenv requests_get fuel)
                  (so_classifier json_loads chat_create) d out hh)
        as (o_p & evs_p & Hp & Hev & Hcr & Hcc);
      rewrite Hp
  end.
  rewrite head_nrows in Hcr, Hcc.
  assert (Hev5 : Forall (concerns_first_five df) evs_p).
  { eapply Forall_impl; [exact Hev|]. intros e. apply about_rows_first_five. }
  destruct o_p as [df'|e|]; unfold emit;
    close_run; rewrite !count_app, Hr0, Hr1;
    (split; [cbn; lia|]); (split; [cbn; lia|]);
    rewrite ?Forall_app; repeat split; repeat constructor; assumption.
Qed.


(** ** The statements on the scenarios of the specification *)

(** The witness of C6: a response that is not JSON and mentions two
    labels, the later one of the taxonomy first and in capitals. *)
Lemma C6_witness :
  get_interests_from_profile Json.loads
    (Scenario.chat_answering "GOOD AT SALES, AND AT leadership")
    Scenario.ada_snippet Scenario.ada []
  = (Return (PyList [PyStr "Leadership"; PyStr "Sales"]),
     [ChatCompletion (classifier_request Scenario.ada_snippet Scenario.ada)]).
Proof.
  exact (proj1 (proj2 (proj2 (proj2
           (C6_parsing_order Json.loads
              (Scenario.chat_answering "GOOD AT SALES, AND AT leadership")
              Scenario.ada_snippet Scenario.ada []
              "GOOD AT SALES, AND AT leadership" [] eq_refl))))
           ltac:(vm_compute; reflexivity)
           ltac:(vm_compute; discriminate)).
Defined.

(** The counterexample to C6 as stated: a response that is a JSON object
    whose [interests] field is a text has the first ten characters of that
    text returned, which is no sequence of labels and comes from none of
    the four steps, and the pipeline writes its characters to the row; and
    a response that is a JSON object without that field gives the sentinel
    through the outer handler, although it is JSON and names a label. *)
Lemma C6_counterexample :
  get_interests_from_profile Json.loads
    (Scenario.chat_answering Cases.interests_as_text)
    Scenario.ada_snippet Scenario.ada []
  = (Return (PyStr "Leadership"),
     [ChatCompletion (classifier_request Scenario.ada_snippet Scenario.ada)])
  /\ ~ stated_tag_set Json.loads Cases.interests_as_text (PyStr "Leadership")
  /\ fst (process_profiles Scenario.getenv Json.loads
            (Scenario.chat_answering Cases.interests_as_text)
            Scenario.search 1 Scenario.only_ada output_file [])
     = Return (DF.set_at 0 "Interests" (Text "L, e, a, d, e, r, s, h, i, p")
                 (ensure_interests Scenario.only_ada))
  /\ (exists e,
         get_interests_from_profile Json.loads
           (Scenario.chat_answering Cases.tags_object)
           Scenario.ada_snippet Scenario.ada []
         = (Return (PyList [PyStr "Profile inaccessible"]),
            [ChatCompletion (classifier_request Scenario.ada_snippet Scenario.ada);
             Log ERROR "Error getting interests for Ada Lovelace" (Some e)]))
  /\ ~ stated_tag_set Json.loads Cases.tags_object
         (PyList [PyStr "Profile inaccessible"])
  /\ scan_interests Cases.tags_object = ["Sales"].
Proof.
  assert (H1 : Json.loads Cases.interests_as_text
               = Some (PyDict [("interests", PyStr "Leadership, Sales")]))
    by (vm_compute; reflexivity).
  assert (H2 : Json.loads Cases.tags_object
               = Some (PyDict [("tags", PyList [PyStr "Sales"])]))
    by (vm_compute; reflexivity).
  split; [vm_compute; reflexivity|]. split.
  { unfold stated_tag_set. rewrite H1.
    intros [(items & labels & [= <-] & Hl & _)
           | [(labels & Hd & _) | [(Hd & _) | (Hd & _)]]];
      discriminate. }
  split; [vm_compute; reflexivity|].
  split; [exists TypeError; vm_compute; reflexivity|]. split.
  { unfold stated_tag_set. rewrite H2.
    intros [(items & labels & [= <-] & Hl & _)
           | [(labels & Hd & _) | [(Hd & _) | (Hd & _)]]];
      discriminate. }
  vm_compute. reflexivity.
Qed.

(** The witness of C8: a completion that answers with twelve labels. *)
Lemma C8_witness :
  fst (get_interests_from_profile Json.loads
         (Scenario.chat_answering (Scenario.json_array (firstn 12 INTERESTS)))
         Scenario.ada_snippet Scenario.ada [])
  = Return (PyList (firstn 10 (map PyStr (firstn 12 INTERESTS)))).
Proof.
  destruct (C8_tag_set_at_most_ten Json.loads
              (Scenario.chat_answering (Scenario.json_array (firstn 12 INTERESTS)))
              Scenario.ada_snippet Scenario.ada [])
    as (_ & Hcut).
  apply (Hcut (Scenario.json_array (firstn 12 INTERESTS)) []
           (map PyStr (firstn 12 INTERESTS)) [] []).
  - reflexivity.
  - vm_compute. reflexivity.
Defined.

(** The witness of C9: a completion endpoint that refuses the request. *)
Lemma C9_witness :
  get_interests_from_profile Json.loads
    (Scenario.chat_failing (ServiceError "401 Unauthorized"))
    Scenario.ada_snippet Scenario.ada []
  = (Return (PyList [PyStr "Profile inaccessible"]),
     [ ChatCompletion (classifier_request Scenario.ada_snippet Scenario.ada);
       Log ERROR "Error getting interests for Ada Lovelace"
         (Some (ServiceError "401 Unauthorized")) ]).
Proof.
  destruct (C9_completion_failure_is_caught Json.loads
              (Scenario.chat_failing (ServiceError "401 Unauthorized"))
              Scenario.ada_snippet Scenario.ada [])
    as (_ & Hcatch & Hfail).
  exact (Hcatch _ _ (Hfail _ eq_refl)).
Defined.

(** * Further properties of the code *)

(** ** The header check and the start of the program *)

Lemma has_column_In c df : DF.has_column c df = true <-> In c (DF.column_names df).
Proof.
  unfold DF.has_column. rewrite existsb_exists. split.
  - intros (x & Hx & He). apply String.eqb_eq in He. subst x. exact Hx.
  - intros Hc. exists c. split; [exact Hc|apply String.eqb_refl].
Qed.

Lemma missing_columns_In c df :
  In c (missing_columns df) <->
  In c ["First Name"; "Last Name"; "Company"; "Position"]
  /\ ~ In c (DF.column_names df).
Proof.
  unfold missing_columns. rewrite filter_In. fold required_columns.
  rewrite <- has_column_In. rewrite negb_true_iff, not_true_iff_false. reflexivity.
Qed.

(** X1.  [validate_csv_structure] answers [True] exactly when the header
    has the four columns First Name, Last Name, Company and Position,
    spelled so; it then logs nothing.  Otherwise it answers [False] after
    one error record that lists exactly the listed columns the header
    lacks.  It never raises. *)
Theorem validate_csv_structure_decides (df : DataFrame) (h : history) :
  exists valid evs,
    validate_csv_structure df h = (Return valid, h ++ evs)
    /\ (valid = true <->
        forall c, In c ["First Name"; "Last Name"; "Company"; "Position"] ->
                  In c (DF.column_names df))
    /\ (valid = true -> evs = [])
    /\ (valid = false ->
        exists missing,
          evs = [Log ERROR ("CSV is missing required columns: "
                            +:+ String.concat ", " missing) None]
          /\ forall c, In c missing <->
                       In c ["First Name"; "Last Name"; "Company"; "Position"]
                       /\ ~ In c (DF.column_names df)).
Proof.
  unfold validate_csv_structure.
  destruct (missing_columns df) as [|m ms] eqn:Hm.
  - exists true, []. unfold ret. rewrite app_nil_r. split; [reflexivity|].
    split; [|split; [reflexivity|discriminate]].
    split; [|reflexivity]. intros _ c Hc.
    destruct (in_dec string_dec c (DF.column_names df)) as [Hin|Hout]; [exact Hin|].
    exfalso. assert (Hmiss : In c (missing_columns df))
      by (apply missing_columns_In; split; assumption).
    rewrite Hm in Hmiss. exact Hmiss.
  - exists false, [Log ERROR ("CSV is missing required columns: "
                            +:+ String.concat ", " (m :: ms)) None].
    split; [reflexivity|]. split; [|split; [discriminate|]].
    + split; [discriminate|]. intros Hall. exfalso.
      assert (Hmiss : In m (missing_columns df)) by (rewrite Hm; left; reflexivity).
      apply missing_columns_In in Hmiss. destruct Hmiss as [Hreq Hout].
      exact (Hout (Hall m Hreq)).
    + intros _. exists (m :: ms). split; [reflexivity|].
      intros c. rewrite <- Hm. apply missing_columns_In.
Qed.

(** X3.  [main] checks, in this order, the OpenAI key, the SerpAPI key and
    the existence of the file named on the input line (blanks and quotes
    around the name removed).  A key that is unset or empty, or a file
    that does not exist, ends the program with the matching exception
    before anything is read, requested or logged. *)
Theorem main_startup_checks
  (getenv : string -> option string) (stdin_line : string)
  (path_exists : string -> bool) (read_csv : string -> nat -> outcome DataFrame)
  (json_loads : string -> option pyval)
  (chat_create : nat -> chat_request -> chat_result)
  (requests_get : nat -> string -> search_params -> http_result)
  (fuel : nat) (h : history) :
  let run :=
    main getenv stdin_line path_exists read_csv json_loads chat_create
      requests_get fuel h in
  let unusable name := getenv name = None \/ getenv name = Some EmptyString in
  (unusable "OPENAI_API_KEY" ->
   run = (Raise (ValueError
                   "OpenAI API key not found. Please set it in your .env file."), h))
  /\ (~ unusable "OPENAI_API_KEY" ->
      unusable "SERPAPI_API_KEY" ->
      run = (Raise (ValueError
                      "SerpAPI key not found. Please set it in your .env file."), h))
  /\ (~ unusable "OPENAI_API_KEY" ->
      ~ unusable "SERPAPI_API_KEY" ->
      path_exists (Str.strip_chars quote_chars (Str.strip stdin_line)) = false ->
      run = (Raise (FileNotFoundError
                      ("File not found: "
                       +:+ Str.strip_chars quote_chars (Str.strip stdin_line))), h)).
Proof.
  intros run unusable. subst run.
  assert (Hmissing : forall name, env_missing getenv name = true <-> unusable name).
  { intros name. unfold env_missing, unusable.
    destruct (getenv name) as [v|]; [|tauto].
    rewrite String.eqb_eq. split.
    - intros ->. auto.
    - intros [H|H]; congruence. }
  assert (Hpresent : forall name, ~ unusable name -> env_missing getenv name = false).
  { intros name Hn. apply not_true_is_false. rewrite Hmissing. exact Hn. }
  unfold main. split; [|split].
  - intros Ho. apply Hmissing in Ho. rewrite Ho. reflexivity.
  - intros Ho Hs. rewrite (Hpresent _ Ho). apply Hmissing in Hs. rewrite Hs. reflexivity.
  - intros Ho Hs Hp. rewrite (Hpresent _ Ho), (Hpresent _ Hs), Hp. reflexivity.
Qed.

(** The witness of X3: no key is set. *)
Lemma main_startup_checks_witness :
  main (fun _ => None) "contacts.csv" Scenario.anything_exists
    (Scenario.reading Scenario.contacts) Json.loads
    (Scenario.chat_answering "[]") Scenario.search 1 []
  = (Raise (ValueError
              "OpenAI API key not found. Please set it in your .env file."), []).
Proof.
  exact (proj1 (main_startup_checks (fun _ => None) "contacts.csv"
                  Scenario.anything_exists (Scenario.reading Scenario.contacts)
                  Json.loads (Scenario.chat_answering "[]") Scenario.search 1 [])
           (or_introl eq_refl)).
Defined.

(** The witness of X2: the table of the scenarios without the column
    Company. *)
Lemma main_refuses_missing_listed_column_witness :
  exists msg,
    main Scenario.getenv "contacts.csv" Scenario.anything_exists
      (Scenario.reading Cases.contacts_without_company)
      Json.loads (Scenario.chat_answering "[]") Scenario.search 1 []
    = (Raise (ValueError msg),
       [] ++ [Log ERROR "CSV is missing required columns: Company" None]).
Proof.
  apply (main_refuses_missing_listed_column Scenario.getenv "contacts.csv"
           Scenario.anything_exists
           (Scenario.reading Cases.contacts_without_company)
           Json.loads (Scenario.chat_answering "[]") Scenario.search 1 [] []
           Cases.contacts_without_company).
  - reflexivity.
  - reflexivity.
  - reflexivity.
  - vm_compute. reflexivity.
  - vm_compute. discriminate.
Defined.

(** ** Reading the table *)

Lemma iloc_first df r :
  DF.iloc df 0 = Return r -> (0 < nrows df)%nat /\ r = DF.row df 0.
Proof.
  unfold DF.iloc. destruct (0 <? nrows df)%nat eqn:Hn; [|discriminate].
  intros [= <-]. apply Nat.ltb_lt in Hn. auto.
Qed.

(** X5.  The table [read_linkedin_csv] returns is the file read as it is
    when its first row does not look like notes; else the file read
    without its first line when the first row of that does not look like
    notes; else the file read without its first two lines, which is
    returned without a look at its rows.  No more than two lines are ever
    skipped, and a successful read logs nothing. *)
Theorem read_linkedin_csv_skips_at_most_two
  (read_csv : string -> nat -> outcome DataFrame)
  (file_path : string) (h h' : history) (df : DataFrame) :
  read_linkedin_csv read_csv file_path h = (Return df, h') ->
  h' = h
  /\ (read_as_is read_csv file_path df
      \/ read_after_one_note read_csv file_path df
      \/ read_after_two_notes read_csv file_path df).
Proof.
  unfold read_linkedin_csv, try_except, logging_error, bind, lift, ret, emit, raise.
  intros H.
  destruct (read_csv file_path 0) as [df0| |] eqn:H0; cbn beta iota in H;
    try discriminate H.
  destruct (DF.iloc df0 0) as [r0| |] eqn:Hi0; cbn beta iota in H; try discriminate H.
  apply iloc_first in Hi0 as [Hn0 ->].
  destruct (looks_like_notes (DF.row df0 0)) eqn:Hl0; cbn beta iota in H.
  2:{ injection H as <- <-. split; [reflexivity|]. left. repeat split; assumption. }
  destruct (read_csv file_path 1) as [df1| |] eqn:H1; cbn beta iota in H;
    try discriminate H.
  destruct (DF.iloc df1 0) as [r1| |] eqn:Hi1; cbn beta iota in H; try discriminate H.
  apply iloc_first in Hi1 as [Hn1 ->].
  destruct (looks_like_notes (DF.row df1 0)) eqn:Hl1; cbn beta iota in H.
  2:{ injection H as <- <-. split; [reflexivity|]. right. left.
      exists df0. repeat split; assumption. }
  destruct (read_csv file_path 2) as [df2| |] eqn:H2; cbn beta iota in H;
    try discriminate H.
  injection H as <- <-. split; [reflexivity|]. right. right.
  exists df0, df1. repeat split; assumption.
Qed.

(** The witness of X5: a file with two lines of notes before its header. *)
Lemma read_linkedin_csv_skips_at_most_two_witness :
  read_as_is Cases.reading_with_notes "contacts.csv" Scenario.contacts
  \/ read_after_one_note Cases.reading_with_notes "contacts.csv" Scenario.contacts
  \/ read_after_two_notes Cases.reading_with_notes "contacts.csv" Scenario.contacts.
Proof.
  apply (read_linkedin_csv_skips_at_most_two Cases.reading_with_notes
           "contacts.csv" [] [] Scenario.contacts).
  vm_compute. reflexivity.
Defined.

(** X4.  Whatever goes wrong while the table is read is logged once, as
    the last record, and raised again unchanged.  In particular a file
    with a header and no row is not an empty batch: looking at its first
    row raises [IndexError]. *)
Theorem read_linkedin_csv_failures
  (read_csv : string -> nat -> outcome DataFrame)
  (file_path : string) (h : history) :
  (forall e h',
      read_linkedin_csv read_csv file_path h = (Raise e, h') ->
      h' = h ++ [Log ERROR "Error reading CSV file" (Some e)])
  /\ (forall e,
         read_csv file_path 0 = Raise e ->
         read_linkedin_csv read_csv file_path h
         = (Raise e, h ++ [Log ERROR "Error reading CSV file" (Some e)]))
  /\ (forall df,
         read_csv file_path 0 = Return df ->
         nrows df = 0%nat ->
         read_linkedin_csv read_csv file_path h
         = (Raise IndexError,
            h ++ [Log ERROR "Error reading CSV file" (Some IndexError)])).
Proof.
  unfold read_linkedin_csv, try_except, logging_error, bind, lift, ret, emit, raise.
  split; [|split].
  - intros e h' H.
    repeat match type of H with
           | context [match read_csv ?a ?b with _ => _ end] =>
               destruct (read_csv a b); cbn beta iota in H
           | context [match DF.iloc ?a ?b with _ => _ end] =>
               destruct (DF.iloc a b); cbn beta iota in H
           | context [if looks_like_notes ?a then _ else _] =>
               destruct (looks_like_notes a); cbn beta iota in H
           end;
      try discriminate H; injection H as <- <-; reflexivity.
  - intros e He. rewrite He. reflexivity.
  - intros df Hd Hn. rewrite Hd. cbn beta iota.
    unfold DF.iloc. rewrite Hn. reflexivity.
Qed.

(** The witness of X4: a file with a header and no row. *)
Lemma read_linkedin_csv_failures_witness :
  read_linkedin_csv (Scenario.reading Cases.header_only) "contacts.csv" []
  = (Raise IndexError, [Log ERROR "Error reading CSV file" (Some IndexError)]).
Proof.
  exact (proj2 (proj2 (read_linkedin_csv_failures
                         (Scenario.reading Cases.header_only) "contacts.csv" []))
           Cases.header_only eq_refl eq_refl).
Defined.

(** ** The two classifiers *)

(** X17.  One call of the classifier sends exactly one completion request,
    whatever comes back, and it reads no more than the first 2000
    characters of the snippet: two snippets that agree on them are
    classified alike, with the same events. *)
Theorem classifier_reads_first_2000_characters
  (json_loads : string -> option pyval)
  (chat_create : nat -> chat_request -> chat_result)
  (profile_text other_text : string) (info : person_info) (h : history) :
  Str.take 2000 profile_text = Str.take 2000 other_text ->
  get_interests_from_profile json_loads chat_create profile_text info h
  = get_interests_from_profile json_loads chat_create other_text info h
  /\ exists o evs,
      get_interests_from_profile json_loads chat_create profile_text info h
      = (o, h ++ evs)
      /\ count is_ChatCompletion evs = 1%nat.
Proof.
  intros Htake.
  assert (Hreq : classifier_request profile_text info
                 = classifier_request other_text info).
  { unfold classifier_request. rewrite Htake. reflexivity. }
  rewrite !get_interests_from_profile_run, Hreq. split; [reflexivity|].
  destruct (body_outcome _ _); eexists _, _; split; reflexivity.
Qed.

(** The witness of X17: two snippets of 2001 characters that differ in the
    last one. *)
Lemma classifier_reads_first_2000_characters_witness :
  get_interests_from_profile Json.loads
    (Scenario.chat_answering (Scenario.json_array Scenario.ada_labels))
    (Cases.long_text "x") Scenario.ada []
  = get_interests_from_profile Json.loads
      (Scenario.chat_answering (Scenario.json_array Scenario.ada_labels))
      (Cases.long_text "y") Scenario.ada [].
Proof.
  apply (classifier_reads_first_2000_characters Json.loads
           (Scenario.chat_answering (Scenario.json_array Scenario.ada_labels))
           (Cases.long_text "x") (Cases.long_text "y") Scenario.ada []).
  vm_compute. reflexivity.
Defined.

Lemma tagger_taxonomy_agrees : Tagger.INTERESTS = INTERESTS.
Proof. reflexivity. Qed.

Lemma tagger_body_run json_loads chat_create profile_text info h :
  Tagger.classifier_body json_loads chat_create profile_text info h
  = (match chat_create (count is_ChatCompletion h)
             (Tagger.classifier_request profile_text info) with
     | ChatFails e => Raise e
     | ChatResponds [] => Raise IndexError
     | ChatResponds (None :: _) => Raise TypeError
     | ChatResponds (Some text :: _) =>
         match json_loads text with
         | Some decoded => Py.slice_to 10 decoded
         | None => Raise JSONDecodeError
         end
     end,
     h ++ [ChatCompletion (Tagger.classifier_request profile_text info)]).
Proof.
  unfold Tagger.classifier_body, bind, completions_create.
  destruct (chat_create _ _) as [e|[|[text|] rest]]; try reflexivity.
  cbn beta iota. unfold ret, loads, raise, lift.
  destruct (json_loads text); reflexivity.
Qed.

(** X18.  The classifier kept in [linkedin_tagger.py] never raises and
    sends exactly one request with no response format.  When the response
    decodes to a JSON sequence it returns its first ten entries, unchecked;
    when the request fails or the response is not JSON it logs an error
    that names the subject and returns the empty list (not the sentinel of
    the pipeline's classifier, and without its fallback scan). *)
Theorem tagger_classifier_results
  (json_loads : string -> option pyval)
  (chat_create : nat -> chat_request -> chat_result)
  (profile_text : string) (info : person_info) (h : history) :
  let req := Tagger.classifier_request profile_text info in
  let answer := chat_create (count is_ChatCompletion h) req in
  let run := Tagger.get_interests_from_profile json_loads chat_create
               profile_text info h in
  let failed e :=
    (Return (PyList []),
     h ++ [ChatCompletion req;
           Log ERROR ("Error getting interests for " +:+ cell_str (first_name info)
                      +:+ " " +:+ cell_str (last_name info)) (Some e)]) in
  response_format req = EmptyString
  /\ (exists v h', run = (Return v, h') /\ (Py.len v <= 10)%nat)
  /\ (forall e, answer = ChatFails e -> run = failed e)
  /\ (forall text rest,
         answer = ChatResponds (Some text :: rest) ->
         json_loads text = None ->
         run = failed JSONDecodeError)
  /\ (forall text rest xs,
         answer = ChatResponds (Some text :: rest) ->
         json_loads text = Some (PyList xs) ->
         run = (Return (PyList (firstn 10 xs)), h ++ [ChatCompletion req])).
Proof.
  intros req answer run failed. subst run failed.
  unfold Tagger.get_interests_from_profile, try_except.
  rewrite tagger_body_run. fold req. fold answer.
  unfold logging_error, bind, emit, ret. cbn beta iota.
  split; [reflexivity|]. split; [|split; [|split]].
  - destruct answer as [e|[|[text|] rest]];
      try (eexists _, _; split; [reflexivity|cbn; lia]).
    destruct (json_loads text) as [decoded|];
      [|eexists _, _; split; [reflexivity|cbn; lia]].
    destruct (Py.slice_to 10 decoded) as [v|e|] eqn:Hs.
    + eexists _, _. split; [reflexivity|]. eapply slice_to_len. exact Hs.
    + eexists _, _. split; [reflexivity|cbn; lia].
    + exfalso. eapply slice_to_fuel. exact Hs.
  - intros e ->. rewrite <- app_assoc. reflexivity.
  - intros text rest -> ->. rewrite <- app_assoc. reflexivity.
  - intros text rest xs -> ->. reflexivity.
Qed.

(** The witness of X18: a response that is not JSON, which the pipeline's
    classifier would scan for labels. *)
Lemma tagger_classifier_results_witness :
  Tagger.get_interests_from_profile Json.loads
    (Scenario.chat_answering "good at Sales, and at Leadership")
    Scenario.ada_snippet Scenario.ada []
  = (Return (PyList []),
     [] ++ [ChatCompletion (Tagger.classifier_request Scenario.ada_snippet Scenario.ada);
            Log ERROR ("Error getting interests for " +:+ "Ada" +:+ " " +:+ "Lovelace")
              (Some JSONDecodeError)]).
Proof.
  destruct (tagger_classifier_results Json.loads
              (Scenario.chat_answering "good at Sales, and at Leadership")
              Scenario.ada_snippet Scenario.ada [])
    as (_ & _ & _ & Hnot_json & _).
  apply (Hnot_json "good at Sales, and at Leadership" []).
  - reflexivity.
  - vm_compute. reflexivity.
Defined.

(** ** More on the resolver *)

Section ResolverOutcomes.

Variable getenv : string -> option string.
Variable requests_get : nat -> string -> search_params -> http_result.

(** One attempt that is answered with a status other than 429: what
    follows the request. *)
Lemma resolver_answered fuel url pid h r :
  profile_id_of url = Return pid ->
  requests_get (count is_HttpGet h) api_url (search_request getenv pid)
  = HttpResponds r ->
  status_code r <> 429%Z ->
  get_linkedin_profile_data getenv requests_get (S fuel) url h
  = try_except
      (lift (raise_for_status r) ;;;
       data <- lift (response_json r) ;; extract_snippet pid data)
      (fun e =>
         logging_error "Error getting profile data from SerpAPI" e ;;; ret EmptyString)
      (h ++ [HttpGet api_url (search_request getenv pid)]).
Proof.
  intros Hpid Hget Hcode. cbn [get_linkedin_profile_data].
  unfold try_except, bind at 1. unfold lift at 1. rewrite Hpid.
  unfold bind at 1. unfold http_get. rewrite Hget.
  apply Z.eqb_neq in Hcode. rewrite Hcode. reflexivity.
Qed.

End ResolverOutcomes.

(** X6.  A search that cannot be reached, that answers with an error
    status other than 429, or whose answer is not JSON, costs exactly one
    request: the resolver logs the failure and returns the empty snippet,
    without waiting and without trying again. *)
Theorem resolver_failure_gives_empty_snippet
  (getenv : string -> option string)
  (requests_get : nat -> string -> search_params -> http_result)
  (fuel : nat) (url : cell) (pid : string) (h : history) :
  profile_id_of url = Return pid ->
  let request := HttpGet api_url (search_request getenv pid) in
  let answer :=
    requests_get (count is_HttpGet h) api_url (search_request getenv pid) in
  let run := get_linkedin_profile_data getenv requests_get (S fuel) url h in
  let failed e :=
    (Return EmptyString,
     h ++ [request; Log ERROR "Error getting profile data from SerpAPI" (Some e)]) in
  (forall e, answer = HttpFails e -> run = failed e)
  /\ (forall r,
         answer = HttpResponds r ->
         (400 <= status_code r < 600)%Z ->
         status_code r <> 429%Z ->
         run = failed (HTTPError (status_code r)))
  /\ (forall r,
         answer = HttpResponds r ->
         (status_code r < 400 \/ 600 <= status_code r)%Z ->
         body r = None ->
         run = failed JSONDecodeError).
Proof.
  intros Hpid request answer run failed. subst request answer run failed.
  split; [|split].
  - intros e He. cbn [get_linkedin_profile_data].
    unfold try_except, bind at 1. unfold lift at 1. rewrite Hpid.
    unfold bind at 1. unfold http_get. rewrite He.
    unfold logging_error, bind, emit, ret. rewrite <- app_assoc. reflexivity.
  - intros r Hr Hrange Hcode.
    rewrite (resolver_answered getenv requests_get fuel url pid h r Hpid Hr Hcode).
    unfold try_except, bind at 1. unfold lift at 1, raise_for_status.
    replace ((400 <=? status_code r) && (status_code r <? 600))%Z with true
      by (symmetry; apply andb_true_iff; split;
          [apply Z.leb_le|apply Z.ltb_lt]; lia).
    unfold logging_error, bind, emit, ret. rewrite <- app_assoc. reflexivity.
  - intros r Hr Hrange Hbody.
    assert (Hcode : status_code r <> 429%Z) by lia.
    rewrite (resolver_answered getenv requests_get fuel url pid h r Hpid Hr Hcode).
    unfold try_except, bind at 1. unfold lift at 1, raise_for_status.
    replace ((400 <=? status_code r) && (status_code r <? 600))%Z with false
      by (symmetry; apply andb_false_iff;
          destruct Hrange; [left; apply Z.leb_gt|right; apply Z.ltb_ge]; lia).
    unfold bind at 1. unfold lift at 1, response_json. rewrite Hbody.
    unfold logging_error, bind, emit, ret. rewrite <- app_assoc. reflexivity.
Qed.

(** The witness of X6: the search answers 503. *)
Lemma resolver_failure_gives_empty_snippet_witness :
  get_linkedin_profile_data Scenario.getenv
    (Cases.answering (mkResponse 503 None)) 1 (Text Scenario.ada_url) []
  = (Return EmptyString,
     [] ++ [HttpGet api_url (search_request Scenario.getenv "adalovelace");
            Log ERROR "Error getting profile data from SerpAPI"
              (Some (HTTPError 503))]).
Proof.
  destruct (resolver_failure_gives_empty_snippet Scenario.getenv
              (Cases.answering (mkResponse 503 None)) 0 (Text Scenario.ada_url)
              "adalovelace" [] eq_refl)
    as (_ & Hstatus & _).
  apply (Hstatus (mkResponse 503 None)).
  - reflexivity.
  - cbn. lia.
  - cbn. lia.
Defined.

(** X7.  The resolver never lets an exception out, whatever the search
    does and however deep it recurses; and a row whose URL cell is missing
    costs no request at all: the failure to split it is logged and the
    snippet is empty. *)
Theorem resolver_never_propagates
  (getenv : string -> option string)
  (requests_get : nat -> string -> search_params -> http_result)
  (fuel : nat) (url : cell) (h : history) :
  (forall e h',
      get_linkedin_profile_data getenv requests_get fuel url h <> (Raise e, h'))
  /\ get_linkedin_profile_data getenv requests_get (S fuel) NaN h
     = (Return EmptyString,
        h ++ [Log ERROR "Error getting profile data from SerpAPI"
                (Some AttributeError)]).
Proof.
  split.
  - intros e h'. apply resolver_never_raises.
  - reflexivity.
Qed.

Lemma prefix_slash a s : String.prefix "/" (String a s) = true -> a = "/"%char.
Proof.
  unfold String.prefix. destruct (ascii_dec "/" a) as [Ha|Ha]; [auto|discriminate].
Qed.

Lemma chars_append_one cur a :
  list_ascii_of_string (cur +:+ String a EmptyString)
  = list_ascii_of_string cur ++ [a].
Proof.
  induction cur as [|c cur IH]; [reflexivity|].
  change (String c cur +:+ String a EmptyString)
    with (String c (cur +:+ String a EmptyString)).
  cbn [list_ascii_of_string]. rewrite IH. reflexivity.
Qed.

Lemma split_slash_head s :
  forall cur,
    (forall c, In c (list_ascii_of_string cur) -> c <> "/"%char) ->
    forall c,
      In c (list_ascii_of_string (hd EmptyString (Str.split_go "/" 0 cur s))) ->
      c <> "/"%char.
Proof.
  induction s as [|a s IH]; intros cur Hcur; cbn [Str.split_go hd]; [exact Hcur|].
  destruct (String.prefix "/" (String a s)) eqn:Hp; cbn [hd]; [exact Hcur|].
  apply IH. intros c Hc. rewrite chars_append_one in Hc.
  apply in_app_or in Hc. destruct Hc as [Hc|[<-|[]]]; [exact (Hcur c Hc)|].
  intros ->. unfold String.prefix in Hp.
  destruct (ascii_dec "/" "/") as [_|Hne]; [|congruence].
  destruct s; discriminate Hp.
Qed.

(** X8.  The identifier the resolver takes from a URL never holds a slash,
    and every request of one call of the resolver, the first as the
    retries, goes to the search endpoint with the same parameters: the
    Google engine, the key of the environment, the query
    [site:linkedin.com/in/] followed by that identifier, English, the US,
    ten results, no filtering. *)
Theorem resolver_queries_one_profile
  (getenv : string -> option string)
  (requests_get : nat -> string -> search_params -> http_result)
  (fuel : nat) (u : string) (h : history) :
  exists pid o evs,
    profile_id_of (Text u) = Return pid
    /\ (forall c, In c (list_ascii_of_string pid) -> c <> "/"%char)
    /\ get_linkedin_profile_data getenv requests_get fuel (Text u) h = (o, h ++ evs)
    /\ Forall
         (fun e =>
            is_HttpGet e = true ->
            e = HttpGet "https://serpapi.com/search"
                  {| engine := "google";
                     api_key := getenv "SERPAPI_API_KEY";
                     q := "site:linkedin.com/in/" +:+ pid;
                     hl := "en";
                     gl := "us";
                     num := 10;
                     filter := 0 |})
         evs.
Proof.
  set (pid := hd EmptyString
                (Str.split "/" (List.last (Str.split "/in/" u) EmptyString))).
  assert (Hpid : profile_id_of (Text u) = Return pid) by reflexivity.
  exists pid.
  assert (Hslash : forall c, In c (list_ascii_of_string pid) -> c <> "/"%char).
  { apply split_slash_head. intros c []. }
  fold api_url. fold (search_request getenv pid).
  assert (Hlast : forall depth h,
             match requests_get (count is_HttpGet h) api_url
                     (search_request getenv pid) with
             | HttpResponds r => status_code r <> 429%Z
             | HttpFails _ => True
             end ->
             exists o evs,
               get_linkedin_profile_data getenv requests_get depth (Text u) h
               = (o, h ++ evs)
               /\ Forall
                    (fun e =>
                       is_HttpGet e = true ->
                       e = HttpGet api_url (search_request getenv pid))
                    evs).
  { intros depth h0 Hget.
    destruct (resolver_last_attempt getenv requests_get depth (Text u) pid h0 Hpid Hget)
      as (s & logs & Hrun & Hlogs).
    exists (Return s), (HttpGet api_url (search_request getenv pid) :: logs).
    split; [exact Hrun|]. constructor; [reflexivity|].
    eapply Forall_impl; [exact Hlogs|]. intros ev Hev. destruct ev; discriminate. }
  assert (Hmain : forall depth h0,
             exists o evs,
               get_linkedin_profile_data getenv requests_get depth (Text u) h0
               = (o, h0 ++ evs)
               /\ Forall
                    (fun e =>
                       is_HttpGet e = true ->
                       e = HttpGet api_url (search_request getenv pid))
                    evs).
  { induction depth as [|depth IH]; intros h0;
      (destruct (requests_get (count is_HttpGet h0) api_url
                   (search_request getenv pid)) as [e|r] eqn:Hget;
       [ apply Hlast; rewrite Hget; exact I
       | destruct (Z.eq_dec (status_code r) 429%Z) as [Hcode|Hcode];
         [| apply Hlast; rewrite Hget; exact Hcode ] ]).
    - rewrite (resolver_depth_exhausted getenv requests_get (Text u) pid h0 r
                 Hpid Hget Hcode).
      eexists _, _. split; [reflexivity|].
      apply Forall_app. split; repeat constructor; discriminate.
    - rewrite (resolver_rate_limited getenv requests_get depth (Text u) pid h0 r
                 Hpid Hget Hcode).
      destruct (IH (h0 ++ retry_round (search_request getenv pid)))
        as (o & evs & Hrun & Hevs).
      exists o, (retry_round (search_request getenv pid) ++ evs).
      rewrite Hrun, app_assoc. split; [reflexivity|].
      apply Forall_app. split; [|exact Hevs].
      repeat constructor; discriminate. }
  destruct (Hmain fuel h) as (o & evs & Hrun & Hevs).
  exists o, evs. auto.
Qed.

Lemma raise_for_status_ok r :
  (status_code r < 400 \/ 600 <= status_code r)%Z -> raise_for_status r = Return tt.
Proof.
  intros Hrange. unfold raise_for_status.
  replace ((400 <=? status_code r) && (status_code r <? 600))%Z with false;
    [reflexivity|].
  symmetry. apply andb_false_iff.
  destruct Hrange; [left; apply Z.leb_gt|right; apply Z.ltb_ge]; lia.
Qed.

Lemma lookup_contains key items v :
  Py.lookup key items = Some v -> Py.contains key (PyDict items) = Return true.
Proof.
  intros Hl. cbn [Py.contains].
  destruct (existsb _ items) eqn:Hex; [reflexivity|].
  rewrite (contains_lookup_none _ _ Hex) in Hl. discriminate Hl.
Qed.

Section ResolverSnippets.

Variable getenv : string -> option string.
Variable requests_get : nat -> string -> search_params -> http_result.

(** An answer with a usable status and a JSON body leaves the snippet to
    [extract_snippet]. *)
Lemma resolver_decoded fuel url pid h r data :
  profile_id_of url = Return pid ->
  requests_get (count is_HttpGet h) api_url (search_request getenv pid)
  = HttpResponds r ->
  (status_code r < 400 \/ 600 <= status_code r)%Z ->
  body r = Some data ->
  get_linkedin_profile_data getenv requests_get (S fuel) url h
  = try_except
      (extract_snippet pid data)
      (fun e =>
         logging_error "Error getting profile data from SerpAPI" e ;;; ret EmptyString)
      (h ++ [HttpGet api_url (search_request getenv pid)]).
Proof.
  intros Hpid Hget Hrange Hbody.
  assert (Hcode : status_code r <> 429%Z) by lia.
  rewrite (resolver_answered getenv requests_get fuel url pid h r Hpid Hget Hcode).
  unfold try_except, bind at 1. unfold lift at 1.
  rewrite (raise_for_status_ok r Hrange).
  unfold bind at 1. unfold lift at 1, response_json. rewrite Hbody. reflexivity.
Qed.


End ResolverSnippets.

(** X9.  When the search answers with a usable status and a JSON body that
    has no [organic_results], or an empty list of them, the resolver
    returns the empty snippet after one request and one warning that no
    profile information was found. *)
Theorem resolver_without_results
  (getenv : string -> option string)
  (requests_get : nat -> string -> search_params -> http_result)
  (fuel : nat) (url : cell) (pid : string) (h : history)
  (r : response) (data : pyval) :
  profile_id_of url = Return pid ->
  requests_get (count is_HttpGet h) api_url (search_request getenv pid)
  = HttpResponds r ->
  (status_code r < 400 \/ 600 <= status_code r)%Z ->
  body r = Some data ->
  Py.contains "organic_results" data = Return false
  \/ (exists items,
        data = PyDict items
        /\ Py.lookup "organic_results" items = Some (PyList [])) ->
  get_linkedin_profile_data getenv requests_get (S fuel) url h
  = (Return EmptyString,
     h ++ [HttpGet api_url (search_request getenv pid);
           Log WARNING "No profile information found in search results" None]).
Proof.
  intros Hpid Hget Hrange Hbody Hdata.
  rewrite (resolver_decoded getenv requests_get fuel url pid h r data
             Hpid Hget Hrange Hbody).
  unfold try_except, extract_snippet, bind at 1. unfold lift at 1.
  destruct Hdata as [Hnone|(items & -> & Hl)].
  - rewrite Hnone. unfold bind at 1. unfold ret at 1.
    unfold logging_warning, bind, emit, ret. rewrite <- app_assoc. reflexivity.
  - rewrite (lookup_contains _ _ _ Hl).
    unfold bind at 1. unfold bind at 1. unfold lift at 1. cbn [Py.getitem].
    rewrite Hl. unfold bind at 1. unfold lift at 1. cbn [Py.iter collect_results].
    unfold ret at 1.
    unfold logging_warning, bind, emit, ret. rewrite <- app_assoc. reflexivity.
Qed.

(** The witness of X9: the contact the search of the scenarios knows
    nothing about. *)
Lemma resolver_without_results_witness :
  get_linkedin_profile_data Scenario.getenv Scenario.search 1
    (Text Scenario.ghost_url) []
  = (Return EmptyString,
     [] ++ [HttpGet api_url (search_request Scenario.getenv "ghost");
            Log WARNING "No profile information found in search results" None]).
Proof.
  apply (resolver_without_results Scenario.getenv Scenario.search 0
           (Text Scenario.ghost_url) "ghost" []
           (mkResponse 200 (Some (PyDict []))) (PyDict [])).
  - reflexivity.
  - reflexivity.
  - left. cbn. lia.
  - reflexivity.
  - left. reflexivity.
Defined.



(** ** More on the pipeline *)

Lemma get_row_column df i c :
  DF.get (DF.row df i) c
  = match DF.column c df with
    | Some vs => Return (DF.cell_at i vs)
    | None => Raise (KeyError c)
    end.
Proof.
  unfold DF.get, DF.row, DF.column.
  induction (columns df) as [|[k vs] cols IH]; cbn [map List.find fst snd];
    [reflexivity|].
  destruct (String.eqb c k); [reflexivity|exact IH].
Qed.

Lemma column_has_column c df :
  DF.has_column c df = false -> DF.column c df = None.
Proof.
  unfold DF.has_column, DF.column, DF.column_names.
  induction (columns df) as [|[k vs] cols IH]; cbn [map existsb List.find fst];
    [reflexivity|].
  destruct (String.eqb c k); cbn [orb]; [discriminate|exact IH].
Qed.

Section PipelineOutcome.

Variable resolver : cell -> M string.
Variable classifier : string -> person_info -> M pyval.

(** The pipeline around its loop: the announcement before it, and after it
    the completion record or the error record with the exception raised
    again. *)
Lemma process_profiles_with_run df out h :
  process_profiles_with resolver classifier df out h
  = match foldM (process_row resolver classifier out)
            (DF.iterrows (ensure_interests df)) (ensure_interests df)
            (h ++ [Log INFO ("Processing "
                             +:+ nat_str (nrows (ensure_interests df))
                             +:+ " profiles") None]) with
    | (Return df', h1) =>
        (Return df',
         h1 ++ [Log INFO "SerpAPI processing completed successfully" None])
    | (Raise e, h1) =>
        (Raise e,
         h1 ++ [Log ERROR "Error processing profiles with SerpAPI" (Some e)])
    | (OutOfFuel, h1) => (OutOfFuel, h1)
    end.
Proof.
  unfold process_profiles_with, try_except, logging_info, logging_error.
  unfold bind at 1. unfold emit at 1. unfold bind at 1.
  destruct (foldM _ _ _ _) as [[df'|e|] h1]; reflexivity.
Qed.

End PipelineOutcome.

Lemma first_row_get df c :
  c <> "Interests" ->
  DF.get (DF.row (ensure_interests df) 0) c
  = match DF.column c df with
    | Some vs => Return (DF.cell_at 0 vs)
    | None => Raise (KeyError c)
    end.
Proof. intros Hne. rewrite ensure_interests_get by exact Hne. apply get_row_column. Qed.

(** X11.  A table with at least one row that lacks the column First Name,
    Last Name or URL ends the batch at its first row with the [KeyError]
    of the first of these columns that is missing: no resolver call, no
    classifier call and no write happen, and the error is logged and
    raised again.  Only a missing URL column is found after the row has
    been announced. *)
Theorem missing_column_ends_the_batch
  (resolver : cell -> M string)
  (classifier : string -> person_info -> M pyval)
  (df : DataFrame) (out : string) (h : history) :
  (0 < nrows df)%nat ->
  let run := process_profiles_with resolver classifier df out h in
  let failed key evs :=
    (Raise (KeyError key),
     h ++ [Log INFO ("Processing " +:+ nat_str (nrows df) +:+ " profiles") None]
       ++ evs
       ++ [Log ERROR "Error processing profiles with SerpAPI"
             (Some (KeyError key))]) in
  (DF.column "First Name" df = None -> run = failed "First Name" [])
  /\ (forall firsts,
         DF.column "First Name" df = Some firsts ->
         DF.column "Last Name" df = None ->
         run = failed "Last Name" [])
  /\ (forall firsts lasts,
         DF.column "First Name" df = Some firsts ->
         DF.column "Last Name" df = Some lasts ->
         DF.column "URL" df = None ->
         run = failed "URL"
                 [Log INFO ("Processing profile for "
                            +:+ (cell_str (DF.cell_at 0 firsts) +:+ " "
                                 +:+ cell_str (DF.cell_at 0 lasts))) None]).
Proof.
  intros Hrows run failed. subst run failed.
  rewrite process_profiles_with_run.
  unfold DF.iterrows. rewrite ensure_interests_nrows.
  destruct (nrows df) as [|n] eqn:Hn; [lia|].
  cbn [seq map foldM]. unfold bind at 1.
  unfold process_row, logging_info, bind, lift, emit, ret.
  rewrite !first_row_get by discriminate.
  split; [|split].
  - intros ->. rewrite <- !app_assoc. reflexivity.
  - intros firsts -> ->. rewrite <- !app_assoc. reflexivity.
  - intros firsts lasts -> -> ->. rewrite <- !app_assoc. reflexivity.
Qed.

(** The witness of X11: the table of the scenarios without its URL
    column. *)
Lemma missing_column_ends_the_batch_witness :
  process_profiles_with (stub_resolver Scenario.snippet_of)
    (stub_classifier Scenario.labels_of) Scenario.contacts_without_url
    output_file []
  = (Raise (KeyError "URL"),
     [ Log INFO "Processing 1 profiles" None;
       Log INFO "Processing profile for Ada Lovelace" None;
       Log ERROR "Error processing profiles with SerpAPI" (Some (KeyError "URL")) ]).
Proof.
  exact (proj2 (proj2 (missing_column_ends_the_batch
                         (stub_resolver Scenario.snippet_of)
                         (stub_classifier Scenario.labels_of)
                         Scenario.contacts_without_url output_file []
                         (Nat.lt_0_1)))
           [Text "Ada"] [Text "Lovelace"] eq_refl eq_refl eq_refl).
Defined.

(** X12.  On a table without rows the pipeline calls nothing and writes
    nothing: it ensures the [Interests] column, announces zero profiles,
    reports completion and returns, so no output file comes to exist. *)
Theorem empty_table_writes_nothing
  (resolver : cell -> M string)
  (classifier : string -> person_info -> M pyval)
  (df : DataFrame) (out : string) (h : history) :
  nrows df = 0%nat ->
  process_profiles_with resolver classifier df out h
  = (Return (ensure_interests df),
     h ++ [Log INFO "Processing 0 profiles" None;
           Log INFO "SerpAPI processing completed successfully" None])
  /\ persisted out
       (snd (process_profiles_with resolver classifier df out h))
     = persisted out h.
Proof.
  intros Hn.
  assert (Hrun : process_profiles_with resolver classifier df out h
                 = (Return (ensure_interests df),
                    h ++ [Log INFO "Processing 0 profiles" None;
                          Log INFO "SerpAPI processing completed successfully"
                            None])).
  { rewrite process_profiles_with_run. unfold DF.iterrows.
    rewrite ensure_interests_nrows, Hn. cbn [seq map foldM]. unfold ret.
    rewrite <- app_assoc. reflexivity. }
  split; [exact Hrun|]. rewrite Hrun. cbn [snd]. rewrite persisted_app. reflexivity.
Qed.

(** The witness of X12: a table with a header and no row. *)
Lemma empty_table_writes_nothing_witness :
  process_profiles_with (stub_resolver Scenario.snippet_of)
    (stub_classifier Scenario.labels_of) Cases.header_only output_file []
  = (Return (ensure_interests Cases.header_only),
     [] ++ [Log INFO "Processing 0 profiles" None;
            Log INFO "SerpAPI processing completed successfully" None]).
Proof.
  exact (proj1 (empty_table_writes_nothing (stub_resolver Scenario.snippet_of)
                  (stub_classifier Scenario.labels_of) Cases.header_only
                  output_file [] eq_refl)).
Defined.

(** *** What a completed batch leaves in the table *)

Lemma column_In c df vs : DF.column c df = Some vs -> In (c, vs) (columns df).
Proof.
  unfold DF.column.
  destruct (List.find _ (columns df)) as [[k ws]|] eqn:Hf; [|discriminate].
  intros [= <-]. apply find_some in Hf as [Hin He]. cbn [fst] in He.
  apply String.eqb_eq in He. subst k. exact Hin.
Qed.

Lemma column_length c df vs :
  table_well_formed df -> DF.column c df = Some vs -> length vs = nrows df.
Proof.
  intros Hwf Hc. apply column_In in Hc.
  unfold table_well_formed in Hwf. rewrite Forall_forall in Hwf.
  apply (Hwf (c, vs)). apply list_elem_of_In. exact Hc.
Qed.

Lemma column_some_has_column c df vs :
  DF.column c df = Some vs -> DF.has_column c df = true.
Proof.
  intros Hc. destruct (DF.has_column c df) eqn:Hh; [reflexivity|].
  rewrite (column_has_column c df Hh) in Hc. discriminate Hc.
Qed.

Lemma update_column_find c f cols :
  List.find (fun kv : string * list cell => String.eqb c (fst kv))
    (DF.update_column c f cols)
  = match List.find (fun kv => String.eqb c (fst kv)) cols with
    | Some kv => Some (fst kv, f (snd kv))
    | None => None
    end.
Proof.
  induction cols as [|[k vs] cols IH]; cbn [DF.update_column List.find]; [reflexivity|].
  destruct (String.eqb c k) eqn:Hk; cbn [List.find fst snd]; rewrite Hk;
    [reflexivity|exact IH].
Qed.

Lemma set_at_column i c v df vs :
  DF.column c df = Some vs ->
  DF.column c (DF.set_at i c v df) = Some (<[i := v]> vs).
Proof.
  intros Hc. unfold DF.set_at. rewrite (column_some_has_column c df vs Hc).
  unfold DF.column in *. cbn [columns]. rewrite update_column_find.
  destruct (List.find _ (columns df)) as [[k ws]|]; [|discriminate].
  cbn [snd] in *. injection Hc as ->. reflexivity.
Qed.

Lemma update_column_lengths c i v cols n :
  Forall (fun kv : string * list cell => length (snd kv) = n) cols ->
  Forall (fun kv : string * list cell => length (snd kv) = n)
    (DF.update_column c (fun vs => <[i := v]> vs) cols).
Proof.
  induction 1 as [|[k vs] cols Hk Hcols IH]; cbn [DF.update_column]; [constructor|].
  destruct (String.eqb c k).
  - constructor; [|exact Hcols]. cbn [snd] in *. rewrite length_insert. exact Hk.
  - constructor; [exact Hk|exact IH].
Qed.

Lemma set_at_well_formed i c v df :
  table_well_formed df -> table_well_formed (DF.set_at i c v df).
Proof.
  intros Hwf. unfold table_well_formed, DF.set_at in *.
  destruct (DF.has_column c df); cbn [columns nrows].
  - apply update_column_lengths. exact Hwf.
  - apply Forall_app. split; [exact Hwf|]. constructor; [|constructor].
    cbn [snd]. rewrite length_insert, repeat_length. reflexivity.
Qed.

Lemma ensure_interests_well_formed df :
  table_well_formed df -> table_well_formed (ensure_interests df).
Proof.
  intros Hwf. unfold ensure_interests.
  destruct (DF.has_column "Interests" df); [exact Hwf|].
  unfold table_well_formed, DF.add_column in *. cbn [columns nrows].
  apply Forall_app. split; [exact Hwf|]. constructor; [|constructor].
  cbn [snd]. apply repeat_length.
Qed.

Lemma find_app_new {V} c (v : V) (cols : list (string * V)) :
  existsb (String.eqb c) (map fst cols) = false ->
  List.find (fun kv => String.eqb c (fst kv)) (cols ++ [(c, v)]) = Some (c, v).
Proof.
  induction cols as [|[k w] cols IH]; cbn [map existsb app List.find fst].
  - intros _. rewrite String.eqb_refl. reflexivity.
  - destruct (String.eqb c k); cbn [orb]; [discriminate|exact IH].
Qed.

Lemma ensure_interests_has_column df :
  exists vs, DF.column "Interests" (ensure_interests df) = Some vs.
Proof.
  unfold ensure_interests.
  destruct (DF.has_column "Interests" df) eqn:Hh.
  - destruct (DF.column "Interests" df) as [vs|] eqn:Hc; [eauto|].
    exfalso. revert Hh Hc. unfold DF.has_column, DF.column, DF.column_names.
    induction (columns df) as [|[k ws] cols IH]; cbn [map existsb List.find fst];
      [discriminate|].
    destruct (String.eqb "Interests" k); cbn [orb]; [discriminate|exact IH].
  - unfold DF.column, DF.add_column. cbn [columns].
    rewrite find_app_new by exact Hh. eauto.
Qed.

(** ** The cell a row writes *)

Lemma has_column_column c df :
  DF.has_column c df = true -> exists vs, DF.column c df = Some vs.
Proof.
  unfold DF.has_column, DF.column, DF.column_names.
  induction (columns df) as [|[k vs] cols IH]; cbn [map existsb List.find fst];
    [discriminate|].
  destruct (String.eqb c k); cbn [orb snd]; [eauto|exact IH].
Qed.

Lemma find_app_absent {V} c (v : V) (cols : list (string * V)) :
  List.find (fun kv => String.eqb c (fst kv)) cols = None ->
  List.find (fun kv => String.eqb c (fst kv)) (cols ++ [(c, v)]) = Some (c, v).
Proof.
  induction cols as [|[k w] cols IH]; cbn [app List.find fst].
  - rewrite String.eqb_refl. reflexivity.
  - destruct (String.eqb c k); [discriminate|exact IH].
Qed.

Lemma cell_at_insert i v vs : (i < length vs)%nat -> DF.cell_at i (<[i := v]> vs) = v.
Proof. intros Hi. unfold DF.cell_at. rewrite list_lookup_insert_eq by exact Hi. reflexivity. Qed.

Lemma cell_at_insert_other i j v vs :
  j <> i -> DF.cell_at j (<[i := v]> vs) = DF.cell_at j vs.
Proof. intros Hj. unfold DF.cell_at. rewrite list_lookup_insert_ne by congruence. reflexivity. Qed.

Lemma cell_at_missing j n : DF.cell_at j (repeat NaN n) = NaN.
Proof.
  unfold DF.cell_at. destruct (repeat NaN n !! j) as [x|] eqn:Hx; [|reflexivity].
  apply list_elem_of_lookup_2, list_elem_of_In, repeat_spec in Hx. exact Hx.
Qed.

(** What [df.at[i, c] = v] does to a well-formed table, for a row the
    table has. *)
Lemma set_at_cell_written i c v df :
  table_well_formed df -> (i < nrows df)%nat ->
  cell_written df i c v (DF.set_at i c v df).
Proof.
  intros Hwf Hi. split; [apply set_at_nrows|].
  split; [intros c' Hne; apply set_at_column_other; exact Hne|].
  destruct (DF.has_column c df) eqn:Hh.
  - destruct (has_column_column c df Hh) as [vs Hvs].
    pose proof (column_length c df vs Hwf Hvs) as Hlen.
    exists (<[i := v]> vs). rewrite Hvs.
    split; [apply set_at_column; exact Hvs|].
    split; [apply list_lookup_insert_eq; lia|].
    split.
    + rewrite get_row_column, (set_at_column i c v df vs Hvs).
      rewrite cell_at_insert by lia. reflexivity.
    + intros j Hj. apply cell_at_insert_other. exact Hj.
  - pose proof (column_has_column c df Hh) as Hnone.
    assert (Hnew : DF.column c (DF.set_at i c v df)
                   = Some (<[i := v]> (repeat NaN (nrows df)))).
    { unfold DF.set_at. rewrite Hh. unfold DF.column in *. cbn [columns].
      rewrite find_app_absent; [reflexivity|].
      destruct (List.find _ (columns df)); [discriminate Hnone|reflexivity]. }
    exists (<[i := v]> (repeat NaN (nrows df))). rewrite Hnone.
    split; [exact Hnew|].
    split; [apply list_lookup_insert_eq; rewrite repeat_length; exact Hi|].
    split.
    + rewrite get_row_column, Hnew.
      rewrite cell_at_insert by (rewrite repeat_length; exact Hi). reflexivity.
    + intros j Hj. rewrite cell_at_insert_other by exact Hj. apply cell_at_missing.
Qed.



Lemma contacts_well_formed : table_well_formed Scenario.contacts.
Proof. repeat constructor. Qed.



(** C2, as amended.  A row of a well-formed table that comes back from
    the loop body has one text [written] in its [Interests] cell, and
    nothing else of the table is changed.  That text is settled by the
    snippet of the row and by the answer of the completion endpoint to the
    request made for this row: it is the sentinel when the snippet is
    empty, when the body of the classifier's [try] raises, and when the
    answer is not JSON and names no label of the taxonomy; when the answer
    is not JSON and names labels, it is the first ten of them, which are
    distinct and in the order of the taxonomy, joined by a comma and a
    blank; when the answer is JSON, it is the join of the first ten
    entries of what was decoded (the [interests] field of an object that
    has one, else the decoded value), which is not checked against the
    taxonomy. *)
Theorem C2_written_tag_set
  (resolver : cell -> M string)
  (json_loads : string -> option pyval)
  (chat_create : nat -> chat_request -> chat_result)
  (out : string) (df : DataFrame) (index : nat) (row : Series)
  (h : history) (df' : DataFrame) (h' : history) :
  table_well_formed df ->
  (index < nrows df)%nat ->
  process_row resolver (get_interests_from_profile json_loads chat_create)
    out df (index, row) h = (Return df', h') ->
  exists first last url snippet h1 written,
    DF.get row "First Name" = Return first
    /\ DF.get row "Last Name" = Return last
    /\ DF.get row "URL" = Return url
    /\ resolver url
         (h ++ [Log INFO ("Processing profile for "
                          +:+ (cell_str first +:+ " " +:+ cell_str last)) None;
                CallResolver url])
       = (Return snippet, h1)
    /\ df' = DF.set_at index "Interests" (Text written) df
    /\ cell_written df index "Interests" (Text written) df'
    /\ ((snippet = EmptyString /\ written = "Profile inaccessible")
        \/ (snippet <> EmptyString
            /\ exists company position,
                DF.get row "Company" = Return company
                /\ DF.get row "Position" = Return position
                /\ let info := mkPerson first last company position in
                   let asked := h1 ++ [CallClassifier snippet info] in
                   let answer :=
                     chat_create (count is_ChatCompletion asked)
                       (classifier_request snippet info) in
                   ((exists e h2,
                        classifier_body json_loads chat_create snippet info asked
                        = (Raise e, h2))
                    /\ written = "Profile inaccessible")
                   \/ (exists text rest,
                          answer = ChatResponds (Some text :: rest)
                          /\ json_loads text = None
                          /\ scan_interests text = []
                          /\ written = "Profile inaccessible")
                   \/ (exists text rest labels,
                          answer = ChatResponds (Some text :: rest)
                          /\ json_loads text = None
                          /\ labels = firstn 10 (scan_interests text)
                          /\ written = String.concat ", " labels
                          /\ labels <> []
                          /\ (length labels <= 10)%nat
                          /\ NoDup labels
                          /\ sublist labels INTERESTS)
                   \/ (exists text rest decoded tags,
                          answer = ChatResponds (Some text :: rest)
                          /\ json_loads text = Some decoded
                          /\ Py.slice_to 10 (selected_interests decoded) = Return tags
                          /\ Py.join ", " tags = Return written))).
Proof.
  intros Hwf Hindex Hrun.
  apply process_row_inv in Hrun
    as (first & last & url & snippet & h1 & Hf & Hl & Hu & Hr & Hcase).
  exists first, last, url, snippet, h1.
  destruct Hcase as [(Hs & -> & _) | (Hs & company & position & tags & h2 & joined
                                     & Hc & Hp & Hcl & Hj & -> & _)].
  { exists SENTINEL. do 4 (split; [assumption|]). split; [reflexivity|].
    split; [apply set_at_cell_written; assumption|]. left. auto. }
  exists joined. do 4 (split; [assumption|]). split; [reflexivity|].
  split; [apply set_at_cell_written; assumption|].
  right. split; [exact Hs|]. exists company, position.
  split; [exact Hc|]. split; [exact Hp|]. cbv zeta.
  set (info := mkPerson first last company position) in *.
  set (asked := h1 ++ [CallClassifier snippet info]) in *.
  pose proof (classifier_body_run json_loads chat_create snippet info asked) as Hbody.
  cbv zeta in Hbody.
  rewrite get_interests_from_profile_run in Hcl.
  destruct (body_outcome json_loads _) as [v|e|] eqn:Hout; [| |discriminate Hcl].
  2: { injection Hcl as <- _. rewrite join_sentinel in Hj. injection Hj as <-.
       left. split; [|reflexivity]. eauto. }
  injection Hcl as <- _.
  destruct (chat_create _ _) as [e|[|[text|] rest]] eqn:Hanswer;
    cbn [body_outcome] in Hout; try discriminate Hout.
  unfold parsed_interests in Hout.
  destruct (json_loads text) as [decoded|] eqn:Hd.
  - right. right. right. exists text, rest, decoded, v. auto.
  - destruct (scan_interests text) as [|l ls] eqn:Hscan.
    + injection Hout as <-.
      change (Py.join ", " sentinel_tags = Return joined) in Hj.
      rewrite join_sentinel in Hj. injection Hj as <-.
      right. left. exists text, rest. auto.
    + cbn [Py.slice_to] in Hout. injection Hout as <-.
      change (PyList (PyStr l :: firstn 9 (map PyStr ls)))
        with (PyList (firstn 10 (map PyStr (l :: ls)))) in Hj.
      rewrite firstn_map, join_strs in Hj. injection Hj as <-.
      right. right. left. exists text, rest, (firstn 10 (scan_interests text)).
      split; [reflexivity|]. split; [exact Hd|]. split; [reflexivity|].
      split; [rewrite Hscan; reflexivity|].
      split; [rewrite Hscan; discriminate|].
      split; [rewrite length_firstn; lia|].
      split.
      * eapply sublist_NoDup; [apply INTERESTS_NoDup | apply scan_take_sublist].
      * apply scan_take_sublist.
Qed.

(** The witness of C2: the first contact of the scenarios, with a
    completion endpoint that answers with a JSON sequence of five labels;
    their join is in the first cell of the new column. *)
Lemma C2_witness :
  exists written,
    cell_written Scenario.contacts 0 "Interests" (Text written)
      (DF.set_at 0 "Interests"
         (Text "Software Development, Innovation, Writing, Critical Thinking, Lifelong Learning")
         Scenario.contacts)
    /\ written
       = "Software Development, Innovation, Writing, Critical Thinking, Lifelong Learning".
Proof.
  destruct (C2_written_tag_set
              (stub_resolver Scenario.snippet_of) Json.loads
              (Scenario.chat_answering (Scenario.json_array Scenario.ada_labels))
              output_file Scenario.contacts 0 (DF.row Scenario.contacts 0) []
              (DF.set_at 0 "Interests"
                 (Text "Software Development, Innovation, Writing, Critical Thinking, Lifelong Learning")
                 Scenario.contacts)
              (snd (process_row (stub_resolver Scenario.snippet_of)
                      (get_interests_from_profile Json.loads
                         (Scenario.chat_answering
                            (Scenario.json_array Scenario.ada_labels)))
                      output_file Scenario.contacts
                      (0%nat, DF.row Scenario.contacts 0) []))
              contacts_well_formed ltac:(cbn; lia)
              ltac:(vm_compute; reflexivity))
    as (first & last & url & snippet & h1 & written & _ & _ & _ & _ & _ & Hcell & _).
  exists written. split; [exact Hcell|].
  destruct Hcell as (_ & _ & cells & Hcol & Hlook & _).
  vm_compute in Hcol. injection Hcol as <-.
  vm_compute in Hlook. injection Hlook as <-. reflexivity.
Defined.

Section CompletedBatch.

Variable resolver : cell -> M string.
Variable classifier : string -> person_info -> M pyval.

Lemma loop_tags_rows out base len :
  forall a df h df' h',
    (a + len = nrows base)%nat ->
    tagged_up_to base a df ->
    foldM (process_row resolver classifier out)
      (map (fun i => (i, DF.row base i)) (seq a len)) df h
    = (Return df', h') ->
    tagged_up_to base (nrows base) df'.
Proof.
  induction len as [|len IH]; intros a df h df' h' Hlen Hinv; cbn [seq map foldM].
  - unfold ret. intros [= <- <-]. replace (nrows base) with a by lia. exact Hinv.
  - unfold bind at 1.
    destruct (process_row resolver classifier out df (a, DF.row base a) h)
      as [[df1|e|] h1] eqn:Hrow; try discriminate.
    apply IH; [lia|].
    destruct Hinv as (Hwf & Hrows & tags & Htags & Htext).
    assert (Hset : exists w, df1 = DF.set_at a "Interests" (Text w) df).
    { apply process_row_inv in Hrow
        as (? & ? & ? & ? & ? & _ & _ & _ & _ & Hcase).
      destruct Hcase as [(_ & -> & _)|(_ & ? & ? & ? & ? & w & _ & _ & _ & _ & -> & _)];
        eauto. }
    destruct Hset as [w ->].
    split; [apply set_at_well_formed, Hwf|].
    split; [apply same_rows_set_at, Hrows|].
    exists (<[a := Text w]> tags). split; [apply set_at_column, Htags|].
    intros i Hi. unfold DF.cell_at.
    assert (Hlt : (a < length tags)%nat).
    { rewrite (column_length _ _ _ Hwf Htags). destruct Hrows as [-> _]. lia. }
    destruct (Nat.eq_dec i a) as [->|Hne].
    + rewrite list_lookup_insert_eq by exact Hlt. reflexivity.
    + rewrite list_lookup_insert_ne by congruence. apply Htext. lia.
Qed.

End CompletedBatch.

(** X13.  When the pipeline returns on a well-formed table, the table it
    leaves has the same number of rows, is well formed, agrees with the
    table it was given on every column other than [Interests], and has an
    [Interests] column in which every row holds a text: no row is left
    without a tag string, and nothing else is touched. *)
Theorem completed_batch_tags_every_row
  (resolver : cell -> M string)
  (classifier : string -> person_info -> M pyval)
  (df : DataFrame) (out : string) (h : history) (df' : DataFrame) (h' : history) :
  table_well_formed df ->
  process_profiles_with resolver classifier df out h = (Return df', h') ->
  nrows df' = nrows df
  /\ table_well_formed df'
  /\ (forall c, c <> "Interests" -> DF.column c df' = DF.column c df)
  /\ exists tags,
      DF.column "Interests" df' = Some tags
      /\ length tags = nrows df
      /\ Forall (fun c => is_text c = true) tags.
Proof.
  intros Hwf Hrun. rewrite process_profiles_with_run in Hrun.
  destruct (foldM _ _ _ _) as [[df1|e|] h1] eqn:Hloop; try discriminate Hrun.
  injection Hrun as -> _.
  unfold DF.iterrows in Hloop.
  apply loop_tags_rows in Hloop; [|reflexivity|].
  2:{ split; [apply ensure_interests_well_formed, Hwf|].
      split; [apply same_rows_refl|].
      destruct (ensure_interests_has_column df) as [tags Htags].
      exists tags. split; [exact Htags|]. intros i Hi. lia. }
  destruct Hloop as (Hwf' & [Hn Hcols] & tags & Htags & Htext).
  rewrite ensure_interests_nrows in Hn, Htext.
  split; [exact Hn|]. split; [exact Hwf'|]. split.
  - intros c Hne. rewrite (Hcols c Hne). apply ensure_interests_column, Hne.
  - exists tags. split; [exact Htags|].
    assert (Hlen : length tags = nrows df)
      by (rewrite (column_length _ _ _ Hwf' Htags); exact Hn).
    split; [exact Hlen|].
    apply Forall_lookup. intros i x Hx.
    assert (Hi : (i < nrows df)%nat)
      by (rewrite <- Hlen; eapply lookup_lt_Some; exact Hx).
    specialize (Htext i Hi). unfold DF.cell_at in Htext. rewrite Hx in Htext.
    exact Htext.
Qed.

(** The witness of X13: the two contacts of the scenarios. *)
Lemma completed_batch_tags_every_row_witness :
  exists tags,
    DF.column "Interests"
      (DF.set_at 1 "Interests" (Text "Profile inaccessible")
         (DF.set_at 0 "Interests"
            (Text "Software Development, Innovation, Writing, Critical Thinking, Lifelong Learning")
            (ensure_interests Scenario.contacts)))
    = Some tags
    /\ length tags = nrows Scenario.contacts
    /\ Forall (fun c => is_text c = true) tags.
Proof.
  apply (completed_batch_tags_every_row
           (stub_resolver Scenario.snippet_of) (stub_classifier Scenario.labels_of)
           Scenario.contacts output_file [] _
           (snd (process_profiles_with (stub_resolver Scenario.snippet_of)
                   (stub_classifier Scenario.labels_of)
                   Scenario.contacts output_file []))).
  - repeat constructor.
  - vm_compute. reflexivity.
Defined.

(** *** The order of the rows, and the file after the last row *)

Lemma resolver_calls_app evs1 evs2 :
  resolver_calls (evs1 ++ evs2) = resolver_calls evs1 ++ resolver_calls evs2.
Proof. unfold resolver_calls. apply flat_map_app. Qed.

Lemma resolver_calls_service evs :
  Forall (fun e => is_service e = true) evs -> resolver_calls evs = [].
Proof.
  induction 1 as [|e evs He _ IH]; [reflexivity|].
  cbn [resolver_calls flat_map]. fold (resolver_calls evs). rewrite IH.
  destruct e; try discriminate He; reflexivity.
Qed.

Lemma service_only_run {A} (m : M A) h o h' :
  service_only m -> m h = (o, h') ->
  exists evs, h' = h ++ evs /\ Forall (fun e => is_service e = true) evs.
Proof.
  intros Hm Hrun. destruct (Hm h) as (o' & evs & Hrun' & Hevs).
  rewrite Hrun in Hrun'. injection Hrun' as _ ->. eauto.
Qed.

Lemma foldM_app {A B} (f : A -> B -> M A) (xs ys : list B) :
  forall a h, foldM f (xs ++ ys) a h = bind (foldM f xs a) (foldM f ys) h.
Proof.
  induction xs as [|x xs IH]; intros a h; cbn [app foldM].
  - reflexivity.
  - unfold bind. destruct (f a x h) as [[a'|e|] h1]; try reflexivity.
    rewrite IH. reflexivity.
Qed.

Lemma Forall2_map_eq {A B} (f : A -> B) (l : list A) (l' : list B) :
  Forall2 (fun x y => f x = y) l l' -> l' = map f l.
Proof. induction 1 as [|x y l l' Hxy _ IH]; [reflexivity|]. cbn. congruence. Qed.

Section RowOrder.

Variable resolver : cell -> M string.
Variable classifier : string -> person_info -> M pyval.
Hypothesis resolver_service : forall url, service_only (resolver url).
Hypothesis classifier_service : forall text info, service_only (classifier text info).

Lemma process_row_calls_once out df index row h df' h' :
  process_row resolver classifier out df (index, row) h = (Return df', h') ->
  exists url evs,
    DF.get row "URL" = Return url
    /\ h' = h ++ evs
    /\ resolver_calls evs = [url].
Proof.
  intros Hrow.
  apply process_row_inv in Hrow
    as (first & last & url & snippet & h1 & _ & _ & Hu & Hr & Hcase).
  apply (service_only_run _ _ _ _ (resolver_service url)) in Hr
    as (evs_r & -> & Hsr).
  pose proof (resolver_calls_service evs_r Hsr) as Hr0.
  exists url.
  destruct Hcase as [(_ & _ & ->)
                    |(_ & company & position & tags & h2 & joined
                      & _ & _ & Hcl & _ & _ & ->)].
  - eexists. split; [exact Hu|]. split.
    + rewrite <- !app_assoc. reflexivity.
    + rewrite !resolver_calls_app, Hr0. reflexivity.
  - apply (service_only_run _ _ _ _ (classifier_service _ _)) in Hcl
      as (evs_c & -> & Hsc).
    pose proof (resolver_calls_service evs_c Hsc) as Hc0.
    eexists. split; [exact Hu|]. split.
    + rewrite <- !app_assoc. reflexivity.
    + rewrite !resolver_calls_app, Hr0, Hc0. reflexivity.
Qed.

Lemma loop_calls_in_order out base idxs :
  forall df h df' h',
    foldM (process_row resolver classifier out)
      (map (fun i => (i, DF.row base i)) idxs) df h
    = (Return df', h') ->
    exists evs,
      h' = h ++ evs
      /\ Forall2 (fun i url => DF.get (DF.row base i) "URL" = Return url)
           idxs (resolver_calls evs).
Proof.
  induction idxs as [|i idxs IH]; intros df h df' h'; cbn [map foldM].
  - unfold ret. intros [= _ <-]. exists []. rewrite app_nil_r.
    split; [reflexivity|constructor].
  - unfold bind at 1.
    destruct (process_row resolver classifier out df (i, DF.row base i) h)
      as [[df1|e|] h1] eqn:Hrow; try discriminate.
    intros Hrest.
    apply process_row_calls_once in Hrow as (url & evs & Hu & -> & Hcalls).
    apply IH in Hrest as (evs' & -> & Hall).
    exists (evs ++ evs'). rewrite app_assoc. split; [reflexivity|].
    rewrite resolver_calls_app, Hcalls. constructor; assumption.
Qed.

End RowOrder.

(** X14.  When the pipeline returns, with components that add only events
    of the services, the resolver has been called once for every row, in
    the order of the rows, with the cell of the URL column of that row: no
    row is skipped, repeated or taken out of turn. *)
Theorem completed_batch_resolves_rows_in_order
  (resolver : cell -> M string)
  (classifier : string -> person_info -> M pyval)
  (df : DataFrame) (out : string) (h : history) (df' : DataFrame) (h' : history) :
  (forall url, service_only (resolver url)) ->
  (forall text info, service_only (classifier text info)) ->
  process_profiles_with resolver classifier df out h = (Return df', h') ->
  exists evs,
    h' = h ++ evs
    /\ resolver_calls evs = url_cells df.
Proof.
  intros Hres Hcls Hrun. rewrite process_profiles_with_run in Hrun.
  destruct (foldM _ _ _ _) as [[df1|e|] h1] eqn:Hloop; try discriminate Hrun.
  injection Hrun as _ <-.
  unfold DF.iterrows in Hloop.
  apply (loop_calls_in_order resolver classifier Hres Hcls) in Hloop
    as (evs & -> & Hall).
  rewrite ensure_interests_nrows in Hall.
  eexists. split; [rewrite <- !app_assoc; reflexivity|].
  rewrite !resolver_calls_app. cbn [resolver_calls flat_map app].
  fold (resolver_calls evs). rewrite app_nil_r.
  unfold url_cells.
  assert (Hget : forall i,
             DF.get (DF.row (ensure_interests df) i) "URL"
             = match DF.column "URL" df with
               | Some vs => Return (DF.cell_at i vs)
               | None => Raise (KeyError "URL")
               end).
  { intros i. rewrite ensure_interests_get by discriminate. apply get_row_column. }
  destruct (DF.column "URL" df) as [vs|].
  - apply Forall2_map_eq. eapply Forall2_impl; [exact Hall|].
    intros i url Hi. cbn beta in Hi. rewrite Hget in Hi. congruence.
  - destruct Hall as [|i url idxs urls Hi _]; [reflexivity|].
    rewrite Hget in Hi. discriminate Hi.
Qed.

(** The witness of X14: the two contacts of the scenarios. *)
Lemma completed_batch_resolves_rows_in_order_witness :
  exists evs,
    snd (process_profiles_with (stub_resolver Scenario.snippet_of)
           (stub_classifier Scenario.labels_of) Scenario.contacts output_file [])
    = [] ++ evs
    /\ resolver_calls evs = url_cells Scenario.contacts.
Proof.
  apply (completed_batch_resolves_rows_in_order
           (stub_resolver Scenario.snippet_of) (stub_classifier Scenario.labels_of)
           Scenario.contacts output_file []
           (DF.set_at 1 "Interests" (Text "Profile inaccessible")
              (DF.set_at 0 "Interests"
                 (Text "Software Development, Innovation, Writing, Critical Thinking, Lifelong Learning")
                 (ensure_interests Scenario.contacts)))).
  - intros url. apply so_ret.
  - intros text info. apply so_ret.
  - vm_compute. reflexivity.
Defined.

(** X15.  When the pipeline returns and the resolver gave a snippet for
    the last row, the table at the output location is the table the
    pipeline leaves: the file is up to date.  (After a last row without
    snippet it is not, as shown for the first statement on saving.) *)
Theorem file_is_current_after_classified_last_row
  (resolver : cell -> M string)
  (classifier : string -> person_info -> M pyval)
  (df : DataFrame) (out : string) (h : history) (df' : DataFrame) (h' : history)
  (n : nat) :
  nrows df = S n ->
  (forall url hh h1,
      DF.get (DF.row df n) "URL" = Return url ->
      resolver url hh <> (Return EmptyString, h1)) ->
  process_profiles_with resolver classifier df out h = (Return df', h') ->
  persisted out h' = Some df'.
Proof.
  intros Hn Hsnippet Hrun. rewrite process_profiles_with_run in Hrun.
  destruct (foldM _ _ _ _) as [[df1|e|] h1] eqn:Hloop; try discriminate Hrun.
  injection Hrun as -> <-.
  unfold DF.iterrows in Hloop. rewrite ensure_interests_nrows, Hn in Hloop.
  rewrite seq_S, map_app, foldM_app in Hloop. cbn [map foldM Nat.add] in Hloop.
  unfold bind at 1 in Hloop.
  destruct (foldM _ _ _ _) as [[df0|e|] h0]; try discriminate Hloop.
  unfold bind at 1 in Hloop.
  destruct (process_row _ _ _ _ _ _) as [[df2|e|] h2] eqn:Hrow; try discriminate Hloop.
  unfold ret in Hloop. injection Hloop as -> ->.
  apply process_row_inv in Hrow
    as (first & last & url & snippet & hr & _ & _ & Hu & Hr & Hcase).
  rewrite ensure_interests_get in Hu by discriminate.
  destruct Hcase as [(-> & _ & _)
                    |(_ & company & position & tags & hc & joined
                      & _ & _ & _ & _ & -> & ->)].
  - exfalso. exact (Hsnippet url _ _ Hu Hr).
  - rewrite !persisted_app. cbn [persisted]. rewrite String.eqb_refl. reflexivity.
Qed.

(** The witness of X15: the one contact the search knows. *)
Lemma file_is_current_after_classified_last_row_witness :
  persisted output_file
    (snd (process_profiles_with (stub_resolver Scenario.snippet_of)
            (stub_classifier Scenario.labels_of) Scenario.only_ada output_file []))
  = Some (DF.set_at 0 "Interests"
            (Text "Software Development, Innovation, Writing, Critical Thinking, Lifelong Learning")
            (ensure_interests Scenario.only_ada)).
Proof.
  apply (file_is_current_after_classified_last_row
           (stub_resolver Scenario.snippet_of) (stub_classifier Scenario.labels_of)
           Scenario.only_ada output_file [] _ _ 0).
  - reflexivity.
  - intros url hh h1 Hu. vm_compute in Hu. injection Hu as <-.
    vm_compute. discriminate.
  - vm_compute. reflexivity.
Defined.

(** ** The fallback scan *)

Lemma lower_char_idempotent c : Str.lower_char (Str.lower_char c) = Str.lower_char c.
Proof.
  destruct c as [b0 b1 b2 b3 b4 b5 b6 b7].
  destruct b0, b1, b2, b3, b4, b5, b6, b7; vm_compute; reflexivity.
Qed.

Lemma lower_idempotent s : Str.lower (Str.lower s) = Str.lower s.
Proof.
  induction s as [|c s IH]; [reflexivity|].
  change (Str.lower (String c s)) with (String (Str.lower_char c) (Str.lower s)).
  change (Str.lower (String (Str.lower_char c) (Str.lower s)))
    with (String (Str.lower_char (Str.lower_char c)) (Str.lower (Str.lower s))).
  rewrite lower_char_idempotent, IH. reflexivity.
Qed.

(** X16.  The fallback scan does not see the case of the response: two
    responses that differ only in the case of their letters yield the same
    labels, and so does a response and its lower-cased text.  The labels
    come out as the taxonomy spells them, not as the response does. *)
Theorem scan_ignores_case (text other : string) :
  Str.lower other = Str.lower text ->
  scan_interests other = scan_interests text
  /\ scan_interests (Str.lower text) = scan_interests text
  /\ forall label, In label (scan_interests text) -> In label INTERESTS.
Proof.
  intros Hsame. unfold scan_interests.
  split; [rewrite Hsame; reflexivity|].
  split; [rewrite lower_idempotent; reflexivity|].
  intros label Hin. apply filter_In in Hin. tauto.
Qed.

(** The witness of X16: a response in capitals. *)
Lemma scan_ignores_case_witness :
  scan_interests "SALES AND LEADERSHIP" = ["Leadership"; "Sales"].
Proof.
  refine (eq_trans
            (proj1 (scan_ignores_case "sales and leadership" "SALES AND LEADERSHIP" _))
            _).
  - vm_compute. reflexivity.
  - vm_compute. reflexivity.
Defined.
